(** * plan-perfect-supabase: client scripts of the content pipeline

    A shallow embedding of the Python scripts that call the remote
    functions of the content pipeline, and the properties their
    specification states about them.

    Conventions of the embedding:
    - a Python [str] is the list of its code points;
    - the values exchanged with the remote functions (what
      [response.json()] and [json.loads] return, and the dictionaries the
      scripts build) are [pyval];
    - a Python call either returns, raises, or (for a [while] loop run on
      bounded fuel) has not finished yet: [res];
    - the outside world is an [env]: the outcome of the n-th HTTP request
      and the n-th reading of [time.time()]; what a script does to it is
      recorded in a [world] (requests sent, clock readings taken, the
      trace of requests and sleeps, the files written);
    - clock readings, durations and intervals are exact numbers of one
      unit of time;
    - a request is recorded with its URL, body or query parameters and
      timeout; its headers (content type, API keys) are left out;
    - [print] only writes to the terminal and is left out, except in the
      streaming loop of [test-schema-perfect.py], where printing is all the
      section flags are for; an expression that a [print] evaluates and that
      can raise is kept. Operator interrupts (Ctrl+C) are not part of the
      model. *)

From Stdlib Require Import List ZArith NArith String Ascii Bool Lia.
From Stdlib Require Import Permutation DecimalString.
From Equations Require Import Equations.
Import ListNotations.

Local Open Scope Z_scope.

(* ===================================================================== *)
(** ** Python strings *)
(* ===================================================================== *)

Definition pystr := list N.

(** A literal of the source, given by its ASCII text. *)
Definition py (s : string) : pystr :=
  List.map N_of_ascii (list_ascii_of_string s).

Fixpoint str_eqb (a b : pystr) : bool :=
  match a, b with
  | [], [] => true
  | x :: a', y :: b' => N.eqb x y && str_eqb a' b'
  | _, _ => false
  end.

Lemma str_eqb_eq a b : str_eqb a b = true <-> a = b.
Proof.
  revert b; induction a as [|x a IH]; intros [|y b]; simpl; split;
    try congruence; try reflexivity.
  - intros H. apply andb_true_iff in H as [Hx Ha].
    apply N.eqb_eq in Hx. apply IH in Ha. congruence.
  - intros H. inversion H; subst. rewrite N.eqb_refl. simpl. now apply IH.
Qed.

Lemma str_eqb_refl a : str_eqb a a = true.
Proof. now apply str_eqb_eq. Qed.

(** [s.startswith(p)] *)
Fixpoint starts_with (p s : pystr) : bool :=
  match p, s with
  | [], _ => true
  | x :: p', y :: s' => N.eqb x y && starts_with p' s'
  | _ :: _, [] => false
  end.

(** [p in s] for strings: [p] occurs somewhere in [s]. *)
Fixpoint contains (p s : pystr) : bool :=
  starts_with p s ||
  match s with
  | [] => false
  | _ :: s' => contains p s'
  end.

Definition py_newline : pystr := [10%N].

(** [str(n)] for an integer. *)
Definition str_of_int (z : Z) : pystr :=
  py (NilZero.string_of_int (Z.to_int z)).

(** [s[:n]] for [n >= 0]. *)
Definition take (n : nat) (s : pystr) : pystr := firstn n s.

(* ===================================================================== *)
(** ** Python values *)
(* ===================================================================== *)

(** A [float], kept as the decimal literal it was read from: the double
    nearest to [(-1)^neg * mant * 10^exp], or one of the three constants
    the JSON decoder also accepts. *)
Inductive pyfloat :=
| FDec (neg : bool) (mant : N) (exp : Z)
| FInf (neg : bool)
| FNaN.

#[warnings="-register-all"]
Inductive pyval :=
| VNone
| VBool (b : bool)
| VInt (z : Z)
| VFloat (f : pyfloat)
| VStr (s : pystr)
| VList (l : list pyval)
| VDict (d : list (pystr * pyval)).

(** A decimal rounds to [0.0] exactly when its magnitude is at most
    [2^-1075], half of the smallest positive double. *)
Definition float_is_zero (f : pyfloat) : bool :=
  match f with
  | FDec _ m e =>
      if 0 <=? e then (m =? 0)%N
      else Z.of_N m * 2 ^ 1075 <=? 10 ^ (- e)
  | FInf _ => false
  | FNaN => false
  end.

(** Truth value of an object, as [if v:] tests it. *)
Definition truthy (v : pyval) : bool :=
  match v with
  | VNone => false
  | VBool b => b
  | VInt z => negb (z =? 0)
  | VFloat f => negb (float_is_zero f)
  | VStr s => match s with [] => false | _ => true end
  | VList l => match l with [] => false | _ => true end
  | VDict d => match d with [] => false | _ => true end
  end.

Definition type_name (v : pyval) : pystr :=
  match v with
  | VNone => py "NoneType"
  | VBool _ => py "bool"
  | VInt _ => py "int"
  | VFloat _ => py "float"
  | VStr _ => py "str"
  | VList _ => py "list"
  | VDict _ => py "dict"
  end.

(** Lookup in a dictionary, kept as its items in insertion order. *)
Fixpoint lookup (k : pystr) (d : list (pystr * pyval)) : option pyval :=
  match d with
  | [] => None
  | (k', v) :: d' => if str_eqb k k' then Some v else lookup k d'
  end.

(* ===================================================================== *)
(** ** Exceptions and results *)
(* ===================================================================== *)

Inductive exn :=
(* requests.exceptions (and their httpx counterparts): RequestException
   and its subclasses *)
| HTTPError (status : Z) (msg : pystr) (body : pystr)
| Timeout (msg : pystr)
| ConnectionError (msg : pystr)
| InvalidJSONError (msg : pystr)
| RequestException (msg : pystr)
(* built-in exceptions *)
| AttributeError (msg : pystr)
| TypeError (msg : pystr)
| KeyError (msg : pystr)
| IndexError (msg : pystr)
| ValueError (msg : pystr)
| JSONDecodeError (msg : pystr)          (* json's; a ValueError *)
| UnicodeDecodeError (msg : pystr)
(* not an Exception: raised by exit() *)
| SystemExit (code : Z).

Definition is_Timeout (e : exn) : bool :=
  match e with Timeout _ => true | _ => false end.

Definition is_JSONDecodeError (e : exn) : bool :=
  match e with JSONDecodeError _ => true | _ => false end.

Definition is_RequestException (e : exn) : bool :=
  match e with
  | HTTPError _ _ _ | Timeout _ | ConnectionError _ | InvalidJSONError _
  | RequestException _ => true
  | _ => false
  end.

(** [except Exception] catches everything but [SystemExit]. *)
Definition is_Exception (e : exn) : bool :=
  match e with SystemExit _ => false | _ => true end.

(** [str(e)] *)
Definition str_of_exn (e : exn) : pystr :=
  match e with
  | HTTPError _ m _ | Timeout m | ConnectionError m | InvalidJSONError m
  | RequestException m | AttributeError m | TypeError m | KeyError m
  | IndexError m | ValueError m | JSONDecodeError m
  | UnicodeDecodeError m => m
  | SystemExit c => str_of_int c
  end.

Inductive res (A : Type) :=
| Ret (a : A)
| Raise (e : exn)
| Unfinished.
Arguments Ret {A} a.
Arguments Raise {A} e.
Arguments Unfinished {A}.

(** [v.get(k, default)]: only dictionaries have the method. *)
Definition py_get (v : pyval) (k : pystr) (default : pyval) : res pyval :=
  match v with
  | VDict d => Ret (match lookup k d with Some x => x | None => default end)
  | _ => Raise (AttributeError
                  (py "'" ++ type_name v ++ py "' object has no attribute 'get'"))
  end.

(** [len(v)] *)
Definition py_len (v : pyval) : res Z :=
  match v with
  | VStr s => Ret (Z.of_nat (List.length s))
  | VList l => Ret (Z.of_nat (List.length l))
  | VDict d => Ret (Z.of_nat (List.length d))
  | _ => Raise (TypeError
                  (py "object of type '" ++ type_name v ++ py "' has no len()"))
  end.

(** [v[:n]]: strings and lists can be sliced; a dictionary takes the slice
    for a key, which it cannot hash. *)
Definition py_slice_to (n : nat) (v : pyval) : res pyval :=
  match v with
  | VStr s => Ret (VStr (take n s))
  | VList l => Ret (VList (firstn n l))
  | VDict _ => Raise (TypeError (py "unhashable type: 'slice'"))
  | _ => Raise (TypeError
                  (py "'" ++ type_name v ++ py "' object is not subscriptable"))
  end.

(** [v[0]]: the keys of the dictionaries here are strings, never [0]. *)
Definition py_index0 (v : pyval) : res pyval :=
  match v with
  | VList (x :: _) => Ret x
  | VList [] => Raise (IndexError (py "list index out of range"))
  | VStr (c :: _) => Ret (VStr [c])
  | VStr [] => Raise (IndexError (py "string index out of range"))
  | VDict _ => Raise (KeyError (py "0"))
  | _ => Raise (TypeError
                  (py "'" ++ type_name v ++ py "' object is not subscriptable"))
  end.

(** [v[k]] for a string key [k]. *)
Definition py_item (v : pyval) (k : pystr) : res pyval :=
  match v with
  | VDict d =>
      match lookup k d with
      | Some x => Ret x
      | None => Raise (KeyError (py "'" ++ k ++ py "'"))
      end
  | VStr _ => Raise (TypeError (py "string indices must be integers"))
  | VList _ => Raise (TypeError (py "list indices must be integers or slices, not str"))
  | _ => Raise (TypeError
                  (py "'" ++ type_name v ++ py "' object is not subscriptable"))
  end.

(** [k in v] for a dictionary [v]. *)
Definition has_key (k : pystr) (d : list (pystr * pyval)) : bool :=
  match lookup k d with Some _ => true | None => false end.

Definition res_bind {A B} (r : res A) (k : A -> res B) : res B :=
  match r with
  | Ret a => k a
  | Raise e => Raise e
  | Unfinished => Unfinished
  end.

(* ===================================================================== *)
(** ** The outside world *)
(* ===================================================================== *)

(** What the scripts read of an HTTP response. [json_doc] is what
    [response.json()] returns, [None] when the body is not JSON. *)
Record Response := mkResponse {
  status_code : Z;
  reason : pystr;
  text : pystr;
  json_doc : option pyval;
  iter_lines : list (list Byte.byte)   (* the lines of a streamed body *)
}.

(** A request that gets no response fails with a timeout, a connection
    error or another of the library's request errors. *)
Inductive failure :=
| TimedOut (msg : pystr)
| NoConnection (msg : pystr)
| OtherFailure (msg : pystr).

Definition exn_of_failure (f : failure) : exn :=
  match f with
  | TimedOut m => Timeout m
  | NoConnection m => ConnectionError m
  | OtherFailure m => RequestException m
  end.

Inductive HttpOutcome :=
| Responded (r : Response)
| Failed (f : failure).

Record env := mkEnv {
  http : nat -> HttpOutcome;   (* outcome of the n-th request *)
  clock : nat -> Z             (* n-th reading of time.time() *)
}.

Inductive event :=
| EPost (url : pystr) (body : pyval) (timeout : Z)
| EGet (url : pystr) (params : pyval) (timeout : Z)
| ESleep (secs : Z).

Inductive file_content :=
| Text (s : pystr)
| JsonDump (v : pyval) (indent : Z).

Record world := mkWorld {
  sent : nat;                               (* requests made so far *)
  reads : nat;                              (* clock readings so far *)
  trace : list event;                       (* oldest first *)
  files : list (pystr * file_content)       (* writes, latest first *)
}.

Definition world0 : world := mkWorld 0 0 [] [].

(** A computation of the scripts: it reads the environment, changes the
    world, and returns or raises. *)
Definition M (A : Type) : Type := env -> world -> res A * world.

Definition ret {A} (a : A) : M A := fun _ w => (Ret a, w).
Definition raise {A} (e : exn) : M A := fun _ w => (Raise e, w).

Definition bind {A B} (m : M A) (k : A -> M B) : M B :=
  fun E w =>
    match m E w with
    | (Ret a, w') => k a E w'
    | (Raise e, w') => (Raise e, w')
    | (Unfinished, w') => (Unfinished, w')
    end.

Notation "x <- m ;; k" := (bind m (fun x => k))
  (at level 61, m at next level, right associativity).
Notation "m ;;; k" := (bind m (fun _ => k))
  (at level 61, right associativity).

Definition lift {A} (r : res A) : M A := fun _ w => (r, w).

(** [try: m  except ...: h e] *)
Definition try_except {A} (m : M A) (h : exn -> M A) : M A :=
  fun E w =>
    match m E w with
    | (Raise e, w') => h e E w'
    | r => r
    end.

Definition log (ev : event) : M unit :=
  fun _ w => (Ret tt, mkWorld (sent w) (reads w) (trace w ++ [ev]) (files w)).

Definition next_outcome : M HttpOutcome :=
  fun E w => (Ret (http E (sent w)),
              mkWorld (S (sent w)) (reads w) (trace w) (files w)).

(** [requests.post(url, json=body, timeout=timeout, ...)] *)
Definition requests_post (url : pystr) (body : pyval) (timeout : Z)
  : M Response :=
  log (EPost url body timeout) ;;;
  o <- next_outcome ;;
  match o with
  | Responded r => ret r
  | Failed f => raise (exn_of_failure f)
  end.

(** [requests.get(url, params=params, timeout=timeout, ...)] *)
Definition requests_get (url : pystr) (params : pyval) (timeout : Z)
  : M Response :=
  log (EGet url params timeout) ;;;
  o <- next_outcome ;;
  match o with
  | Responded r => ret r
  | Failed f => raise (exn_of_failure f)
  end.

(** [response.raise_for_status()] of the requests library: an [HTTPError]
    for the 4xx and 5xx codes, nothing for the others. *)
Definition raise_for_status (url : pystr) (r : Response) : res unit :=
  let c := status_code r in
  if (400 <=? c) && (c <? 500) then
    Raise (HTTPError c (str_of_int c ++ py " Client Error: " ++ reason r
                          ++ py " for url: " ++ url) (text r))
  else if (500 <=? c) && (c <? 600) then
    Raise (HTTPError c (str_of_int c ++ py " Server Error: " ++ reason r
                          ++ py " for url: " ++ url) (text r))
  else Ret tt.

(** [response.json()]: on a body that is not JSON the library raises its
    own [JSONDecodeError], one of its [RequestException]s. *)
Definition response_json (r : Response) : res pyval :=
  match json_doc r with
  | Some v => Ret v
  | None => Raise (InvalidJSONError (py "Expecting value"))
  end.

(** [time.time()] *)
Definition time_time : M Z :=
  fun E w => (Ret (clock E (reads w)),
              mkWorld (sent w) (S (reads w)) (trace w) (files w)).

(** [time.sleep(secs)] *)
Definition sleep (secs : Z) : M unit :=
  if secs <? 0 then raise (ValueError (py "sleep length must be non-negative"))
  else log (ESleep secs).

(** [open(name, 'w')] creates the file or empties it; the working
    directory is taken to be writable. *)
Definition set_file (name : pystr) (c : file_content) : M unit :=
  fun _ w => (Ret tt, mkWorld (sent w) (reads w) (trace w) ((name, c) :: files w)).

Definition open_w (name : pystr) : M unit := set_file name (Text []).

(** [f.write(v)] on the file just opened. *)
Definition f_write (name : pystr) (v : pyval) : M unit :=
  match v with
  | VStr s => set_file name (Text s)
  | _ => raise (TypeError (py "write() argument must be str, not " ++ type_name v))
  end.

(** [json.dump(v, f, indent=indent)] on the file just opened. *)
Definition json_dump (name : pystr) (v : pyval) (indent : Z) : M unit :=
  set_file name (JsonDump v indent).

Definition SUPABASE_URL : pystr := py "https://jsypctdhynsdqrfifvdh.supabase.co".

(* ===================================================================== *)
(** ** generate-side-by-side-python-example.py *)
(* ===================================================================== *)

Module PythonExample.

Definition FUNCTION_URL : pystr :=
  SUPABASE_URL ++ py "/functions/v1/generate-side-by-side".

(** [GenerateSideBySide.generate_html]; [function_url] is the field set
    by [__init__]. The success branch prints [len(result.get('html', ''))],
    which raises on a value without a length. *)
Definition generate_html (function_url task_id : pystr) (timeout : Z)
  : M pyval :=
  let payload := VDict [(py "task_id", VStr task_id)] in
  try_except
    (response <- requests_post function_url payload timeout ;;
     lift (raise_for_status function_url response) ;;;
     result <- lift (response_json response) ;;
     ok <- lift (py_get result (py "success") VNone) ;;
     if truthy ok then
       html <- lift (py_get result (py "html") (VStr [])) ;;
       lift (py_len html) ;;;
       ret result
     else
       ret result)
    (fun e =>
       if is_Timeout e then raise e
       else if is_RequestException e then raise e
       else raise e).

Definition polling_timeout : pyval :=
  VDict [(py "success", VBool false);
         (py "error", VStr (py "Polling timeout"))].

(** The [while] loop of [generate_with_polling]; the progress line it
    prints reads the clock a second time. *)
Fixpoint poll_loop (fuel : nat) (start_time poll_interval max_wait : Z)
  : M pyval :=
  match fuel with
  | O => lift Unfinished
  | S fuel' =>
      now <- time_time ;;
      if now - start_time <? max_wait then
        time_time ;;;
        sleep poll_interval ;;;
        poll_loop fuel' start_time poll_interval max_wait
      else
        ret polling_timeout
  end.

Definition generate_with_polling (fuel : nat) (function_url task_id : pystr)
    (poll_interval max_wait : Z) : M pyval :=
  try_except
    (requests_post function_url (VDict [(py "task_id", VStr task_id)]) 10 ;;;
     ret tt)
    (fun e => if is_Timeout e then ret tt else raise e) ;;;
  start_time <- time_time ;;
  poll_loop fuel start_time poll_interval max_wait.

(** The dictionary appended in the [try] branch of
    [example_batch_parallel], from what [future.result()] gives. *)
Definition batch_entry (task_id : pystr) (r : res pyval) : res pyval :=
  res_bind r (fun result =>
  res_bind (py_get result (py "success") VNone) (fun ok =>
  res_bind (py_get result (py "html") (VStr [])) (fun html =>
  res_bind (py_len html) (fun n =>
  Ret (VDict [(py "task_id", VStr task_id);
              (py "success", ok);
              (py "html_length", VInt n)]))))).

Definition failed_entry (task_id : pystr) (e : exn) : pyval :=
  VDict [(py "task_id", VStr task_id);
         (py "success", VBool false);
         (py "error", VStr (str_of_exn e))].

(** [executor.submit(client.generate_html, task_id)]: the i-th future
    holds the outcome of the call its worker makes; [answer i] is what the
    network answers to that call. *)
Definition future_result (answer : nat -> HttpOutcome) (task_ids : list pystr)
    (i : nat) : res pyval :=
  fst (generate_html FUNCTION_URL (nth i task_ids []) 300
         (mkEnv (fun _ => answer i) (fun _ => 0)) world0).

(** [future_to_task]: the futures, numbered in submission order, with
    their task IDs. *)
Definition future_to_task (task_ids : list pystr) : list (nat * pystr) :=
  combine (seq 0 (List.length task_ids)) task_ids.

Fixpoint task_of (future : nat) (d : list (nat * pystr)) : option pystr :=
  match d with
  | [] => None
  | (f, t) :: d' => if Nat.eqb future f then Some t else task_of future d'
  end.

(** The body of [for future in as_completed(future_to_task)], on the
    futures in the order they complete. A future that is not a key of the
    dictionary would be a [KeyError]. *)
Fixpoint collect (answer : nat -> HttpOutcome) (task_ids : list pystr)
    (completed : list nat) (results : list pyval) : res (list pyval) :=
  match completed with
  | [] => Ret results
  | future :: rest =>
      match task_of future (future_to_task task_ids) with
      | None => Raise (KeyError (py "future"))
      | Some task_id =>
          match batch_entry task_id (future_result answer task_ids future) with
          | Ret entry => collect answer task_ids rest (results ++ [entry])
          | Raise e =>
              if is_Exception e then
                collect answer task_ids rest
                  (results ++ [failed_entry task_id e])
              else Raise e
          | Unfinished => Unfinished
          end
      end
  end.

Definition example_batch_parallel (answer : nat -> HttpOutcome)
    (task_ids : list pystr) (completed : list nat) : res (list pyval) :=
  collect answer task_ids completed [].

Definition retry_failure (max_retries : Z) : pyval :=
  VDict [(py "success", VBool false);
         (py "error", VStr (py "Failed after " ++ str_of_int max_retries
                              ++ py " attempts"))].

(** One turn of the [for attempt in range(1, max_retries + 1)] loop of
    [generate_with_retry]: [Some result] when the turn returns. *)
Definition attempt_once (task_id : pystr) (max_retries retry_delay attempt : Z)
  : M (option pyval) :=
  try_except
    (result <- generate_html FUNCTION_URL task_id 300 ;;
     ok <- lift (py_get result (py "success") VNone) ;;
     if truthy ok then ret (Some result)
     else
       lift (py_get result (py "error") VNone) ;;;
       (if attempt <? max_retries then sleep retry_delay else ret tt) ;;;
       ret None)
    (fun e =>
       if is_Timeout e then
         (if attempt <? max_retries then sleep retry_delay else ret tt) ;;;
         ret None
       else if is_Exception e then
         (if attempt <? max_retries then sleep retry_delay else ret tt) ;;;
         ret None
       else raise e).

Fixpoint retry_loop (task_id : pystr) (max_retries retry_delay : Z)
    (attempts : list Z) : M pyval :=
  match attempts with
  | [] => ret (retry_failure max_retries)
  | attempt :: rest =>
      r <- attempt_once task_id max_retries retry_delay attempt ;;
      match r with
      | Some result => ret result
      | None => retry_loop task_id max_retries retry_delay rest
      end
  end.

(** [range(1, max_retries + 1)] *)
Definition attempts_range (max_retries : Z) : list Z :=
  List.map Z.of_nat (seq 1 (Z.to_nat max_retries)).

Definition generate_with_retry (task_id : pystr) (max_retries retry_delay : Z)
  : M pyval :=
  retry_loop task_id max_retries retry_delay (attempts_range max_retries).

End PythonExample.

(* ===================================================================== *)
(** ** generate-side-by-side-quickstart.py *)
(* ===================================================================== *)

Module QuickStart.

Definition FUNCTION_URL : pystr :=
  SUPABASE_URL ++ py "/functions/v1/generate-side-by-side".

Definition generate_html (task_id : pystr) : M pyval :=
  response <- requests_post FUNCTION_URL
                (VDict [(py "task_id", VStr task_id)]) 300 ;;
  lift (raise_for_status FUNCTION_URL response) ;;;
  result <- lift (response_json response) ;;
  ok <- lift (py_get result (py "success") VNone) ;;
  (if truthy ok then
     html <- lift (py_get result (py "html") (VStr [])) ;;
     lift (py_len html) ;;;
     ret tt
   else ret tt) ;;;
  ret result.

(** The [__main__] block, for the task ID it is given. *)
Definition main (TASK_ID : pystr) : M unit :=
  try_except
    (result <- generate_html TASK_ID ;;
     ok <- lift (py_get result (py "success") VNone) ;;
     if truthy ok then
       html <- lift (py_get result (py "html") (VStr [])) ;;
       open_w (py "generated-output.html") ;;;
       f_write (py "generated-output.html") html ;;;
       schema <- lift (py_get result (py "schema") VNone) ;;
       if truthy schema then
         open_w (py "generated-schema.json") ;;;
         schema' <- lift (py_item result (py "schema")) ;;
         json_dump (py "generated-schema.json") schema' 2
       else ret tt
     else ret tt)
    (fun e =>
       if is_Timeout e then ret tt
       else if is_RequestException e then ret tt
       else if is_Exception e then ret tt
       else raise e).

Definition TASK_ID : pystr := py "your-task-uuid-here".

End QuickStart.

(* ===================================================================== *)
(** ** call-generate-side-by-side.py *)
(* ===================================================================== *)

Module CallGenerate.

Definition FUNCTION_URL : pystr :=
  SUPABASE_URL ++ py "/functions/v1/generate-side-by-side".

Definition TASK_ID : pystr := py "4b0f2b87-2c37-4cad-b7af-f9aa42ed73e3".

Definition html_filename (TASK_ID : pystr) : pystr :=
  py "output-" ++ TASK_ID ++ py ".html".

Definition schema_filename (TASK_ID : pystr) : pystr :=
  py "schema-" ++ TASK_ID ++ py ".json".

(** The script, for the task ID it is given. [exit(1)] raises
    [SystemExit], which none of the handlers catches. *)
Definition main (TASK_ID : pystr) : M unit :=
  time_time ;;;
  try_except
    (response <- requests_post FUNCTION_URL
                   (VDict [(py "task_id", VStr TASK_ID)]) 600 ;;
     time_time ;;;
     if negb (status_code response =? 200) then raise (SystemExit 1)
     else
       result <- lift (response_json response) ;;
       ok <- lift (py_get result (py "success") VNone) ;;
       if truthy ok then
         (* the details printed first *)
         lift (py_get result (py "task_id") VNone) ;;;
         html <- lift (py_get result (py "html") (VStr [])) ;;
         lift (py_len html) ;;;
         lift (py_slice_to 200 html) ;;;
         (* save HTML to file *)
         open_w (html_filename TASK_ID) ;;;
         f_write (html_filename TASK_ID) html ;;;
         (* save schema if available *)
         schema <- lift (py_get result (py "schema") VNone) ;;
         if truthy schema then
           open_w (schema_filename TASK_ID) ;;;
           schema' <- lift (py_item result (py "schema")) ;;
           json_dump (schema_filename TASK_ID) schema' 2
         else ret tt
       else
         lift (py_get result (py "error") VNone) ;;;
         ret tt)
    (fun e =>
       if is_Timeout e then ret tt
       else if is_RequestException e then ret tt
       else if is_Exception e then ret tt
       else raise e).

End CallGenerate.

(* ===================================================================== *)
(** ** test-content-intake.py *)
(* ===================================================================== *)

Definition is_terminal (status : pyval) : bool :=
  match status with
  | VStr s => str_eqb s (py "completed") || str_eqb s (py "failed")
  | _ => false
  end.

(** How [monitor_job] came to its end: both ways return [None]. *)
Inductive monitor_end :=
| JobFinished (status : pyval)
| TimeExpired.

Module ContentIntake.

Definition TEST_JOB : pyval :=
  VDict [(py "job_type", VStr (py "article"));
         (py "requester_email", VStr (py "test@example.com"));
         (py "payload",
          VDict [(py "title",
                  VStr (py "Test Article: Benefits of AI in Content Marketing"));
                 (py "keywords",
                  VList [VStr (py "AI content marketing");
                         VStr (py "automated content");
                         VStr (py "content generation")]);
                 (py "domain", VStr (py "example.com"));
                 (py "target_audience", VStr (py "marketing professionals"));
                 (py "tone", VStr (py "professional yet conversational"))]);
         (py "initial_stage", VStr (py "research"))].

Definition submit_job : M pyval :=
  let url := SUPABASE_URL ++ py "/functions/v1/content-intake" in
  try_except
    (response <- requests_post url TEST_JOB 30 ;;
     if (status_code response =? 200) || (status_code response =? 202) then
       data <- lift (response_json response) ;;
       job_id <- lift (py_get data (py "job_id") VNone) ;;
       ret job_id
     else
       ret VNone)
    (fun e => if is_RequestException e then ret VNone else raise e).

Definition job_params (job_id : pystr) : pyval :=
  VDict [(py "id", VStr (py "eq." ++ job_id)); (py "select", VStr (py "*"))].

(** [None] is [VNone]. *)
Definition check_job_status (job_id : pystr) : M pyval :=
  let url := SUPABASE_URL ++ py "/rest/v1/content_jobs" in
  r <- try_except
         (response <- requests_get url (job_params job_id) 10 ;;
          if status_code response =? 200 then
            jobs <- lift (response_json response) ;;
            if truthy jobs then
              job <- lift (py_index0 jobs) ;;
              lift (py_get job (py "status") VNone) ;;;
              ret (Some job)
            else ret None
          else ret None)
         (fun e => if is_Exception e then ret None else raise e) ;;
  match r with
  | Some job => ret job
  | None => ret VNone
  end.

(** Whatever the reply is, it is only printed, and every exception is
    caught: what remains is the request. *)
Definition check_job_events (job_id : pystr) : M unit :=
  let url := SUPABASE_URL ++ py "/rest/v1/content_job_events" in
  try_except
    (requests_get url
       (VDict [(py "job_id", VStr (py "eq." ++ job_id));
               (py "select", VStr (py "stage,status,message,created_at"));
               (py "order", VStr (py "created_at.desc"));
               (py "limit", VInt 10)]) 10 ;;;
     ret tt)
    (fun e => if is_Exception e then ret tt else raise e).

Fixpoint monitor_loop (fuel : nat) (job_id : pystr)
    (start_time duration interval : Z) : M monitor_end :=
  match fuel with
  | O => lift Unfinished
  | S fuel' =>
      now <- time_time ;;
      if now - start_time <? duration then
        job <- check_job_status job_id ;;
        finished <-
          (if truthy job then
             status <- lift (py_get job (py "status") VNone) ;;
             if is_terminal status then
               check_job_events job_id ;;;
               ret (Some status)
             else ret None
           else ret None) ;;
        match finished with
        | Some status => ret (JobFinished status)
        | None =>
            sleep interval ;;;
            monitor_loop fuel' job_id start_time duration interval
        end
      else
        ret TimeExpired
  end.

Definition monitor_job (fuel : nat) (job_id : pystr) (duration interval : Z)
  : M monitor_end :=
  start_time <- time_time ;;
  monitor_loop fuel job_id start_time duration interval.

End ContentIntake.

(* ===================================================================== *)
(** ** test-medidrive-content.py *)
(* ===================================================================== *)

Module Medidrive.

Definition MEDIDRIVE_JOB : pyval :=
  VDict [(py "job_type", VStr (py "article"));
         (py "requester_email", VStr (py "martin@loud.us"));
         (py "payload",
          VDict [(py "title",
                  VStr (py "Complete Guide to Non-Emergency Ambulance Services: When and How to Use Medical Transport"));
                 (py "domain", VStr (py "medidrive.com"));
                 (py "keywords",
                  VList [VStr (py "non emergency ambulance");
                         VStr (py "non urgent ambulance service");
                         VStr (py "medical patient transport");
                         VStr (py "ambulance transfer for non emergencies")]);
                 (py "primary_keyword", VStr (py "non emergency ambulance"));
                 (py "target_audience",
                  VStr (py "Patients and family members who need non-emergency medical transportation"));
                 (py "tone", VStr (py "professional, informative, and reassuring"));
                 (py "content_type", VStr (py "comprehensive guide"))]);
         (py "initial_stage", VStr (py "research"))].

Definition submit_job : M pyval :=
  let url := SUPABASE_URL ++ py "/functions/v1/content-intake" in
  try_except
    (response <- requests_post url MEDIDRIVE_JOB 30 ;;
     if (status_code response =? 200) || (status_code response =? 202) then
       data <- lift (response_json response) ;;
       job_id <- lift (py_get data (py "job_id") VNone) ;;
       ret job_id
     else
       ret VNone)
    (fun e => if is_RequestException e then ret VNone else raise e).

Definition check_job_status (job_id : pystr) : M pyval :=
  let url := SUPABASE_URL ++ py "/rest/v1/content_jobs" in
  r <- try_except
         (response <- requests_get url (ContentIntake.job_params job_id) 10 ;;
          if status_code response =? 200 then
            jobs <- lift (response_json response) ;;
            if truthy jobs then
              job <- lift (py_index0 jobs) ;;
              lift (py_get job (py "status") VNone) ;;;
              ret (Some job)
            else ret None
          else ret None)
         (fun e => if is_Exception e then ret None else raise e) ;;
  match r with
  | Some job => ret job
  | None => ret VNone
  end.

(** As for the events of the intake script: the reply is only printed
    and every exception is caught. *)
Definition check_stage_progress (job_id : pystr) : M unit :=
  let url := SUPABASE_URL ++ py "/rest/v1/content_job_stages" in
  try_except
    (requests_get url
       (VDict [(py "job_id", VStr (py "eq." ++ job_id));
               (py "select", VStr (py "*"));
               (py "order", VStr (py "stage"))]) 10 ;;;
     ret tt)
    (fun e => if is_Exception e then ret tt else raise e).

Definition check_events (job_id : pystr) : M unit :=
  let url := SUPABASE_URL ++ py "/rest/v1/content_job_events" in
  try_except
    (requests_get url
       (VDict [(py "job_id", VStr (py "eq." ++ job_id));
               (py "select", VStr (py "stage,status,message,created_at"));
               (py "order", VStr (py "created_at.desc"));
               (py "limit", VInt 10)]) 10 ;;;
     ret tt)
    (fun e => if is_Exception e then ret tt else raise e).

Section Monitor.

(** [str(v)], as an f-string formats a value. *)
Variable format : pyval -> pystr.

(** [last_status] starts as [None], which no string equals. *)
Definition status_changed (current : pystr) (last : option pystr) : bool :=
  match last with
  | None => true
  | Some l => negb (str_eqb current l)
  end.

Fixpoint monitor_loop (fuel : nat) (job_id : pystr)
    (start_time duration interval : Z) (last_status : option pystr)
  : M monitor_end :=
  match fuel with
  | O => lift Unfinished
  | S fuel' =>
      now <- time_time ;;
      if now - start_time <? duration then
        job <- check_job_status job_id ;;
        step <-
          (if truthy job then
             status <- lift (py_get job (py "status") VNone) ;;
             stage <- lift (py_get job (py "stage") VNone) ;;
             let current_status := format status ++ py ":" ++ format stage in
             last' <-
               (if status_changed current_status last_status then
                  check_stage_progress job_id ;;;
                  check_events job_id ;;;
                  ret (Some current_status)
                else ret last_status) ;;
             status' <- lift (py_get job (py "status") VNone) ;;
             if is_terminal status' then
               check_stage_progress job_id ;;;
               check_events job_id ;;;
               ret (Some status', last')
             else ret (None, last')
           else ret (None, last_status)) ;;
        match step with
        | (Some status, _) => ret (JobFinished status)
        | (None, last') =>
            sleep interval ;;;
            monitor_loop fuel' job_id start_time duration interval last'
        end
      else
        ret TimeExpired
  end.

Definition monitor_job (fuel : nat) (job_id : pystr) (duration interval : Z)
  : M monitor_end :=
  start_time <- time_time ;;
  monitor_loop fuel job_id start_time duration interval None.

End Monitor.

End Medidrive.

(* ===================================================================== *)
(** ** generate-hero-image-from-unedited.py and generate-hero-image-helper.py *)
(* ===================================================================== *)

(** [httpx]'s [response.json()] raises the standard library's
    [JSONDecodeError], a [ValueError]. *)
Definition httpx_json (r : Response) : res pyval :=
  match json_doc r with
  | Some v => Ret v
  | None => Raise (JSONDecodeError (py "Expecting value"))
  end.

(** [client.post(url, json=body, headers=headers)] of an
    [httpx.AsyncClient(timeout=timeout)], awaited. *)
Definition client_post (url : pystr) (body : pyval) (timeout : Z) : M Response :=
  requests_post url body timeout.

(** A timeout is a float of whole seconds (300.0 by default); below
    10^16 such a float prints as its integer followed by ".0". *)
Definition str_of_seconds (timeout : Z) : pystr :=
  str_of_int timeout ++ py ".0".

Definition prompt_payload (guid : pystr) : pyval :=
  VDict [(py "content_plan_outline_guid", VStr guid);
         (py "use_unedited_content", VBool true)].

Definition image_payload (guid : pystr) : pyval :=
  VDict [(py "guid", VStr guid); (py "regenerate", VBool false)].

Definition prompt_failed (r : Response) : pyval :=
  VDict [(py "success", VBool false);
         (py "error", VStr (py "Prompt generation failed: HTTP "
                              ++ str_of_int (status_code r)));
         (py "details", VStr (take 500 (text r)))].

Definition image_failed (r : Response) (prompt_result : pyval) : pyval :=
  VDict [(py "success", VBool false);
         (py "error", VStr (py "Image generation failed: HTTP "
                              ++ str_of_int (status_code r)));
         (py "details", VStr (take 500 (text r)));
         (py "prompt_result", prompt_result)].

(** [prompt_result.get('save_status', {}).get(key)] *)
Definition save_status_get (prompt_result : pyval) (key : pystr) : res pyval :=
  res_bind (py_get prompt_result (py "save_status") (VDict []))
    (fun save_status => py_get save_status key VNone).

Definition hero_success (prompt_result image_result url prompt_id : pyval)
  : pyval :=
  VDict [(py "success", VBool true);
         (py "prompt_result", prompt_result);
         (py "image_result", image_result);
         (py "hero_image_url", url);
         (py "hero_image_prompt_id", prompt_id)].

Module HeroImage.

Definition generate_hero_image_from_unedited
    (content_plan_outline_guid : pystr) (timeout : Z) : M pyval :=
  try_except
    (let prompt_function_url :=
       SUPABASE_URL ++ py "/functions/v1/generate-hero-image-prompt" in
     prompt_response <-
       client_post prompt_function_url
         (prompt_payload content_plan_outline_guid) timeout ;;
     if negb (status_code prompt_response =? 200) then
       ret (prompt_failed prompt_response)
     else
       prompt_result <- lift (httpx_json prompt_response) ;;
       saved <- lift (save_status_get prompt_result (py "success")) ;;
       (if truthy saved then
          lift (save_status_get prompt_result (py "hero_image_prompt_id")) ;;;
          lift (py_get prompt_result (py "content_source") (VStr (py "unknown"))) ;;;
          lift (py_get prompt_result (py "aspect_ratio") (VStr (py "16:9"))) ;;;
          ret tt
        else ret tt) ;;;
       let image_function_url :=
         SUPABASE_URL ++ py "/functions/v1/generate-hero-image" in
       image_response <-
         client_post image_function_url
           (image_payload content_plan_outline_guid) timeout ;;
       if negb (status_code image_response =? 200) then
         ret (image_failed image_response prompt_result)
       else
         image_result <- lift (httpx_json image_response) ;;
         ok <- lift (py_get image_result (py "success") VNone) ;;
         (if truthy ok then
            lift (py_get image_result (py "hero_image_url") (VStr (py "N/A"))) ;;;
            lift (py_get image_result (py "title") (VStr (py "N/A"))) ;;;
            ret tt
          else ret tt) ;;;
         url <- lift (py_get image_result (py "hero_image_url") VNone) ;;
         prompt_id <- lift (save_status_get prompt_result
                              (py "hero_image_prompt_id")) ;;
         ret (hero_success prompt_result image_result url prompt_id))
    (fun e =>
       if is_Timeout e then
         ret (VDict [(py "success", VBool false);
                     (py "error", VStr (py "Request timed out after "
                                          ++ str_of_seconds timeout
                                          ++ py " seconds"))])
       else
         match e with
         | HTTPError status _ body =>
             ret (VDict [(py "success", VBool false);
                         (py "error", VStr (py "HTTP " ++ str_of_int status));
                         (py "details", VStr (take 500 body))])
         | _ =>
             if is_Exception e then
               ret (VDict [(py "success", VBool false);
                           (py "error", VStr (str_of_exn e))])
             else raise e
         end).

End HeroImage.

Module HeroImageHelper.

(** [supabase_service_key] only adds the [Authorization] header. *)
Definition generate_hero_image_from_unedited_content
    (content_plan_outline_guid supabase_url : pystr)
    (supabase_service_key : option pystr) (timeout : Z)
  : M pyval :=
  prompt_response <-
    client_post (supabase_url ++ py "/functions/v1/generate-hero-image-prompt")
      (prompt_payload content_plan_outline_guid) timeout ;;
  if negb (status_code prompt_response =? 200) then
    ret (prompt_failed prompt_response)
  else
    prompt_result <- lift (httpx_json prompt_response) ;;
    image_response <-
      client_post (supabase_url ++ py "/functions/v1/generate-hero-image")
        (image_payload content_plan_outline_guid) timeout ;;
    if negb (status_code image_response =? 200) then
      ret (image_failed image_response prompt_result)
    else
      image_result <- lift (httpx_json image_response) ;;
      url <- lift (py_get image_result (py "hero_image_url") VNone) ;;
      prompt_id <- lift (save_status_get prompt_result
                           (py "hero_image_prompt_id")) ;;
      ret (hero_success prompt_result image_result url prompt_id).

End HeroImageHelper.

(* ===================================================================== *)
(** ** Text handling of test-schema-perfect.py *)
(* ===================================================================== *)

(** [bytes.decode('utf-8')]: strict UTF-8, without overlong forms,
    surrogates or code points above U+10FFFF. *)
Definition is_cont (b : N) : bool := ((128 <=? b) && (b <=? 191))%N.

Fixpoint utf8 (bs : list N) : option pystr :=
  (match bs with
   | [] => Some []
   | b0 :: t0 =>
       if b0 <? 128 then option_map (cons b0) (utf8 t0)
       else if (194 <=? b0) && (b0 <=? 223) then
         match t0 with
         | b1 :: t1 =>
             if is_cont b1
             then option_map (cons ((b0 - 192) * 64 + (b1 - 128))) (utf8 t1)
             else None
         | _ => None
         end
       else if (224 <=? b0) && (b0 <=? 239) then
         match t0 with
         | b1 :: b2 :: t2 =>
             if is_cont b1 && is_cont b2
                && (negb (b0 =? 224) || (160 <=? b1))
                && (negb (b0 =? 237) || (b1 <=? 159))
             then option_map
                    (cons ((b0 - 224) * 4096 + (b1 - 128) * 64 + (b2 - 128)))
                    (utf8 t2)
             else None
         | _ => None
         end
       else if (240 <=? b0) && (b0 <=? 244) then
         match t0 with
         | b1 :: b2 :: b3 :: t3 =>
             if is_cont b1 && is_cont b2 && is_cont b3
                && (negb (b0 =? 240) || (144 <=? b1))
                && (negb (b0 =? 244) || (b1 <=? 143))
             then option_map
                    (cons ((b0 - 240) * 262144 + (b1 - 128) * 4096
                           + (b2 - 128) * 64 + (b3 - 128)))
                    (utf8 t3)
             else None
         | _ => None
         end
       else None
   end)%N.

Definition decode_utf8 (line : list Byte.byte) : res pystr :=
  match utf8 (List.map Byte.to_N line) with
  | Some s => Ret s
  | None => Raise (UnicodeDecodeError
                     (py "'utf-8' codec can't decode bytes"))
  end.

(** [c.isspace()] *)
Definition is_space (c : N) : bool :=
  (((9 <=? c) && (c <=? 13)) || ((28 <=? c) && (c <=? 32))
   || (c =? 133) || (c =? 160) || (c =? 5760)
   || ((8192 <=? c) && (c <=? 8202))
   || (c =? 8232) || (c =? 8233) || (c =? 8239) || (c =? 8287)
   || (c =? 12288))%N.

Fixpoint lstrip (s : pystr) : pystr :=
  match s with
  | c :: s' => if is_space c then lstrip s' else s
  | [] => []
  end.

Definition rstrip (s : pystr) : pystr := rev (lstrip (rev s)).

(** [s.strip()] *)
Definition strip (s : pystr) : pystr := rstrip (lstrip s).

(** What follows the first occurrence of [close] in [s]. *)
Fixpoint find_after (close s : pystr) : option pystr :=
  if starts_with close s then Some (skipn (List.length close) s)
  else match s with
       | [] => None
       | _ :: s' => find_after close s'
       end.

(** The pattern [open.*?close] (with [re.DOTALL]) tried at the start of
    [s]: what follows the match. Neither tag of the script is empty, so a
    match is never empty; the length test says so for any tags. *)
Definition match_block (open close s : pystr) : option pystr :=
  if starts_with open s then
    match find_after close (skipn (List.length open) s) with
    | Some rest =>
        if Nat.ltb (List.length rest) (List.length s) then Some rest else None
    | None => None
    end
  else None.

Lemma match_block_shorter open close s rest :
  match_block open close s = Some rest ->
  (List.length rest < List.length s)%nat.
Proof.
  unfold match_block. destruct (starts_with open s); [|discriminate].
  destruct (find_after close _); [|discriminate].
  destruct (Nat.ltb _ _) eqn:E; [|discriminate].
  intros H; inversion H; subst. now apply Nat.ltb_lt.
Defined.

Definition inspect {A : Type} (x : A) : {y : A | x = y} := exist _ x eq_refl.

(** [re.sub(open.*?close, '', s, flags=re.DOTALL)]: scan from the left, drop
    each match and go on after it. *)
Equations re_sub_block (open close s : pystr) : pystr
  by wf (List.length s) lt :=
  re_sub_block open close [] := [];
  re_sub_block open close (c :: s') with inspect (match_block open close (c :: s')) := {
    | exist _ (Some rest) H := re_sub_block open close rest;
    | exist _ None _ := c :: re_sub_block open close s' }.
Next Obligation.
  now apply match_block_shorter in H.
Defined.

(* ===================================================================== *)
(** ** A model of the standard library's json.loads *)
(* ===================================================================== *)

(** The scripts' own code stops at the call of [json.loads]; the
    properties below hold for any decoder. This model of the decoder
    (the grammar CPython accepts, integers exact, floats kept as their
    decimal literal, no recursion limit) serves to run the script on
    concrete streams. *)
Module JsonDecoder.

Local Open Scope N_scope.

Inductive parsed (A : Type) :=
| Parsed (a : A) (rest : pystr)
| Invalid
| NoFuel.
Arguments Parsed {A} a rest.
Arguments Invalid {A}.
Arguments NoFuel {A}.

Definition is_ws (c : N) : bool :=
  (c =? 32) || (c =? 9) || (c =? 10) || (c =? 13).

Fixpoint skip_ws (s : pystr) : pystr :=
  match s with
  | c :: s' => if is_ws c then skip_ws s' else s
  | [] => []
  end.

Definition is_digit (c : N) : bool := (48 <=? c) && (c <=? 57).

Definition hex_digit (c : N) : option N :=
  if (48 <=? c) && (c <=? 57) then Some (c - 48)
  else if (65 <=? c) && (c <=? 70) then Some (c - 55)
  else if (97 <=? c) && (c <=? 102) then Some (c - 87)
  else None.

Definition hex4 (a b c d : N) : option N :=
  match hex_digit a, hex_digit b, hex_digit c, hex_digit d with
  | Some x, Some y, Some z, Some w => Some (((x * 16 + y) * 16 + z) * 16 + w)
  | _, _, _, _ => None
  end.

(** The character a backslash escape other than [\u] stands for. *)
Definition simple_escape (e : N) : option N :=
  if e =? 34 then Some 34            (* quote *)
  else if e =? 92 then Some 92       (* backslash *)
  else if e =? 47 then Some 47       (* slash *)
  else if e =? 98 then Some 8        (* b *)
  else if e =? 102 then Some 12      (* f *)
  else if e =? 110 then Some 10      (* n *)
  else if e =? 114 then Some 13      (* r *)
  else if e =? 116 then Some 9       (* t *)
  else None.

Definition is_high_surrogate (u : N) : bool := (55296 <=? u) && (u <=? 56319).
Definition is_low_surrogate (u : N) : bool := (56320 <=? u) && (u <=? 57343).
Definition join_surrogates (hi lo : N) : N :=
  65536 + (hi - 55296) * 1024 + (lo - 56320).

Definition cons_str (c : N) (r : option (pystr * pystr))
  : option (pystr * pystr) :=
  match r with
  | Some (s, rest) => Some (c :: s, rest)
  | None => None
  end.

(** The string that starts after an opening quote, and what follows its
    closing quote (strict mode: no control character inside). *)
Fixpoint scanstring (s : pystr) : option (pystr * pystr) :=
  match s with
  | [] => None
  | c :: s' =>
      if c =? 34 then Some ([], s')
      else if c =? 92 then
        match s' with
        | [] => None
        | e :: s'' =>
            if e =? 117 then
              match s'' with
              | h1 :: h2 :: h3 :: h4 :: r =>
                  match hex4 h1 h2 h3 h4 with
                  | None => None
                  | Some u =>
                      if is_high_surrogate u then
                        match r with
                        | b :: x :: g1 :: g2 :: g3 :: g4 :: r2 =>
                            if (b =? 92) && (x =? 117) then
                              match hex4 g1 g2 g3 g4 with
                              | None => None
                              | Some u2 =>
                                  if is_low_surrogate u2
                                  then cons_str (join_surrogates u u2)
                                         (scanstring r2)
                                  else cons_str u (scanstring r)
                              end
                            else cons_str u (scanstring r)
                        | _ => cons_str u (scanstring r)
                        end
                      else cons_str u (scanstring r)
                  end
              | _ => None
              end
            else
              match simple_escape e with
              | Some ch => cons_str ch (scanstring s'')
              | None => None
              end
        end
      else if c <? 32 then None
      else cons_str c (scanstring s')
  end.

(** The longest run of digits at the start of [s], and the rest. *)
Fixpoint span_digits (s : pystr) : pystr * pystr :=
  match s with
  | c :: s' =>
      if is_digit c then let (ds, r) := span_digits s' in (c :: ds, r)
      else ([], s)
  | [] => ([], [])
  end.

Definition digits_value (ds : pystr) : N :=
  fold_left (fun acc d => acc * 10 + (d - 48)) ds 0.

(** The integer part [0|[1-9][0-9]*]. *)
Definition int_part (s : pystr) : option (pystr * pystr) :=
  match s with
  | c :: s' =>
      if c =? 48 then Some ([c], s')
      else if is_digit c then Some (span_digits s)
      else None
  | [] => None
  end.

(** The fraction [\.[0-9]+], when there is one. *)
Definition frac_part (s : pystr) : pystr * pystr :=
  match s with
  | dot :: s' =>
      if dot =? 46 then
        match span_digits s' with
        | ([], _) => ([], s)
        | (ds, r) => (ds, r)
        end
      else ([], s)
  | [] => ([], s)
  end.

(** The exponent [[eE][-+]?[0-9]+], when there is one. *)
Definition exp_part (s : pystr) : option Z * pystr :=
  match s with
  | e :: s' =>
      if (e =? 101) || (e =? 69) then
        let (neg, s'') :=
          match s' with
          | sg :: t => if sg =? 45 then (true, t)
                       else if sg =? 43 then (false, t)
                       else (false, s')
          | [] => (false, s')
          end in
        match span_digits s'' with
        | ([], _) => (None, s)
        | (ds, r) =>
            (Some (if neg then (- Z.of_N (digits_value ds))%Z
                   else Z.of_N (digits_value ds)), r)
        end
      else (None, s)
  | [] => (None, s)
  end.

(** A number: an [int] without fraction and exponent, else a [float]. *)
Definition match_number (s : pystr) : parsed pyval :=
  let (neg, s1) :=
    match s with
    | m :: t => if m =? 45 then (true, t) else (false, s)
    | [] => (false, s)
    end in
  match int_part s1 with
  | None => Invalid
  | Some (ip, r1) =>
      let (fp, r2) := frac_part r1 in
      let (ex, r3) := exp_part r2 in
      match fp, ex with
      | [], None =>
          Parsed (VInt (if neg then (- Z.of_N (digits_value ip))%Z
                        else Z.of_N (digits_value ip))) r3
      | _, _ =>
          Parsed (VFloat (FDec neg (digits_value (ip ++ fp))
                            ((match ex with Some x => x | None => 0%Z end)
                             - Z.of_nat (List.length fp))%Z)) r3
      end
  end.

(** [d[k] = v] *)
Fixpoint dict_set (k : pystr) (v : pyval) (d : list (pystr * pyval))
  : list (pystr * pyval) :=
  match d with
  | [] => [(k, v)]
  | (k', v') :: d' =>
      if str_eqb k k' then (k', v) :: d' else (k', v') :: dict_set k v d'
  end.

Definition literal (word : string) (v : pyval) (s : pystr) : parsed pyval :=
  if starts_with (py word) s
  then Parsed v (skipn (List.length (py word)) s)
  else match_number s.

Fixpoint scan_once (fuel : nat) (s : pystr) : parsed pyval :=
  match fuel with
  | O => NoFuel
  | S f =>
      match s with
      | [] => Invalid
      | c :: s' =>
          if c =? 34 then
            match scanstring s' with
            | Some (str, r) => Parsed (VStr str) r
            | None => Invalid
            end
          else if c =? 123 then
            match skip_ws s' with
            | c1 :: r1 =>
                if c1 =? 125 then Parsed (VDict []) r1
                else parse_members f (c1 :: r1) []
            | [] => Invalid
            end
          else if c =? 91 then
            match skip_ws s' with
            | c1 :: r1 =>
                if c1 =? 93 then Parsed (VList []) r1
                else parse_elements f (c1 :: r1) []
            | [] => Invalid
            end
          else if c =? 110 then literal "null" VNone s
          else if c =? 116 then literal "true" (VBool true) s
          else if c =? 102 then literal "false" (VBool false) s
          else if c =? 78 then literal "NaN" (VFloat FNaN) s
          else if c =? 73 then literal "Infinity" (VFloat (FInf false)) s
          else if c =? 45 then literal "-Infinity" (VFloat (FInf true)) s
          else match_number s
      end
  end

(** The members of an object, from a key on; [acc] holds those read. *)
with parse_members (fuel : nat) (s : pystr) (acc : list (pystr * pyval))
  : parsed pyval :=
  match fuel with
  | O => NoFuel
  | S f =>
      match s with
      | q :: s' =>
          if q =? 34 then
            match scanstring s' with
            | None => Invalid
            | Some (key, r) =>
                match skip_ws r with
                | colon :: r1 =>
                    if colon =? 58 then
                      match scan_once f (skip_ws r1) with
                      | Parsed v r2 =>
                          match skip_ws r2 with
                          | d :: r3 =>
                              if d =? 125
                              then Parsed (VDict (dict_set key v acc)) r3
                              else if d =? 44
                              then parse_members f (skip_ws r3)
                                     (dict_set key v acc)
                              else Invalid
                          | [] => Invalid
                          end
                      | Invalid => Invalid
                      | NoFuel => NoFuel
                      end
                    else Invalid
                | [] => Invalid
                end
            end
          else Invalid
      | [] => Invalid
      end
  end

(** The elements of an array, from a value on. *)
with parse_elements (fuel : nat) (s : pystr) (acc : list pyval)
  : parsed pyval :=
  match fuel with
  | O => NoFuel
  | S f =>
      match scan_once f s with
      | Parsed v r =>
          match skip_ws r with
          | d :: r1 =>
              if d =? 93 then Parsed (VList (acc ++ [v])) r1
              else if d =? 44
              then parse_elements f (skip_ws r1) (acc ++ [v])
              else Invalid
          | [] => Invalid
          end
      | Invalid => Invalid
      | NoFuel => NoFuel
      end
  end.

(** [json.loads(s)] for a [str]. *)
Definition loads (s : pystr) : res pyval :=
  if starts_with [65279] s then
    Raise (JSONDecodeError (py "Unexpected UTF-8 BOM (decode using utf-8-sig)"))
  else
    match scan_once (2 * List.length s + 2) (skip_ws s) with
    | Parsed v r =>
        match skip_ws r with
        | [] => Ret v
        | _ => Raise (JSONDecodeError (py "Extra data"))
        end
    | Invalid => Raise (JSONDecodeError (py "Expecting value"))
    | NoFuel => Unfinished
    end.

End JsonDecoder.

(* ===================================================================== *)
(** ** test-schema-perfect.py *)
(* ===================================================================== *)

Module SchemaPerfect.

Definition api_url : pystr :=
  py "https://jsypctdhynsdqrfifvdh.supabase.co/functions/v1/generate-schema-perfect".

Definition OPEN_PROCESSING : pystr := py "<processing>".
Definition CLOSE_PROCESSING : pystr := py "</processing>".
Definition OPEN_THINK : pystr := py "<think>".
Definition CLOSE_THINK : pystr := py "</think>".

(** What the loop prints. *)
Inductive printed :=
| ProcessingHeader
| BlankLine
| ThinkingHeader
| SchemaHeader
| Indented (text : pystr)
| Plain (text : pystr).

(** The variables of the streaming loop. *)
Record stream_state := mkState {
  full_response : pystr;
  in_processing : bool;
  in_thinking : bool;
  in_schema : bool;
  output : list printed
}.

Definition initial_state : stream_state := mkState [] false false false [].

(** The body of [for line in response.iter_lines()]. *)
Definition stream_line (st : stream_state) (line : list Byte.byte)
  : res stream_state :=
  match line with
  | [] => Ret st
  | _ =>
      res_bind (decode_utf8 line) (fun text =>
      let full := full_response st ++ text ++ py_newline in
      if contains OPEN_PROCESSING text then
        Ret (mkState full true (in_thinking st) (in_schema st)
               (output st ++ [ProcessingHeader]))
      else if contains CLOSE_PROCESSING text then
        Ret (mkState full false (in_thinking st) (in_schema st)
               (output st ++ [BlankLine]))
      else if contains OPEN_THINK text then
        Ret (mkState full (in_processing st) true (in_schema st)
               (output st ++ [ThinkingHeader]))
      else if contains CLOSE_THINK text then
        Ret (mkState full (in_processing st) false true
               (output st ++ [SchemaHeader]))
      else if in_processing st then
        Ret (mkState full (in_processing st) (in_thinking st) (in_schema st)
               (output st ++ [Indented text]))
      else if in_thinking st then
        if negb (str_eqb (strip text) (py ".")) then
          Ret (mkState full (in_processing st) (in_thinking st) (in_schema st)
                 (output st ++ [Indented text]))
        else
          Ret (mkState full (in_processing st) (in_thinking st) (in_schema st)
                 (output st))
      else if in_schema st || starts_with (py "{") (strip text) then
        Ret (mkState full (in_processing st) (in_thinking st) true
               (output st ++ [Plain text]))
      else
        Ret (mkState full (in_processing st) (in_thinking st) (in_schema st)
               (output st)))
  end.

Fixpoint stream_lines (st : stream_state) (lines : list (list Byte.byte))
  : res stream_state :=
  match lines with
  | [] => Ret st
  | line :: rest =>
      res_bind (stream_line st line) (fun st' => stream_lines st' rest)
  end.

(** The two [re.sub] calls and [strip()]. *)
Definition clean (full_response : pystr) : pystr :=
  strip (re_sub_block OPEN_THINK CLOSE_THINK
           (re_sub_block OPEN_PROCESSING CLOSE_PROCESSING full_response)).

(** What the script does with the decoded schema before returning it:
    it prints its type, the start of its headline or name, and the
    number of its fields. *)
Definition describe (schema : pyval) : res pyval :=
  res_bind (py_get schema (py "@type") VNone) (fun _ =>
  match schema with
  | VDict d =>
      res_bind
        (if has_key (py "headline") d then
           res_bind (py_get schema (py "headline") VNone) (py_slice_to 60)
         else if has_key (py "name") d then
           res_bind (py_get schema (py "name") VNone) (py_slice_to 60)
         else Ret VNone)
        (fun _ => Ret schema)
  | _ => Ret schema
  end).

Section WithDecoder.

(** [json.loads] *)
Variable json_loads : pystr -> res pyval.

(** Extract and validate JSON: the end of the function, from the text
    the loop has gathered. *)
Definition extract (full_response : pystr) : res (option pyval) :=
  let cleaned := clean full_response in
  match res_bind (json_loads cleaned) describe with
  | Ret schema => Ret (Some schema)
  | Raise e => if is_JSONDecodeError e then Ret None else Raise e
  | Unfinished => Unfinished
  end.

Definition test_schema_perfect (url : pystr) : M (option pyval) :=
  try_except
    (response <- requests_post api_url (VDict [(py "url", VStr url)]) 120 ;;
     if negb (status_code response =? 200) then ret None
     else
       st <- lift (stream_lines initial_state (iter_lines response)) ;;
       lift (extract (full_response st)))
    (fun e =>
       if is_Timeout e then ret None
       else if is_RequestException e then ret None
       else if is_Exception e then ret None
       else raise e).

End WithDecoder.

End SchemaPerfect.

(* ===================================================================== *)
(** * Properties *)
(* ===================================================================== *)

(** ** The text functions on small inputs *)

Example strip_both_ends :
  strip (py "  {x}  ") = py "{x}" /\ strip ([10; 160; 8232]%N ++ py "a b") = py "a b".
Proof. split; reflexivity. Qed.

Example re_sub_block_lazy :
  re_sub_block (py "<b>") (py "</b>") (py "a<b>1</b>b<b>2</b></b>c<b>")
  = py "ab</b>c<b>".
Proof. reflexivity. Qed.

Example utf8_two_bytes : utf8 [195; 169]%N = Some [233%N].
Proof. reflexivity. Qed.

Example utf8_rejects_overlong_and_surrogates :
  utf8 [192; 128]%N = None /\ utf8 [237; 160; 128]%N = None.
Proof. split; reflexivity. Qed.

Example float_is_zero_rounding :
  float_is_zero (FDec false 2 (-324)) = true
  /\ float_is_zero (FDec false 3 (-324)) = false
  /\ float_is_zero (FDec true 0 (-1)) = true.
Proof. repeat split; vm_compute; reflexivity. Qed.

Example loads_nested :
  JsonDecoder.loads (py " [1, -2.50e3, true, null, {}, [[]]] ")
  = Ret (VList [VInt 1; VFloat (FDec true 250 1); VBool true; VNone;
                VDict []; VList [VList []]]).
Proof. vm_compute. reflexivity. Qed.

Example loads_rejects :
  JsonDecoder.loads (py "[1,]") = Raise (JSONDecodeError (py "Expecting value"))
  /\ JsonDecoder.loads (py "01") = Raise (JSONDecodeError (py "Extra data"))
  /\ JsonDecoder.loads (py "<think>{}")
     = Raise (JSONDecodeError (py "Expecting value")).
Proof. repeat split; vm_compute; reflexivity. Qed.

(** ** The decoder model is total *)

Section DecoderTotal.

Import JsonDecoder.

Lemma skip_ws_length s : (List.length (skip_ws s) <= List.length s)%nat.
Proof.
  induction s as [|c s IH]; cbn; [lia|]. destruct (is_ws c); cbn; lia.
Qed.

Lemma cons_str_shorter c o str r (n : nat) :
  cons_str c o = Some (str, r) ->
  (forall str', o = Some (str', r) -> (List.length r < n)%nat) ->
  (List.length r < n)%nat.
Proof.
  destruct o as [[a b]|]; cbn; [|discriminate].
  intros [= <- <-] H. now apply (H a).
Qed.

Lemma scanstring_shorter n :
  forall s str r,
    (List.length s <= n)%nat ->
    scanstring s = Some (str, r) ->
    (List.length r < List.length s)%nat.
Proof.
  induction n as [|n IH]; intros s str r Hn H;
    (destruct s as [|c s]; [discriminate|]); cbn in Hn; [lia|].
  assert (Hrec : forall c' t str0,
             (List.length t <= n)%nat ->
             cons_str c' (scanstring t) = Some (str0, r) ->
             (List.length r < List.length t)%nat).
  { intros c' t str0 Ht Hc. eapply cons_str_shorter; [exact Hc|].
    intros str' Hs. now apply (IH t str'). }
  cbn [scanstring] in H.
  repeat match type of H with
         | Some _ = Some _ => injection H as <- <-; cbn; lia
         | None = Some _ => discriminate
         | cons_str _ (scanstring ?t) = Some _ =>
             apply Hrec in H; cbn in *; lia
         | context [if ?b then _ else _] => destruct b
         | context [match ?x with _ => _ end] => destruct x
         end.
Qed.


Lemma span_digits_length s :
  (List.length (snd (span_digits s)) <= List.length s)%nat.
Proof.
  induction s as [|c s IH]; cbn; [lia|].
  destruct (is_digit c); cbn; [|lia].
  destruct (span_digits s); cbn in *; lia.
Qed.

Lemma int_part_shorter s ip r :
  int_part s = Some (ip, r) -> (List.length r < List.length s)%nat.
Proof.
  destruct s as [|c s]; cbn; [discriminate|].
  destruct (N.eqb c 48); [intros [= <- <-]; cbn; lia|].
  destruct (is_digit c); [|discriminate].
  pose proof (span_digits_length s) as H.
  destruct (span_digits s); cbn in *. intros [= <- <-]. lia.
Qed.

Lemma frac_part_length s :
  (List.length (snd (frac_part s)) <= List.length s)%nat.
Proof.
  destruct s as [|c s]; cbn; [lia|].
  destruct (N.eqb c 46); cbn; [|lia].
  pose proof (span_digits_length s) as H.
  destruct (span_digits s) as [[|d ds] r]; cbn in *; lia.
Qed.

Lemma exp_part_length s :
  (List.length (snd (exp_part s)) <= List.length s)%nat.
Proof.
  destruct s as [|c s]; cbn; [lia|].
  destruct (N.eqb c 101 || N.eqb c 69); cbn; [|lia].
  destruct s as [|sg t]; cbn; [lia|].
  destruct (N.eqb sg 45).
  - pose proof (span_digits_length t) as H.
    destruct (span_digits t) as [[|d ds] r]; cbn in *; lia.
  - destruct (N.eqb sg 43).
    + pose proof (span_digits_length t) as H.
      destruct (span_digits t) as [[|d ds] r]; cbn in *; lia.
    + pose proof (span_digits_length (sg :: t)) as H.
      destruct (span_digits (sg :: t)) as [[|d ds] r]; cbn in *; lia.
Qed.

(** A result that is not out of fuel and has consumed some input. *)
Definition consumed (s : pystr) (x : parsed pyval) : Prop :=
  match x with
  | Parsed _ r => (List.length r < List.length s)%nat
  | Invalid => True
  | NoFuel => False
  end.

Lemma match_number_consumed s : consumed s (match_number s).
Proof.
  unfold match_number.
  assert (H : forall t, (List.length t <= List.length s)%nat ->
                match int_part t with
                | Some (ip, r1) =>
                    (List.length r1 < List.length s)%nat
                | None => True
                end).
  { intros t Ht. destruct (int_part t) as [[ip r1]|] eqn:E; [|exact I].
    apply int_part_shorter in E. lia. }
  set (p := match s with
            | m :: t => if N.eqb m 45 then (true, t) else (false, s)
            | [] => (false, s)
            end).
  assert (Hp : (List.length (snd p) <= List.length s)%nat).
  { subst p. destruct s as [|m t]; cbn; [lia|].
    destruct (N.eqb m 45); cbn; lia. }
  destruct p as [neg s1]. cbn in Hp. specialize (H s1 Hp).
  destruct (int_part s1) as [[ip r1]|]; [|exact I].
  pose proof (frac_part_length r1) as Hf.
  destruct (frac_part r1) as [fp r2]. cbn in Hf.
  pose proof (exp_part_length r2) as He.
  destruct (exp_part r2) as [ex r3]. cbn in He.
  destruct fp; destruct ex; cbn; lia.
Qed.

Lemma literal_consumed word v s :
  word <> EmptyString -> consumed s (literal word v s).
Proof.
  intros Hw. unfold literal.
  destruct (starts_with (py word) s) eqn:E; [|apply match_number_consumed].
  cbn [consumed]. rewrite length_skipn.
  destruct word as [|a word]; [congruence|].
  unfold py in *. cbn in *.
  destruct s as [|c s]; [discriminate|]. cbn. lia.
Qed.

Lemma consumed_weaken s t x :
  (List.length t <= List.length s)%nat -> consumed t x -> consumed s x.
Proof. destruct x; cbn; lia || auto. Qed.

Lemma scan_total fuel :
  (forall s, (2 * List.length s < fuel)%nat -> consumed s (scan_once fuel s))
  /\ (forall s acc, (2 * List.length s + 1 < fuel)%nat ->
                    consumed s (parse_members fuel s acc))
  /\ (forall s acc, (2 * List.length s + 1 < fuel)%nat ->
                    consumed s (parse_elements fuel s acc)).
Proof.
  induction fuel as [|f (IHs & IHm & IHe)].
  - repeat split; intros; lia.
  - repeat split.
    + intros s Hf. cbn [scan_once].
      destruct s as [|c s']; [exact I|]. cbn [List.length] in Hf.
      destruct (N.eqb c 34).
      { destruct (scanstring s') as [[str r]|] eqn:E; [|exact I].
        apply (scanstring_shorter (List.length s')) in E; [cbn; lia|lia]. }
      destruct (N.eqb c 123).
      { pose proof (skip_ws_length s') as Hw.
        destruct (skip_ws s') as [|c1 r1]; [exact I|]. cbn in Hw.
        destruct (N.eqb c1 125); [cbn; lia|].
        eapply consumed_weaken; [|apply IHm]; cbn; lia. }
      destruct (N.eqb c 91).
      { pose proof (skip_ws_length s') as Hw.
        destruct (skip_ws s') as [|c1 r1]; [exact I|]. cbn in Hw.
        destruct (N.eqb c1 93); [cbn; lia|].
        eapply consumed_weaken; [|apply IHe]; cbn; lia. }
      repeat match goal with
             | |- consumed _ (if ?b then _ else _) => destruct b
             end;
        try (apply literal_consumed; discriminate);
        apply match_number_consumed.
    + intros s acc Hf. cbn [parse_members].
      destruct s as [|q s']; [exact I|]. cbn [List.length] in Hf.
      destruct (N.eqb q 34); [|exact I].
      destruct (scanstring s') as [[key r]|] eqn:E; [|exact I].
      apply (scanstring_shorter (List.length s')) in E; [|lia].
      pose proof (skip_ws_length r) as Hw.
      destruct (skip_ws r) as [|colon r1]; [exact I|]. cbn in Hw.
      destruct (N.eqb colon 58); [|exact I].
      pose proof (skip_ws_length r1) as Hw1.
      pose proof (IHs (skip_ws r1) ltac:(lia)) as Hv.
      destruct (scan_once f (skip_ws r1)) as [v r2| |]; cbn in Hv;
        [|exact I|contradiction].
      pose proof (skip_ws_length r2) as Hw2.
      destruct (skip_ws r2) as [|d r3]; [exact I|]. cbn in Hw2.
      destruct (N.eqb d 125); [cbn; lia|].
      destruct (N.eqb d 44); [|exact I].
      pose proof (skip_ws_length r3) as Hw3.
      eapply consumed_weaken; [|apply IHm]; cbn; lia.
    + intros s acc Hf. cbn [parse_elements].
      pose proof (IHs s ltac:(lia)) as Hv.
      destruct (scan_once f s) as [v r| |]; cbn in Hv; [|exact I|contradiction].
      pose proof (skip_ws_length r) as Hw.
      destruct (skip_ws r) as [|d r1]; [exact I|]. cbn in Hw.
      destruct (N.eqb d 93); [cbn; lia|].
      destruct (N.eqb d 44); [|exact I].
      pose proof (skip_ws_length r1) as Hw1.
      eapply consumed_weaken; [|apply IHe]; cbn; lia.
Qed.

(** [loads] always returns or raises: its fuel is enough. *)
Lemma loads_total s : loads s <> Unfinished.
Proof.
  unfold loads. destruct (starts_with _ s); [discriminate|].
  pose proof (skip_ws_length s) as Hw.
  pose proof (proj1 (scan_total (2 * List.length s + 2)) (skip_ws s)
                ltac:(lia)) as H.
  destruct (scan_once _ _) as [v r| |]; cbn in H;
    [|discriminate|contradiction].
  destruct (skip_ws r); discriminate.
Qed.

End DecoderTotal.

(** ** Running the computations *)

#[local] Arguments py : simpl never.
#[local] Arguments str_of_int : simpl never.
#[local] Arguments raise_for_status : simpl never.
#[local] Arguments SUPABASE_URL : simpl never.
#[local] Arguments PythonExample.FUNCTION_URL : simpl never.
#[local] Arguments QuickStart.FUNCTION_URL : simpl never.
#[local] Arguments CallGenerate.FUNCTION_URL : simpl never.
#[local] Arguments SchemaPerfect.api_url : simpl never.

Ltac run :=
  cbv [bind ret raise lift try_except log next_outcome requests_post
       requests_get client_post time_time set_file open_w json_dump];
  cbn [fst snd sent reads trace files].

Ltac handlers :=
  repeat match goal with
         | |- context [if ?b then _ else _] => destruct b
         end;
  cbn; try reflexivity.

Definition with_status (c : Z) (r : Response) : Response :=
  mkResponse c (reason r) (text r) (json_doc r) (iter_lines r).

Definition job_id_of (d : list (pystr * pyval)) : pyval :=
  match lookup (py "job_id") d with
  | Some v => v
  | None => VNone
  end.

Definition posted (url : pystr) (body : pyval) (timeout : Z) (w : world)
  : world :=
  mkWorld (S (sent w)) (reads w) (trace w ++ [EPost url body timeout]) (files w).

Definition got (url : pystr) (params : pyval) (timeout : Z) (w : world)
  : world :=
  mkWorld (S (sent w)) (reads w) (trace w ++ [EGet url params timeout]) (files w).

Lemma exn_of_failure_request f : is_RequestException (exn_of_failure f) = true.
Proof. now destruct f. Qed.

(** ** Job submission *)

Section Submit.

Variables (E : env) (w : world).

Let intake_url := SUPABASE_URL ++ py "/functions/v1/content-intake".

Lemma intake_submit_world :
  snd (ContentIntake.submit_job E w)
  = posted intake_url ContentIntake.TEST_JOB 30 w.
Proof.
  unfold ContentIntake.submit_job. run.
  destruct (http E (sent w)) as [r|f]; cbn.
  - destruct ((status_code r =? 200) || (status_code r =? 202)); cbn;
      [|reflexivity].
    unfold response_json. destruct (json_doc r) as [v|]; cbn; [|reflexivity].
    destruct v; cbn; reflexivity.
  - rewrite exn_of_failure_request. reflexivity.
Qed.

Lemma medidrive_submit_world :
  snd (Medidrive.submit_job E w)
  = posted intake_url Medidrive.MEDIDRIVE_JOB 30 w.
Proof.
  unfold Medidrive.submit_job. run.
  destruct (http E (sent w)) as [r|f]; cbn.
  - destruct ((status_code r =? 200) || (status_code r =? 202)); cbn;
      [|reflexivity].
    unfold response_json. destruct (json_doc r) as [v|]; cbn; [|reflexivity].
    destruct v; cbn; reflexivity.
  - rewrite exn_of_failure_request. reflexivity.
Qed.

(** What [submit_job] returns is a function of the answer to its one
    request. *)
Definition submitted (o : HttpOutcome) : res pyval :=
  match o with
  | Responded r =>
      if (status_code r =? 200) || (status_code r =? 202) then
        match json_doc r with
        | Some (VDict d) => Ret (job_id_of d)
        | Some v => py_get v (py "job_id") VNone
        | None => Ret VNone
        end
      else Ret VNone
  | Failed _ => Ret VNone
  end.

Lemma intake_submit_result :
  fst (ContentIntake.submit_job E w) = submitted (http E (sent w)).
Proof.
  unfold ContentIntake.submit_job, submitted. run.
  destruct (http E (sent w)) as [r|f]; cbn.
  - destruct ((status_code r =? 200) || (status_code r =? 202)); cbn;
      [|reflexivity].
    unfold response_json. destruct (json_doc r) as [v|]; cbn; [|reflexivity].
    destruct v; cbn; reflexivity.
  - rewrite exn_of_failure_request. reflexivity.
Qed.

Lemma medidrive_submit_result :
  fst (Medidrive.submit_job E w) = submitted (http E (sent w)).
Proof.
  unfold Medidrive.submit_job, submitted. run.
  destruct (http E (sent w)) as [r|f]; cbn.
  - destruct ((status_code r =? 200) || (status_code r =? 202)); cbn;
      [|reflexivity].
    unfold response_json. destruct (json_doc r) as [v|]; cbn; [|reflexivity].
    destruct v; cbn; reflexivity.
  - rewrite exn_of_failure_request. reflexivity.
Qed.

End Submit.


Definition accepted_reply : Response :=
  mkResponse 202 (py "Accepted") []
    (Some (VDict [(py "job_id", VStr (py "job-42"));
                  (py "status", VStr (py "queued"))])) [].


(** ** Non-2xx responses *)

Lemma raise_for_status_error url r :
  400 <= status_code r < 600 ->
  exists rest,
    raise_for_status url r
    = Raise (HTTPError (status_code r) (str_of_int (status_code r) ++ rest)
               (text r)).
Proof.
  intros [Hlo Hhi]. unfold raise_for_status.
  destruct (status_code r <? 500) eqn:H5.
  - assert ((400 <=? status_code r) = true) as -> by now apply Z.leb_le.
    cbn. eexists. reflexivity.
  - assert ((400 <=? status_code r) = true) as -> by now apply Z.leb_le.
    cbn. apply Z.ltb_ge in H5.
    assert ((500 <=? status_code r) = true) as -> by now apply Z.leb_le.
    assert ((status_code r <? 600) = true) as -> by now apply Z.ltb_lt.
    cbn. eexists. reflexivity.
Qed.

Definition server_error : Response :=
  mkResponse 500 (py "Internal Server Error") (py "boom") None [].

(** C1, as stated, fails: on a 500 response [generate_html] raises instead
    of returning a failure value. *)
Lemma generate_html_raises_on_500 :
  fst (PythonExample.generate_html PythonExample.FUNCTION_URL (py "task-uuid-1") 300
         (mkEnv (fun _ => Responded server_error) (fun _ => 0)) world0)
  = Raise (HTTPError 500
             (py "500 Server Error: Internal Server Error for url: "
                ++ PythonExample.FUNCTION_URL)
             (py "boom")).
Proof. vm_compute. reflexivity. Qed.

(** C1, amended. A 4xx or 5xx response makes both [generate_html] functions
    raise the library's [HTTPError] to their caller; the exception carries
    the status code, also in its message. [test_schema_perfect] returns
    [None] for every status other than 200 and raises nothing. *)
Theorem non_2xx_raises_or_returns_none :
  forall (E : env) (w : world) (r : Response),
    http E (sent w) = Responded r ->
    (400 <= status_code r < 600 ->
     forall function_url task_id timeout,
       (exists rest,
           fst (PythonExample.generate_html function_url task_id timeout E w)
           = Raise (HTTPError (status_code r)
                      (str_of_int (status_code r) ++ rest) (text r)))
       /\ (exists rest,
              fst (QuickStart.generate_html task_id E w)
              = Raise (HTTPError (status_code r)
                         (str_of_int (status_code r) ++ rest) (text r))))
    /\ (status_code r <> 200 ->
        forall json_loads url,
          fst (SchemaPerfect.test_schema_perfect json_loads url E w) = Ret None).
Proof.
  intros E w r Hr. split.
  - intros Hc function_url task_id timeout. split.
    + destruct (raise_for_status_error function_url r Hc) as [rest Hrest].
      exists rest. unfold PythonExample.generate_html. run.
      rewrite Hr. cbn. rewrite Hrest. cbn. reflexivity.
    + destruct (raise_for_status_error QuickStart.FUNCTION_URL r Hc)
        as [rest Hrest].
      exists rest. unfold QuickStart.generate_html. run.
      rewrite Hr. cbn. rewrite Hrest. reflexivity.
  - intros Hc json_loads url. unfold SchemaPerfect.test_schema_perfect. run.
    rewrite Hr. cbn. apply Z.eqb_neq in Hc. rewrite Hc. reflexivity.
Qed.

Lemma non_2xx_raises_or_returns_none_witness :
  (exists rest,
      fst (QuickStart.generate_html (py "task-uuid-1")
             (mkEnv (fun _ => Responded server_error) (fun _ => 0)) world0)
      = Raise (HTTPError 500 (str_of_int 500 ++ rest) (py "boom")))
  /\ fst (SchemaPerfect.test_schema_perfect JsonDecoder.loads (py "https://example.com")
            (mkEnv (fun _ => Responded server_error) (fun _ => 0)) world0)
     = Ret None.
Proof.
  pose proof (non_2xx_raises_or_returns_none
                (mkEnv (fun _ => Responded server_error) (fun _ => 0))
                world0 server_error eq_refl) as [H1 H2].
  split.
  - refine (proj2 (H1 _ PythonExample.FUNCTION_URL (py "task-uuid-1") 300)).
    cbn. lia.
  - apply H2. cbn. discriminate.
Defined.

(** ** The hero-image flow *)

Lemma save_status_get_total prompt_result key saved :
  save_status_get prompt_result key = Ret saved ->
  (forall key', exists v, save_status_get prompt_result key' = Ret v)
  /\ (forall key' d, exists v, py_get prompt_result key' d = Ret v).
Proof.
  unfold save_status_get.
  destruct prompt_result as [| | | | | |d]; cbn; try discriminate.
  intros H. split.
  - intros key'.
    destruct (match lookup (py "save_status") d with
              | Some x => x | None => VDict [] end) as [| | | | | |d'];
      cbn in *; try discriminate.
    eexists; reflexivity.
  - intros key' d0. eexists; reflexivity.
Qed.


Definition prompt_ok : Response :=
  mkResponse 200 (py "OK") []
    (Some (VDict [(py "save_status",
                   VDict [(py "success", VBool true);
                          (py "hero_image_prompt_id", VStr (py "p-1"))])])) [].

Definition image_unavailable : Response :=
  mkResponse 503 (py "Service Unavailable") (py "try later") None [].

Definition hero_env : env :=
  mkEnv (fun n => match n with
                  | O => Responded prompt_ok
                  | _ => Responded image_unavailable
                  end)
        (fun _ => 0).


(** ** The parallel batch *)

Lemma generate_html_outcome url task_id timeout E w :
  match fst (PythonExample.generate_html url task_id timeout E w) with
  | Ret _ => True
  | Raise e => is_Exception e = true
  | Unfinished => False
  end.
Proof.
  unfold PythonExample.generate_html. run.
  destruct (http E (sent w)) as [r|f]; cbn.
  - unfold raise_for_status.
    destruct ((400 <=? status_code r) && (status_code r <? 500)); cbn;
      [reflexivity|].
    destruct ((500 <=? status_code r) && (status_code r <? 600)); cbn;
      [reflexivity|].
    unfold response_json. destruct (json_doc r) as [v|]; cbn; [|reflexivity].
    destruct v as [| | | | | |d]; cbn; try reflexivity.
    destruct (truthy _); cbn; [|exact I].
    destruct (match lookup (py "html") d with Some x => x | None => VStr [] end);
      cbn; try reflexivity; exact I.
  - destruct f; cbn; reflexivity.
Qed.

Definition entry_task_id (entry : pyval) : option pystr :=
  match py_get entry (py "task_id") VNone with
  | Ret (VStr t) => Some t
  | _ => None
  end.

(** The entry the loop appends for a completed future. *)
Definition entry_of (answer : nat -> HttpOutcome) (task_ids : list pystr)
    (future : nat) : pyval :=
  let task_id := nth future task_ids [] in
  match PythonExample.batch_entry task_id
          (PythonExample.future_result answer task_ids future) with
  | Ret entry => entry
  | Raise e => PythonExample.failed_entry task_id e
  | Unfinished => VNone
  end.

Lemma task_of_combine future a (l : list pystr) :
  (a <= future < a + List.length l)%nat ->
  PythonExample.task_of future (combine (seq a (List.length l)) l)
  = Some (nth (future - a) l []).
Proof.
  revert a. induction l as [|t l IH]; intros a H; cbn in *; [lia|].
  destruct (Nat.eqb future a) eqn:Heq.
  - apply Nat.eqb_eq in Heq. subst. now rewrite Nat.sub_diag.
  - apply Nat.eqb_neq in Heq. rewrite IH by lia.
    replace (future - a)%nat with (S (future - S a)) by lia. reflexivity.
Qed.

Lemma batch_entry_cases task_id answer task_ids future :
  match PythonExample.batch_entry task_id
          (PythonExample.future_result answer task_ids future) with
  | Ret entry => entry_task_id entry = Some task_id
  | Raise e => is_Exception e = true
  | Unfinished => False
  end.
Proof.
  unfold PythonExample.future_result, PythonExample.batch_entry.
  pose proof (generate_html_outcome PythonExample.FUNCTION_URL
                (nth future task_ids []) 300
                (mkEnv (fun _ => answer future) (fun _ => 0)) world0) as H.
  destruct (fst _) as [result|e|]; cbn; [|exact H|exact H].
  destruct result as [| | | | | |d]; cbn; try reflexivity.
  destruct (match lookup (py "html") d with Some x => x | None => VStr [] end);
    cbn; try reflexivity.
  all: unfold entry_task_id; cbn; now rewrite str_eqb_refl.
Qed.

Lemma failed_entry_task_id task_id e :
  entry_task_id (PythonExample.failed_entry task_id e) = Some task_id.
Proof. unfold entry_task_id. cbn. now rewrite str_eqb_refl. Qed.

Lemma entry_of_task_id answer task_ids future :
  entry_task_id (entry_of answer task_ids future)
  = Some (nth future task_ids []).
Proof.
  unfold entry_of.
  pose proof (batch_entry_cases (nth future task_ids []) answer task_ids future)
    as H.
  destruct (PythonExample.batch_entry _ _); [exact H| |contradiction].
  apply failed_entry_task_id.
Qed.

Lemma collect_all answer task_ids completed results :
  Forall (fun f => (f < List.length task_ids)%nat) completed ->
  PythonExample.collect answer task_ids completed results
  = Ret (results ++ List.map (entry_of answer task_ids) completed).
Proof.
  intros H. revert results.
  induction H as [|future rest Hf _ IH]; intros results; cbn.
  - now rewrite app_nil_r.
  - unfold PythonExample.future_to_task.
    rewrite task_of_combine by lia. rewrite Nat.sub_0_r.
    unfold entry_of.
    pose proof (batch_entry_cases (nth future task_ids []) answer task_ids
                  future) as Hc.
    destruct (PythonExample.batch_entry _ _) as [entry|e|].
    + rewrite IH, <- app_assoc. reflexivity.
    + rewrite Hc, IH, <- app_assoc. reflexivity.
    + contradiction.
Qed.

Lemma map_nth_seq (l : list pystr) :
  List.map (fun i => nth i l []) (seq 0 (List.length l)) = l.
Proof.
  induction l as [|t l IH]; cbn; [reflexivity|].
  rewrite <- seq_shift, map_map. cbn. now rewrite IH.
Qed.

(** C7. Whatever the order in which the futures complete, the parallel
    batch ends with one entry for each submitted task ID: the entries, read
    in order, carry the task IDs of the futures in completion order, which
    is a rearrangement of the submitted list. *)
Theorem parallel_batch_one_result_per_task :
  forall (answer : nat -> HttpOutcome) (task_ids : list pystr)
         (completed : list nat),
    Permutation completed (seq 0 (List.length task_ids)) ->
    exists results,
      PythonExample.example_batch_parallel answer task_ids completed
      = Ret results
      /\ List.length results = List.length task_ids
      /\ List.map entry_task_id results
         = List.map (fun future => Some (nth future task_ids [])) completed
      /\ Permutation (List.map entry_task_id results) (List.map Some task_ids).
Proof.
  intros answer task_ids completed Hperm.
  assert (Hall : Forall (fun f => (f < List.length task_ids)%nat) completed).
  { apply Forall_forall. intros f Hin.
    apply (Permutation_in _ Hperm) in Hin. apply in_seq in Hin. lia. }
  exists (List.map (entry_of answer task_ids) completed).
  assert (Hids : List.map entry_task_id
                   (List.map (entry_of answer task_ids) completed)
                 = List.map (fun future => Some (nth future task_ids []))
                     completed).
  { rewrite map_map. apply map_ext. intros f. apply entry_of_task_id. }
  repeat split.
  - unfold PythonExample.example_batch_parallel. now rewrite collect_all.
  - rewrite length_map, (Permutation_length Hperm). apply length_seq.
  - exact Hids.
  - rewrite Hids.
    replace (List.map Some task_ids)
      with (List.map Some
              (List.map (fun i => nth i task_ids [])
                 (seq 0 (List.length task_ids))))
      by now rewrite map_nth_seq.
    rewrite map_map. now apply Permutation_map.
Qed.

Definition five_tasks : list pystr :=
  [py "task-uuid-1"; py "task-uuid-2"; py "task-uuid-3";
   py "task-uuid-4"; py "task-uuid-5"].

Lemma parallel_batch_one_result_per_task_witness :
  exists results,
    PythonExample.example_batch_parallel
      (fun i => if Nat.even i then Responded server_error
                else Failed (TimedOut (py "timed out")))
      five_tasks [2; 0; 4; 1; 3]%nat
    = Ret results
    /\ List.length results = List.length five_tasks
    /\ List.map entry_task_id results
       = List.map (fun future => Some (nth future five_tasks []))
           [2; 0; 4; 1; 3]%nat
    /\ Permutation (List.map entry_task_id results) (List.map Some five_tasks).
Proof.
  apply parallel_batch_one_result_per_task.
  change (seq 0 (List.length five_tasks)) with [0; 1; 2; 3; 4]%nat.
  apply Permutation_sym.
  apply (perm_trans (l' := [0; 2; 1; 3; 4]%nat)).
  - apply perm_skip, perm_swap.
  - apply (perm_trans (l' := [2; 0; 1; 3; 4]%nat)); [apply perm_swap|].
    do 2 apply perm_skip.
    apply (perm_trans (l' := [1; 4; 3]%nat)).
    + apply perm_skip, perm_swap.
    + apply perm_swap.
Defined.

(** ** The retry helper *)

Definition slept (secs : Z) (w : world) : world :=
  mkWorld (sent w) (reads w) (trace w ++ [ESleep secs]) (files w).

(** What [generate_html] gives for an answer of the network. *)
Definition html_answer (url : pystr) (o : HttpOutcome) : res pyval :=
  fst (PythonExample.generate_html url [] 0
         (mkEnv (fun _ => o) (fun _ => 0)) world0).

(** The call returned a result whose [success] is true. *)
Definition succeeded (r : res pyval) : bool :=
  match r with
  | Ret result =>
      match py_get result (py "success") VNone with
      | Ret ok => truthy ok
      | _ => false
      end
  | _ => false
  end.

Lemma generate_html_run url task_id timeout E w :
  PythonExample.generate_html url task_id timeout E w
  = (html_answer url (http E (sent w)),
     posted url (VDict [(py "task_id", VStr task_id)]) timeout w).
Proof.
  unfold html_answer, PythonExample.generate_html, posted. run.
  destruct (http E (sent w)) as [r|f]; cbn.
  - destruct (raise_for_status url r); cbn; try reflexivity; [|handlers].
    destruct (response_json r) as [v| |]; cbn; try reflexivity; [|handlers].
    destruct (py_get v (py "success") VNone) as [ok| |]; cbn;
      try reflexivity; [|handlers].
    destruct (truthy ok); cbn; try reflexivity.
    destruct (py_get v (py "html") (VStr [])) as [h| |]; cbn;
      try reflexivity; [|handlers].
    destruct (py_len h); cbn; try reflexivity. handlers.
  - destruct f; cbn; reflexivity.
Qed.

Lemma html_answer_outcome url o :
  match html_answer url o with
  | Ret _ => True
  | Raise e => is_Exception e = true
  | Unfinished => False
  end.
Proof. apply generate_html_outcome. Qed.

Section Retry.

Variables (E : env) (task_id : pystr) (max_retries retry_delay : Z).
Hypothesis delay_nonneg : 0 <= retry_delay.

Let url := PythonExample.FUNCTION_URL.
Let payload := VDict [(py "task_id", VStr task_id)].
Let answer (n : nat) := html_answer url (http E n).

Lemma attempt_once_success attempt w result :
  answer (sent w) = Ret result ->
  succeeded (Ret result) = true ->
  PythonExample.attempt_once task_id max_retries retry_delay attempt E w
  = (Ret (Some result), posted url payload 300 w).
Proof.
  intros Ha Hs. unfold PythonExample.attempt_once. run.
  rewrite generate_html_run. fold url. fold (answer (sent w)). rewrite Ha.
  cbn in Hs. destruct (py_get result (py "success") VNone) as [ok| |];
    try discriminate.
  cbn. rewrite Hs. reflexivity.
Qed.

Lemma attempt_once_failure attempt w :
  succeeded (answer (sent w)) = false ->
  PythonExample.attempt_once task_id max_retries retry_delay attempt E w
  = (Ret None,
     if attempt <? max_retries
     then slept retry_delay (posted url payload 300 w)
     else posted url payload 300 w).
Proof.
  intros Hs. unfold PythonExample.attempt_once. run.
  rewrite generate_html_run. fold url. fold (answer (sent w)).
  pose proof (html_answer_outcome url (http E (sent w))) as Ho.
  fold (answer (sent w)) in Ho.
  assert (Hd : (retry_delay <? 0) = false) by now apply Z.ltb_ge.
  unfold sleep. rewrite Hd.
  destruct (answer (sent w)) as [result|e|]; [| |contradiction].
  - cbn in Hs.
    destruct result as [| | | | | |d]; cbn in *;
      try (destruct (attempt <? max_retries); reflexivity).
    rewrite Hs. cbn. destruct (attempt <? max_retries); reflexivity.
  - cbn. rewrite Ho.
    destruct (is_Timeout e); destruct (attempt <? max_retries); reflexivity.
Qed.

(** The requests and sleeps of [k] failed attempts that are not the last. *)
Definition retries (k : nat) : list event :=
  List.concat (List.repeat [EPost url payload 300; ESleep retry_delay] k).

Lemma retries_S k :
  retries (S k) = [EPost url payload 300; ESleep retry_delay] ++ retries k.
Proof. reflexivity. Qed.

Lemma retry_loop_failures k i more w :
  Z.of_nat (i + k) < max_retries ->
  (forall j, (j < k)%nat -> succeeded (answer (sent w + j)) = false) ->
  PythonExample.retry_loop task_id max_retries retry_delay
    (List.map Z.of_nat (seq (S i) k) ++ more) E w
  = PythonExample.retry_loop task_id max_retries retry_delay more E
      (mkWorld (sent w + k) (reads w) (trace w ++ retries k) (files w)).
Proof.
  revert i w. induction k as [|k IH]; intros i w Hmax Hfail.
  - cbn. rewrite Nat.add_0_r, app_nil_r. now destruct w.
  - cbn [seq List.map app PythonExample.retry_loop]. unfold bind at 1.
    rewrite attempt_once_failure
      by (specialize (Hfail 0%nat); rewrite Nat.add_0_r in Hfail;
          apply Hfail; lia).
    assert (Hlt : (Z.of_nat (S i) <? max_retries) = true)
      by (apply Z.ltb_lt; lia).
    rewrite Hlt. rewrite IH.
    + cbn [sent reads trace files slept posted].
      rewrite retries_S. f_equal. f_equal; [lia|].
      rewrite <- !app_assoc. reflexivity.
    + lia.
    + intros j Hj. cbn [sent slept posted].
      replace (S (sent w) + j)%nat with (sent w + S j)%nat by lia.
      apply Hfail. lia.
Qed.

End Retry.


Definition generated : pyval :=
  VDict [(py "success", VBool true); (py "html", VStr (py "<p>hi</p>"))].

Definition generated_reply : Response :=
  mkResponse 200 (py "OK") [] (Some generated) [].

Definition second_time_lucky : env :=
  mkEnv (fun n => match n with
                  | O => Responded server_error
                  | _ => Responded generated_reply
                  end)
        (fun _ => 0).


(** ** Polling *)

(** [generate_with_polling] starts its clock after the kick-off request. *)
Definition kicked_off (url task_id : pystr) (w : world) : world :=
  posted url (VDict [(py "task_id", VStr task_id)]) 10 w.

Lemma poll_loop_never_succeeds fuel start_time poll_interval max_wait E w r :
  fst (PythonExample.poll_loop fuel start_time poll_interval max_wait E w)
  = Ret r ->
  r = PythonExample.polling_timeout.
Proof.
  revert w. induction fuel as [|fuel IH]; intros w; cbn.
  - discriminate.
  - run. destruct (_ <? max_wait).
    + unfold sleep. destruct (poll_interval <? 0); run; [discriminate|].
      apply IH.
    + cbn. now intros [= <-].
Qed.

Lemma poll_loop_expires poll_interval max_wait E start_time :
  0 <= poll_interval ->
  forall (k fuel : nat) (w : world),
    (k < fuel)%nat ->
    (forall j, (j < k)%nat ->
               clock E (reads w + 2 * j) - start_time < max_wait) ->
    max_wait <= clock E (reads w + 2 * k) - start_time ->
    PythonExample.poll_loop fuel start_time poll_interval max_wait E w
    = (Ret PythonExample.polling_timeout,
       mkWorld (sent w) (reads w + 2 * k + 1)
         (trace w ++ List.repeat (ESleep poll_interval) k) (files w)).
Proof.
  intros Hp. induction k as [|k IH]; intros fuel w Hfuel Hbefore Hnow.
  - destruct fuel as [|fuel]; [lia|]. cbn. run.
    rewrite Nat.add_0_r in *.
    assert ((clock E (reads w) - start_time <? max_wait) = false) as ->
        by now apply Z.ltb_ge.
    cbn. rewrite app_nil_r. f_equal. f_equal. lia.
  - destruct fuel as [|fuel]; [lia|]. cbn. run.
    assert ((clock E (reads w) - start_time <? max_wait) = true) as ->.
    { apply Z.ltb_lt. specialize (Hbefore 0%nat).
      rewrite Nat.add_0_r in Hbefore. apply Hbefore. lia. }
    unfold sleep. assert ((poll_interval <? 0) = false) as ->
        by now apply Z.ltb_ge.
    run. rewrite IH.
    + cbn. f_equal. f_equal; [lia|]. now rewrite <- app_assoc.
    + lia.
    + intros j Hj. cbn [reads].
      replace (S (S (reads w)) + 2 * j)%nat with (reads w + 2 * S j)%nat by lia.
      apply Hbefore. lia.
    + cbn [reads].
      replace (S (S (reads w)) + 2 * k)%nat with (reads w + 2 * S k)%nat by lia.
      exact Hnow.
Qed.



Definition ticking : env :=
  mkEnv (fun _ => Responded generated_reply) (fun n => 10 * Z.of_nat n).


(** ** Monitoring a job *)

(** The job row [check_job_status] returns for an answer of the network:
    the first element of a JSON list in a 200 response, when it is an
    object; [None] otherwise. *)
Definition fetched (o : HttpOutcome) : pyval :=
  match o with
  | Responded r =>
      if status_code r =? 200 then
        match json_doc r with
        | Some (VList (VDict d :: _)) => VDict d
        | _ => VNone
        end
      else VNone
  | Failed _ => VNone
  end.

Definition status_of (job : pyval) : pyval :=
  match py_get job (py "status") VNone with
  | Ret s => s
  | _ => VNone
  end.

(** A row that ends the monitoring. *)
Definition terminal_row (job : pyval) : bool :=
  truthy job && is_terminal (status_of job).

Definition ticked (w : world) : world :=
  mkWorld (sent w) (S (reads w)) (trace w) (files w).

(** The sleeps of a trace, in order. *)
Fixpoint sleeps (t : list event) : list Z :=
  match t with
  | [] => []
  | ESleep s :: t' => s :: sleeps t'
  | _ :: t' => sleeps t'
  end.

Lemma sleeps_app t1 t2 : sleeps (t1 ++ t2) = sleeps t1 ++ sleeps t2.
Proof.
  induction t1 as [|e t1 IH]; cbn; [reflexivity|].
  destruct e; cbn; now rewrite IH.
Qed.

Definition jobs_url : pystr := SUPABASE_URL ++ py "/rest/v1/content_jobs".

Lemma fetched_is_row o :
  fetched o = VNone \/ exists d, fetched o = VDict d.
Proof.
  destruct o as [r|f]; cbn; [|now left].
  destruct (status_code r =? 200); [|now left].
  destruct (json_doc r) as [[| | | | |[|[| | | | | |d] l]|]|]; cbn;
    try (now left).
  right. now exists d.
Qed.

Lemma intake_check_job_status_run job_id E w :
  ContentIntake.check_job_status job_id E w
  = (Ret (fetched (http E (sent w))),
     got jobs_url (ContentIntake.job_params job_id) 10 w).
Proof.
  unfold ContentIntake.check_job_status, fetched, got, jobs_url. run.
  destruct (http E (sent w)) as [r|f]; cbn.
  - destruct (status_code r =? 200); cbn; [|reflexivity].
    unfold response_json. destruct (json_doc r) as [v|]; cbn; [|reflexivity].
    destruct v as [|b|z|x|s|l|d]; cbn; try reflexivity.
    + destruct b; reflexivity.
    + destruct (z =? 0); reflexivity.
    + destruct (float_is_zero x); reflexivity.
    + destruct s; reflexivity.
    + destruct l as [|x l]; cbn; [reflexivity|]. destruct x; reflexivity.
    + destruct d; reflexivity.
  - destruct f; cbn; reflexivity.
Qed.

Lemma medidrive_check_job_status_run job_id E w :
  Medidrive.check_job_status job_id E w
  = (Ret (fetched (http E (sent w))),
     got jobs_url (ContentIntake.job_params job_id) 10 w).
Proof.
  unfold Medidrive.check_job_status, fetched, got, jobs_url. run.
  destruct (http E (sent w)) as [r|f]; cbn.
  - destruct (status_code r =? 200); cbn; [|reflexivity].
    unfold response_json. destruct (json_doc r) as [v|]; cbn; [|reflexivity].
    destruct v as [|b|z|x|s|l|d]; cbn; try reflexivity.
    + destruct b; reflexivity.
    + destruct (z =? 0); reflexivity.
    + destruct (float_is_zero x); reflexivity.
    + destruct s; reflexivity.
    + destruct l as [|x l]; cbn; [reflexivity|]. destruct x; reflexivity.
    + destruct d; reflexivity.
  - destruct f; cbn; reflexivity.
Qed.

(** The requests that only print: one [GET], nothing raised. *)
Definition only_gets (m : M unit) : Prop :=
  forall E w, exists url params,
    m E w = (Ret tt, got url params 10 w).

Lemma intake_check_job_events_run job_id :
  only_gets (ContentIntake.check_job_events job_id).
Proof.
  intros E w. unfold ContentIntake.check_job_events, got. run.
  do 2 eexists.
  destruct (http E (sent w)) as [r|f]; cbn; [reflexivity|].
  destruct f; cbn; reflexivity.
Qed.

Lemma medidrive_check_stage_progress_run job_id :
  only_gets (Medidrive.check_stage_progress job_id).
Proof.
  intros E w. unfold Medidrive.check_stage_progress, got. run.
  do 2 eexists.
  destruct (http E (sent w)) as [r|f]; cbn; [reflexivity|].
  destruct f; cbn; reflexivity.
Qed.

Lemma medidrive_check_events_run job_id :
  only_gets (Medidrive.check_events job_id).
Proof.
  intros E w. unfold Medidrive.check_events, got. run.
  do 2 eexists.
  destruct (http E (sent w)) as [r|f]; cbn; [reflexivity|].
  destruct f; cbn; reflexivity.
Qed.

(** What an iteration leaves unchanged when it does not sleep: the clock
    readings taken and the sleeps made. *)
Definition same_time (w w' : world) : Prop :=
  reads w' = reads w /\ sleeps (trace w') = sleeps (trace w)
  /\ (sent w <= sent w')%nat.

Lemma same_time_trans w1 w2 w3 :
  same_time w1 w2 -> same_time w2 w3 -> same_time w1 w3.
Proof.
  intros (H1 & H2 & H3) (H4 & H5 & H6). repeat split; try congruence. lia.
Qed.

Lemma same_time_got url params w : same_time w (got url params 10 w).
Proof.
  repeat split; cbn; [|lia]. rewrite sleeps_app. cbn. now rewrite app_nil_r.
Qed.

Lemma only_gets_same_time m E w :
  only_gets m -> exists w', m E w = (Ret tt, w') /\ same_time w w'.
Proof.
  intros H. destruct (H E w) as (url & params & ->).
  eexists; split; [reflexivity|]. apply same_time_got.
Qed.

Section IntakeLoop.

Variables (E : env) (job_id : pystr) (start_time duration interval : Z).

Let loop fuel := ContentIntake.monitor_loop fuel job_id start_time duration
                   interval.
Let polled (w : world) : world :=
  got jobs_url (ContentIntake.job_params job_id) 10 (ticked w).

Lemma intake_step_expired fuel w :
  duration <= clock E (reads w) - start_time ->
  loop (S fuel) E w = (Ret TimeExpired, ticked w).
Proof.
  intros H. apply Z.ltb_ge in H. unfold loop. cbn. run. now rewrite H.
Qed.

Lemma intake_step_finished fuel w :
  clock E (reads w) - start_time < duration ->
  terminal_row (fetched (http E (sent w))) = true ->
  exists w',
    loop (S fuel) E w
    = (Ret (JobFinished (status_of (fetched (http E (sent w))))), w')
    /\ same_time (ticked w) w'.
Proof.
  intros Ht Hrow. apply Z.ltb_lt in Ht. unfold loop. cbn. run. rewrite Ht.
  change (mkWorld (sent w) (S (reads w)) (trace w) (files w)) with (ticked w).
  rewrite intake_check_job_status_run. cbn [sent ticked].
  unfold terminal_row in Hrow. apply andb_true_iff in Hrow as [Htr Hterm].
  rewrite Htr.
  destruct (fetched_is_row (http E (sent w))) as [Hn|[d Hd]].
  - rewrite Hn in Htr. discriminate.
  - rewrite Hd in *. cbn in Hterm |- *. rewrite Hterm.
    destruct (only_gets_same_time (ContentIntake.check_job_events job_id) E
                (got jobs_url (ContentIntake.job_params job_id) 10 (ticked w))
                (intake_check_job_events_run job_id)) as (w' & -> & Hsame).
    exists w'. split; [reflexivity|].
    eapply same_time_trans; [apply same_time_got|exact Hsame].
Qed.

Lemma intake_step_sleep fuel w :
  clock E (reads w) - start_time < duration ->
  terminal_row (fetched (http E (sent w))) = false ->
  loop (S fuel) E w
  = bind (sleep interval) (fun _ => loop fuel) E (polled w).
Proof.
  intros Ht Hrow. apply Z.ltb_lt in Ht. unfold loop, polled. cbn. run.
  rewrite Ht.
  change (mkWorld (sent w) (S (reads w)) (trace w) (files w)) with (ticked w).
  rewrite intake_check_job_status_run. cbn [sent ticked].
  unfold terminal_row in Hrow.
  destruct (fetched_is_row (http E (sent w))) as [Hn|[d Hd]].
  - rewrite Hn. cbn. reflexivity.
  - rewrite Hd in *. cbn in Hrow |- *.
    destruct d as [|p d]; cbn in *; [reflexivity|].
    rewrite Hrow. reflexivity.
Qed.

Lemma intake_step_continue fuel w :
  0 <= interval ->
  clock E (reads w) - start_time < duration ->
  terminal_row (fetched (http E (sent w))) = false ->
  loop (S fuel) E w = loop fuel E (slept interval (polled w)).
Proof.
  intros Hi Ht Hrow. rewrite intake_step_sleep by assumption.
  unfold sleep. apply Z.ltb_ge in Hi. rewrite Hi. reflexivity.
Qed.

Lemma intake_finished_terminal fuel w status :
  fst (loop fuel E w) = Ret (JobFinished status) ->
  is_terminal status = true.
Proof.
  revert w. induction fuel as [|fuel IH]; intros w; [discriminate|].
  destruct (Z.lt_ge_cases (clock E (reads w) - start_time) duration)
    as [Ht|Ht].
  - destruct (terminal_row (fetched (http E (sent w)))) eqn:Hrow.
    + destruct (intake_step_finished fuel w Ht Hrow) as (w' & -> & _).
      cbn. intros [= <-]. unfold terminal_row in Hrow.
      now apply andb_true_iff in Hrow as [_ Hterm].
    + rewrite intake_step_sleep by assumption.
      unfold sleep. destruct (interval <? 0); run; [discriminate|].
      apply IH.
  - rewrite intake_step_expired by assumption. discriminate.
Qed.

Lemma intake_expiry :
  0 <= interval ->
  (forall n, terminal_row (fetched (http E n)) = false) ->
  forall (k fuel : nat) (w : world),
    (k < fuel)%nat ->
    (forall j, (j < k)%nat ->
               clock E (reads w + j) - start_time < duration) ->
    duration <= clock E (reads w + k) - start_time ->
    exists w',
      loop fuel E w = (Ret TimeExpired, w')
      /\ reads w' = (reads w + k + 1)%nat
      /\ sent w' = (sent w + k)%nat
      /\ sleeps (trace w') = sleeps (trace w) ++ List.repeat interval k.
Proof.
  intros Hi Hrows. induction k as [|k IH]; intros fuel w Hfuel Hbefore Hnow;
    (destruct fuel as [|fuel]; [lia|]).
  - rewrite Nat.add_0_r in Hnow. rewrite intake_step_expired by assumption.
    eexists; split; [reflexivity|]. cbn. rewrite app_nil_r.
    repeat split; lia.
  - rewrite intake_step_continue;
      [|assumption
       |specialize (Hbefore 0%nat); rewrite Nat.add_0_r in Hbefore;
        apply Hbefore; lia
       |apply Hrows].
    destruct (IH fuel (slept interval (polled w))) as (w' & -> & Hr & Hs & Hz).
    + lia.
    + intros j Hj. cbn [reads slept polled got ticked].
      replace (S (reads w) + j)%nat with (reads w + S j)%nat by lia.
      apply Hbefore. lia.
    + cbn [reads slept polled got ticked].
      replace (S (reads w) + k)%nat with (reads w + S k)%nat by lia.
      exact Hnow.
    + exists w'. split; [reflexivity|].
      cbn [reads sent trace slept polled got ticked] in Hr, Hs, Hz.
      repeat split; try lia.
      rewrite Hz, !sleeps_app. cbn. rewrite app_nil_r, <- app_assoc.
      reflexivity.
Qed.

End IntakeLoop.

Section MedidriveLoop.

Variable format : pyval -> pystr.
Variables (E : env) (job_id : pystr) (start_time duration interval : Z).

Let loop fuel := Medidrive.monitor_loop format fuel job_id start_time
                   duration interval.
Let polled (w : world) : world :=
  got jobs_url (ContentIntake.job_params job_id) 10 (ticked w).

Lemma medidrive_step_expired fuel last w :
  duration <= clock E (reads w) - start_time ->
  loop (S fuel) last E w = (Ret TimeExpired, ticked w).
Proof.
  intros H. apply Z.ltb_ge in H. unfold loop. cbn. run. now rewrite H.
Qed.

Ltac gets :=
  repeat match goal with
         | |- context [Medidrive.check_stage_progress ?j ?E0 ?w0] =>
             let u := fresh "u" in
             let p := fresh "p" in
             let H := fresh "H" in
             destruct (medidrive_check_stage_progress_run j E0 w0)
               as (u & p & H);
             rewrite H; clear H; cbn [fst snd]
         | |- context [Medidrive.check_events ?j ?E0 ?w0] =>
             let u := fresh "u" in
             let p := fresh "p" in
             let H := fresh "H" in
             destruct (medidrive_check_events_run j E0 w0) as (u & p & H);
             rewrite H; clear H; cbn [fst snd]
         end.

Ltac same_time_gets :=
  repeat first [ apply same_time_got
               | eapply same_time_trans; [|apply same_time_got] ].

Lemma medidrive_step_finished fuel last w :
  clock E (reads w) - start_time < duration ->
  terminal_row (fetched (http E (sent w))) = true ->
  exists w',
    loop (S fuel) last E w
    = (Ret (JobFinished (status_of (fetched (http E (sent w))))), w')
    /\ same_time (ticked w) w'.
Proof.
  intros Ht Hrow. apply Z.ltb_lt in Ht. unfold loop. cbn. run. rewrite Ht.
  change (mkWorld (sent w) (S (reads w)) (trace w) (files w)) with (ticked w).
  rewrite medidrive_check_job_status_run. cbn [sent ticked].
  unfold terminal_row in Hrow. apply andb_true_iff in Hrow as [Htr Hterm].
  rewrite Htr.
  destruct (fetched_is_row (http E (sent w))) as [Hn|[d Hd]].
  - rewrite Hn in Htr. discriminate.
  - rewrite Hd in *. cbn in Hterm |- *.
    fold (polled w).
    destruct (Medidrive.status_changed _ last).
    + gets. rewrite Hterm. gets.
      eexists. split; [reflexivity|]. unfold polled. same_time_gets.
    + cbn. rewrite Hterm. gets.
      eexists. split; [reflexivity|]. unfold polled. same_time_gets.
Qed.

Lemma medidrive_step_sleep fuel last w :
  clock E (reads w) - start_time < duration ->
  terminal_row (fetched (http E (sent w))) = false ->
  exists w' last',
    loop (S fuel) last E w
    = bind (sleep interval) (fun _ => loop fuel last') E w'
    /\ same_time (ticked w) w'
    /\ (fetched (http E (sent w)) = VNone -> w' = polled w /\ last' = last).
Proof.
  intros Ht Hrow. apply Z.ltb_lt in Ht. unfold loop. cbn. run. rewrite Ht.
  change (mkWorld (sent w) (S (reads w)) (trace w) (files w)) with (ticked w).
  rewrite medidrive_check_job_status_run. cbn [sent ticked].
  fold (polled w).
  unfold terminal_row in Hrow.
  destruct (fetched_is_row (http E (sent w))) as [Hn|[d Hd]].
  - rewrite Hn. cbn. exists (polled w), last.
    split; [reflexivity|]. split; [unfold polled; same_time_gets|auto].
  - rewrite Hd in *. cbn in Hrow |- *.
    destruct d as [|p d]; cbn in *.
    + exists (polled w), last.
      split; [reflexivity|].
      split; [unfold polled; same_time_gets|discriminate].
    + destruct (Medidrive.status_changed _ last).
      * gets. rewrite Hrow. cbn.
        eexists _, _. split; [reflexivity|].
        split; [unfold polled; same_time_gets|discriminate].
      * cbn. rewrite Hrow. cbn.
        eexists (polled w), _. split; [reflexivity|].
        split; [unfold polled; same_time_gets|discriminate].
Qed.

Lemma medidrive_finished_terminal fuel last w status :
  fst (loop fuel last E w) = Ret (JobFinished status) ->
  is_terminal status = true.
Proof.
  revert last w. induction fuel as [|fuel IH]; intros last w; [discriminate|].
  destruct (Z.lt_ge_cases (clock E (reads w) - start_time) duration)
    as [Ht|Ht].
  - destruct (terminal_row (fetched (http E (sent w)))) eqn:Hrow.
    + destruct (medidrive_step_finished fuel last w Ht Hrow) as (w' & -> & _).
      cbn. intros [= <-]. unfold terminal_row in Hrow.
      now apply andb_true_iff in Hrow as [_ Hterm].
    + destruct (medidrive_step_sleep fuel last w Ht Hrow)
        as (w' & last' & -> & _).
      unfold sleep. destruct (interval <? 0); run; [discriminate|].
      apply IH.
  - rewrite medidrive_step_expired by assumption. discriminate.
Qed.

Lemma medidrive_expiry :
  0 <= interval ->
  (forall n, terminal_row (fetched (http E n)) = false) ->
  forall (k fuel : nat) (last : option pystr) (w : world),
    (k < fuel)%nat ->
    (forall j, (j < k)%nat ->
               clock E (reads w + j) - start_time < duration) ->
    duration <= clock E (reads w + k) - start_time ->
    exists w',
      loop fuel last E w = (Ret TimeExpired, w')
      /\ reads w' = (reads w + k + 1)%nat
      /\ sleeps (trace w') = sleeps (trace w) ++ List.repeat interval k.
Proof.
  intros Hi Hrows.
  induction k as [|k IH]; intros fuel last w Hfuel Hbefore Hnow;
    (destruct fuel as [|fuel]; [lia|]).
  - rewrite Nat.add_0_r in Hnow. rewrite medidrive_step_expired by assumption.
    eexists; split; [reflexivity|]. cbn. rewrite app_nil_r. split; [lia|auto].
  - destruct (medidrive_step_sleep fuel last w) as (w1 & last' & -> & Hs & _).
    { specialize (Hbefore 0%nat). rewrite Nat.add_0_r in Hbefore.
      apply Hbefore. lia. }
    { apply Hrows. }
    unfold bind, sleep. apply Z.ltb_ge in Hi. rewrite Hi. cbn.
    destruct Hs as (Hr1 & Hz1 & _). cbn in Hr1.
    destruct (IH fuel last'
                (mkWorld (sent w1) (reads w1) (trace w1 ++ [ESleep interval])
                   (files w1)))
      as (w' & -> & Hr & Hz).
    + lia.
    + intros j Hj. cbn [reads]. rewrite Hr1.
      replace (S (reads w) + j)%nat with (reads w + S j)%nat by lia.
      apply Hbefore. lia.
    + cbn [reads]. rewrite Hr1.
      replace (S (reads w) + k)%nat with (reads w + S k)%nat by lia.
      exact Hnow.
    + exists w'. split; [reflexivity|]. cbn [reads trace] in Hr, Hz.
      split; [lia|].
      rewrite Hz, sleeps_app, Hz1. cbn. rewrite <- app_assoc. reflexivity.
Qed.

End MedidriveLoop.

Lemma intake_finishes E job_id start_time duration interval :
  0 <= interval ->
  forall (k fuel : nat) (w : world),
    (k < fuel)%nat ->
    (forall j, (j < k)%nat ->
               clock E (reads w + j) - start_time < duration
               /\ terminal_row (fetched (http E (sent w + j))) = false) ->
    clock E (reads w + k) - start_time < duration ->
    terminal_row (fetched (http E (sent w + k))) = true ->
    exists w',
      ContentIntake.monitor_loop fuel job_id start_time duration interval E w
      = (Ret (JobFinished (status_of (fetched (http E (sent w + k))))), w')
      /\ reads w' = (reads w + k + 1)%nat
      /\ sleeps (trace w') = sleeps (trace w) ++ List.repeat interval k.
Proof.
  intros Hi. induction k as [|k IH]; intros fuel w Hfuel Hbefore Hnow Hrow;
    (destruct fuel as [|fuel]; [lia|]).
  - rewrite Nat.add_0_r in *.
    destruct (intake_step_finished E job_id start_time duration interval
                fuel w Hnow Hrow) as (w' & -> & Hr & Hz & _).
    exists w'. split; [reflexivity|]. cbn in Hr, Hz.
    rewrite app_nil_r. split; [lia|assumption].
  - destruct (Hbefore 0%nat ltac:(lia)) as [Ht0 Hrow0].
    rewrite Nat.add_0_r in Ht0, Hrow0.
    rewrite intake_step_continue by assumption.
    match goal with
    | |- context [ContentIntake.monitor_loop fuel _ _ _ _ E ?w1] =>
        destruct (IH fuel w1) as (w' & -> & Hr & Hz)
    end.
    + lia.
    + intros j Hj. cbn [reads sent slept got ticked].
      replace (S (reads w) + j)%nat with (reads w + S j)%nat by lia.
      replace (S (sent w) + j)%nat with (sent w + S j)%nat by lia.
      apply Hbefore. lia.
    + cbn [reads slept got ticked].
      replace (S (reads w) + k)%nat with (reads w + S k)%nat by lia.
      exact Hnow.
    + cbn [sent slept got ticked].
      replace (S (sent w) + k)%nat with (sent w + S k)%nat by lia.
      exact Hrow.
    + cbn [sent reads trace slept got ticked] in *.
      replace (S (sent w) + k)%nat with (sent w + S k)%nat by lia.
      exists w'. split; [reflexivity|]. split; [lia|].
      rewrite Hz, !sleeps_app. cbn. rewrite app_nil_r, <- app_assoc.
      reflexivity.
Qed.

Definition processing_row : Response :=
  mkResponse 200 (py "OK") []
    (Some (VList [VDict [(py "id", VStr (py "job-42"));
                         (py "status", VStr (py "processing"));
                         (py "stage", VStr (py "draft"))]])) [].

Definition completed_row : Response :=
  mkResponse 200 (py "OK") []
    (Some (VList [VDict [(py "id", VStr (py "job-42"));
                         (py "status", VStr (py "completed"));
                         (py "stage", VStr (py "image"))]])) [].



(** Two rows still in progress, then the completed one. *)
Definition third_time_done : env :=
  mkEnv (fun n => match n with
                  | 0%nat | 1%nat => Responded processing_row
                  | _ => Responded completed_row
                  end)
        (fun n => 5 * Z.of_nat n).


(** A fetch that fails: no response, a status other than 200, or no row. *)
Definition failing (o : HttpOutcome) : Prop :=
  match o with
  | Failed _ => True
  | Responded r => status_code r <> 200 \/ json_doc r = Some (VList [])
  end.

Lemma failing_fetched o : failing o -> fetched o = VNone.
Proof.
  destruct o as [r|f]; cbn; [|reflexivity].
  intros [H|H].
  - apply Z.eqb_neq in H. now rewrite H.
  - rewrite H. now destruct (status_code r =? 200).
Qed.

Lemma failing_not_terminal o : failing o -> terminal_row (fetched o) = false.
Proof. intros H. now rewrite failing_fetched. Qed.


Definition always_500 : env :=
  mkEnv (fun _ => Responded server_error) (fun n => 10 * Z.of_nat n).


(** ** Saving the generated files *)

Lemma starts_with_app p s : starts_with p (p ++ s) = true.
Proof.
  induction p as [|c p IH]; cbn; [reflexivity|].
  now rewrite N.eqb_refl, IH.
Qed.

Lemma contains_app p a b : contains p (a ++ p ++ b) = true.
Proof.
  induction a as [|c a IH].
  - cbn [app]. destruct (p ++ b) eqn:Hpb; cbn;
      rewrite <- Hpb, starts_with_app; reflexivity.
  - cbn [app contains]. rewrite IH. apply orb_true_r.
Qed.

Definition get_or (d : list (pystr * pyval)) (k : pystr) (default : pyval)
  : pyval :=
  match lookup k d with
  | Some v => v
  | None => default
  end.

Definition generated_with_schema : Response :=
  mkResponse 200 (py "OK") []
    (Some (VDict [(py "success", VBool true);
                  (py "html", VStr (py "<p>hi</p>"));
                  (py "schema", VDict [(py "@type", VStr (py "Article"))])]))
    [].




(** ** The streaming schema parser *)

(** *** Removing one kind of block *)

Section Blocks.

Variables open close : pystr.

Lemma re_sub_block_skip c s :
  match_block open close (c :: s) = None ->
  re_sub_block open close (c :: s) = c :: re_sub_block open close s.
Proof.
  intros H. rewrite re_sub_block_equation_2.
  destruct (inspect (match_block open close (c :: s))) as [[rest|] Heq];
    [congruence|].
  now simp re_sub_block.
Qed.

Lemma re_sub_block_match c s rest :
  match_block open close (c :: s) = Some rest ->
  re_sub_block open close (c :: s) = re_sub_block open close rest.
Proof.
  intros H. rewrite re_sub_block_equation_2.
  destruct (inspect (match_block open close (c :: s))) as [[rest'|] Heq];
    [|congruence].
  simp re_sub_block. congruence.
Qed.

(** No occurrence of [p] starts within [x] when [r] follows it. *)
Fixpoint no_start (p x r : pystr) : Prop :=
  match x with
  | [] => True
  | c :: x' => starts_with p (c :: x' ++ r) = false /\ no_start p x' r
  end.

Lemma re_sub_block_no_start x r :
  no_start open x r ->
  re_sub_block open close (x ++ r) = x ++ re_sub_block open close r.
Proof.
  induction x as [|c x IH]; cbn [no_start app]; [reflexivity|].
  intros [Hc Hx]. rewrite re_sub_block_skip.
  - now rewrite IH.
  - unfold match_block. now rewrite Hc.
Qed.

Lemma find_after_no_start x r :
  no_start close x (close ++ r) ->
  find_after close (x ++ close ++ r) = Some r.
Proof.
  induction x as [|c x IH]; cbn [no_start app].
  - intros _. destruct (close ++ r) eqn:Hcr; cbn [find_after];
      rewrite <- Hcr, starts_with_app, skipn_app, skipn_all, Nat.sub_diag;
      reflexivity.
  - intros [Hc Hx]. cbn [find_after]. rewrite Hc. now apply IH.
Qed.

Lemma re_sub_block_removed x r :
  open <> [] ->
  no_start close x (close ++ r) ->
  re_sub_block open close (open ++ x ++ close ++ r)
  = re_sub_block open close r.
Proof.
  intros Hopen Hx.
  destruct (open ++ x ++ close ++ r) as [|c s] eqn:Hs.
  - destruct open; [congruence|discriminate].
  - apply re_sub_block_match. rewrite <- Hs. unfold match_block.
    rewrite starts_with_app, skipn_app, skipn_all, Nat.sub_diag. cbn [skipn app].
    rewrite find_after_no_start by assumption.
    assert (Hlen : (List.length r
                    < List.length (open ++ x ++ close ++ r))%nat).
    { rewrite !length_app. destruct open; [congruence|cbn; lia]. }
    apply Nat.ltb_lt in Hlen. now rewrite Hlen.
Qed.

End Blocks.

(** *** Tags *)

(** Every tag of the script is a ['<'] followed by characters other than
    ['<'], so that an occurrence cannot begin in one piece of text and end
    in a tag that follows it. *)
Definition lt_sign : N := 60%N.

Lemma starts_with_before_tag t x r :
  ~ In lt_sign t ->
  starts_with t (x ++ lt_sign :: r) = starts_with t x.
Proof.
  revert x. induction t as [|a t IH]; intros x Hin; [reflexivity|].
  destruct x as [|b x]; cbn.
  - destruct (N.eqb_spec a lt_sign) as [->|_]; [|reflexivity].
    exfalso. apply Hin. now left.
  - rewrite IH; [reflexivity|]. intros H. apply Hin. now right.
Qed.

Lemma no_start_content t x r :
  ~ In lt_sign t ->
  contains (lt_sign :: t) x = false ->
  no_start (lt_sign :: t) x (lt_sign :: r).
Proof.
  intros Hin. induction x as [|c x IH]; cbn [no_start]; [trivial|].
  intros H. cbn [contains] in H. apply orb_false_iff in H as [Hc Hx].
  split; [|now apply IH].
  cbn [starts_with] in Hc |- *. now rewrite starts_with_before_tag.
Qed.

Lemma space_is_no_tag c : is_space c = true -> N.eqb lt_sign c = false.
Proof.
  intros H. destruct (N.eqb_spec lt_sign c) as [<-|_]; [discriminate|reflexivity].
Qed.

Lemma lstrip_spaces g x :
  forallb is_space g = true -> lstrip (g ++ x) = lstrip x.
Proof.
  induction g as [|c g IH]; cbn; [reflexivity|].
  intros H. apply andb_true_iff in H as [Hc Hg]. now rewrite Hc, IH.
Qed.

Definition is_tag (t : pystr) : bool :=
  match t with
  | c :: t' => N.eqb c lt_sign && forallb (fun a => negb (N.eqb a lt_sign)) t'
  | [] => false
  end.

Lemma no_start_before_tag tag tag' x r :
  is_tag tag = true ->
  is_tag tag' = true ->
  contains tag x = false ->
  no_start tag x (tag' ++ r).
Proof.
  destruct tag as [|c t]; [discriminate|].
  destruct tag' as [|c' t']; [discriminate|].
  cbn [is_tag]. intros H H' Hx.
  apply andb_true_iff in H as [Hc Ht]. apply andb_true_iff in H' as [Hc' _].
  apply N.eqb_eq in Hc, Hc'. subst c c'. cbn [app].
  apply no_start_content; [|assumption].
  intros Hin. rewrite forallb_forall in Ht. specialize (Ht _ Hin).
  now rewrite N.eqb_refl in Ht.
Qed.

Import SchemaPerfect.

(** *** Blocks before the JSON body *)

(** Text made of [<processing>] and [<think>] blocks with white space
    around them. A block ends at the first closing tag, so its content
    holds none; the content of a [<think>] block also holds no
    [<processing>], which the first pass would take for the start of a
    block. *)
Inductive preamble : pystr -> Prop :=
| pre_end : preamble []
| pre_space c p :
    is_space c = true -> preamble p -> preamble (c :: p)
| pre_processing x p :
    contains CLOSE_PROCESSING x = false ->
    preamble p ->
    preamble (OPEN_PROCESSING ++ x ++ CLOSE_PROCESSING ++ p)
| pre_think x p :
    contains CLOSE_THINK x = false ->
    contains OPEN_PROCESSING x = false ->
    preamble p ->
    preamble (OPEN_THINK ++ x ++ CLOSE_THINK ++ p).

(** What the first pass leaves of a preamble. *)
Inductive thoughts : pystr -> Prop :=
| th_end : thoughts []
| th_space c p :
    is_space c = true -> thoughts p -> thoughts (c :: p)
| th_think x p :
    contains CLOSE_THINK x = false ->
    thoughts p ->
    thoughts (OPEN_THINK ++ x ++ CLOSE_THINK ++ p).

Lemma re_sub_block_space open close c s :
  is_tag open = true ->
  is_space c = true ->
  re_sub_block open close (c :: s) = c :: re_sub_block open close s.
Proof.
  intros Ho Hc. apply re_sub_block_skip. unfold match_block.
  destruct open as [|o t]; [discriminate|]. cbn [is_tag] in Ho.
  apply andb_true_iff in Ho as [Ho _]. apply N.eqb_eq in Ho. subst o.
  cbn [starts_with]. now rewrite (space_is_no_tag c Hc).
Qed.

Lemma no_processing_in_open_think r : no_start OPEN_PROCESSING OPEN_THINK r.
Proof. vm_compute. repeat split. Qed.

Lemma no_processing_in_close_think r : no_start OPEN_PROCESSING CLOSE_THINK r.
Proof. vm_compute. repeat split. Qed.

Lemma processing_pass p :
  preamble p ->
  exists p',
    thoughts p'
    /\ forall body,
        re_sub_block OPEN_PROCESSING CLOSE_PROCESSING (p ++ body)
        = p' ++ re_sub_block OPEN_PROCESSING CLOSE_PROCESSING body.
Proof.
  induction 1 as [|c p Hc _ (p' & Hp' & IH)
                  |x p Hx _ (p' & Hp' & IH)
                  |x p Hx Hx' _ (p' & Hp' & IH)].
  - exists []. split; [constructor|reflexivity].
  - exists (c :: p'). split; [now constructor|].
    intros body. cbn [app].
    rewrite re_sub_block_space, IH by (assumption || reflexivity).
    reflexivity.
  - exists p'. split; [assumption|].
    intros body. rewrite <- !app_assoc.
    rewrite re_sub_block_removed; [apply IH|discriminate|].
    now apply no_start_before_tag.
  - exists (OPEN_THINK ++ x ++ CLOSE_THINK ++ p'). split; [now constructor|].
    intros body. rewrite <- !app_assoc.
    rewrite re_sub_block_no_start by apply no_processing_in_open_think.
    rewrite re_sub_block_no_start by now apply no_start_before_tag.
    rewrite re_sub_block_no_start by apply no_processing_in_close_think.
    now rewrite IH.
Qed.

Lemma think_pass p :
  thoughts p ->
  exists g,
    forallb is_space g = true
    /\ forall body,
        re_sub_block OPEN_THINK CLOSE_THINK (p ++ body)
        = g ++ re_sub_block OPEN_THINK CLOSE_THINK body.
Proof.
  induction 1 as [|c p Hc _ (g & Hg & IH)|x p Hx _ (g & Hg & IH)].
  - exists []. split; reflexivity.
  - exists (c :: g). split; [cbn; now rewrite Hc|].
    intros body. cbn [app].
    rewrite re_sub_block_space, IH by (assumption || reflexivity).
    reflexivity.
  - exists g. split; [assumption|].
    intros body. rewrite <- !app_assoc.
    rewrite re_sub_block_removed; [apply IH|discriminate|].
    now apply no_start_before_tag.
Qed.

Lemma clean_preamble p body :
  preamble p -> clean (p ++ body) = clean body.
Proof.
  intros Hp. unfold clean, strip.
  destruct (processing_pass p Hp) as (p' & Hp' & ->).
  destruct (think_pass p' Hp') as (g & Hg & ->).
  now rewrite lstrip_spaces.
Qed.

(** *** The text the loop gathers *)

(** The decoded non-empty lines, each followed by a newline. *)
Fixpoint gather (lines : list (list Byte.byte)) : res pystr :=
  match lines with
  | [] => Ret []
  | [] :: rest => gather rest
  | line :: rest =>
      res_bind (decode_utf8 line) (fun text =>
      res_bind (gather rest) (fun g => Ret (text ++ py_newline ++ g)))
  end.

Lemma stream_line_full st line text :
  line <> [] ->
  decode_utf8 line = Ret text ->
  exists st',
    stream_line st line = Ret st'
    /\ full_response st' = full_response st ++ text ++ py_newline.
Proof.
  intros Hl Hd. unfold stream_line. destruct line as [|b line]; [congruence|].
  rewrite Hd. cbn [res_bind].
  repeat match goal with
         | |- context [if ?c then _ else _] => destruct c
         end;
    eexists; split; reflexivity.
Qed.

Lemma stream_lines_full lines :
  forall st text,
    gather lines = Ret text ->
    exists st',
      stream_lines st lines = Ret st'
      /\ full_response st' = full_response st ++ text.
Proof.
  induction lines as [|line rest IH]; intros st text; cbn [gather stream_lines].
  - intros [= <-]. exists st. now rewrite app_nil_r.
  - destruct line as [|b line].
    + intros H. cbn. now apply IH.
    + destruct (decode_utf8 (b :: line)) as [t| |] eqn:Hd; try discriminate.
      cbn [res_bind].
      destruct (gather rest) as [g| |] eqn:Hg; try discriminate.
      cbn [res_bind]. intros [= <-].
      destruct (stream_line_full st (b :: line) t ltac:(discriminate) Hd)
        as (st1 & -> & Hf1).
      cbn [res_bind].
      destruct (IH st1 g eq_refl) as (st' & -> & Hf).
      exists st'. split; [reflexivity|].
      rewrite Hf, Hf1, <- !app_assoc. reflexivity.
Qed.

Lemma test_schema_perfect_gathered json_loads url E w r text :
  http E (sent w) = Responded r ->
  status_code r = 200 ->
  gather (iter_lines r) = Ret text ->
  fst (test_schema_perfect json_loads url E w)
  = match extract json_loads text with
    | Raise e => if is_Exception e then Ret None else Raise e
    | other => other
    end.
Proof.
  intros Hr Hs Hg. unfold test_schema_perfect. run. rewrite Hr. cbn.
  rewrite Hs. cbn.
  destruct (stream_lines_full _ initial_state text Hg) as (st & -> & Hf).
  cbn in Hf. rewrite Hf.
  destruct (extract json_loads text) as [v|e|]; cbn; try reflexivity.
  destruct e; reflexivity.
Qed.

(** *** Streams to run the script on *)

Definition line (s : string) : list Byte.byte := list_byte_of_string s.

Definition quote : list Byte.byte := [Byte.x22].

(** The bytes of [{"@type":"Article"}]. *)
Definition article_json : list Byte.byte :=
  line "{" ++ quote ++ line "@type" ++ quote ++ line ":"
    ++ quote ++ line "Article" ++ quote ++ line "}".

Definition article : pyval := VDict [(py "@type", VStr (py "Article"))].

Definition streamed (lines : list (list Byte.byte)) : env :=
  mkEnv (fun _ => Responded (mkResponse 200 (py "OK") [] None lines))
        (fun _ => 0).

(** The stream of the specification's example, in one line. *)
Definition garbage_then_article : list (list Byte.byte) :=
  [line "<think>garbage{not json}</think>" ++ article_json].

(** Two streams with the same blocks and the same body; only the thought
    differs. *)
Definition plain_thought : list (list Byte.byte) :=
  [line "<think>"; line "I will wrap the progress notes in tags";
   line "</think>";
   line "<processing>"; line "fetching the page"; line "</processing>";
   article_json].

Definition thought_naming_a_tag : list (list Byte.byte) :=
  [line "<think>"; line "I will wrap the progress notes in <processing> tags";
   line "</think>";
   line "<processing>"; line "fetching the page"; line "</processing>";
   article_json].




(* ===================================================================== *)
(** * More of the code *)
(* ===================================================================== *)

(** ** generate-hero-image-from-unedited.py: the synchronous variant *)

Module HeroImageSync.

(** [timeout] is an [int] here, and prints as one. *)
Definition generate_hero_image_from_unedited_sync
    (content_plan_outline_guid : pystr) (timeout : Z) : M pyval :=
  try_except
    (let prompt_function_url :=
       SUPABASE_URL ++ py "/functions/v1/generate-hero-image-prompt" in
     prompt_response <-
       requests_post prompt_function_url
         (prompt_payload content_plan_outline_guid) timeout ;;
     lift (raise_for_status prompt_function_url prompt_response) ;;;
     prompt_result <- lift (response_json prompt_response) ;;
     saved <- lift (save_status_get prompt_result (py "success")) ;;
     (if truthy saved then
        lift (save_status_get prompt_result (py "hero_image_prompt_id")) ;;;
        lift (py_get prompt_result (py "content_source") (VStr (py "unknown"))) ;;;
        ret tt
      else ret tt) ;;;
     let image_function_url :=
       SUPABASE_URL ++ py "/functions/v1/generate-hero-image" in
     image_response <-
       requests_post image_function_url
         (image_payload content_plan_outline_guid) timeout ;;
     lift (raise_for_status image_function_url image_response) ;;;
     image_result <- lift (response_json image_response) ;;
     ok <- lift (py_get image_result (py "success") VNone) ;;
     (if truthy ok then
        lift (py_get image_result (py "hero_image_url") (VStr (py "N/A"))) ;;;
        ret tt
      else ret tt) ;;;
     url <- lift (py_get image_result (py "hero_image_url") VNone) ;;
     prompt_id <- lift (save_status_get prompt_result
                          (py "hero_image_prompt_id")) ;;
     ret (hero_success prompt_result image_result url prompt_id))
    (fun e =>
       if is_Timeout e then
         ret (VDict [(py "success", VBool false);
                     (py "error", VStr (py "Request timed out after "
                                          ++ str_of_int timeout
                                          ++ py " seconds"))])
       else if is_RequestException e then
         ret (VDict [(py "success", VBool false);
                     (py "error", VStr (str_of_exn e))])
       else if is_Exception e then
         ret (VDict [(py "success", VBool false);
                     (py "error", VStr (str_of_exn e))])
       else raise e).

End HeroImageSync.

(** ** generate-side-by-side-python-example.py: the first two examples *)

Module PythonExamples.

(** [json.dumps] of a value that came out of [response.json()] does not
    fail, and its text is only printed. *)
Definition example_simple (task_id : pystr) : M unit :=
  try_except
    (result <- PythonExample.generate_html PythonExample.FUNCTION_URL task_id 300 ;;
     ok <- lift (py_get result (py "success") VNone) ;;
     if truthy ok then
       html <- lift (py_get result (py "html") (VStr [])) ;;
       lift (py_slice_to 200 html) ;;;
       lift (py_get result (py "schema") VNone) ;;;
       ret tt
     else
       lift (py_get result (py "error") VNone) ;;;
       ret tt)
    (fun e => if is_Exception e then ret tt else raise e).

Definition sequential_entry (task_id : pystr) (ok err : pyval) : pyval :=
  VDict [(py "task_id", VStr task_id); (py "success", ok); (py "error", err)].

(** The [for i, task_id in enumerate(task_ids, 1)] loop of
    [example_batch_sequential]; [n] is [len(task_ids)] and [results] the
    list built so far. Between the [append] of the [try] branch and its
    end there is only [time.sleep(2)], which does not raise, so the
    handler finds the list as it was before the turn. *)
Fixpoint sequential_loop (n i : Z) (task_ids : list pystr)
    (results : list pyval) : M (list pyval) :=
  match task_ids with
  | [] => ret results
  | task_id :: rest =>
      results' <-
        try_except
          (result <- PythonExample.generate_html PythonExample.FUNCTION_URL
                       task_id 300 ;;
           ok <- lift (py_get result (py "success") VNone) ;;
           err <- lift (py_get result (py "error") VNone) ;;
           (if i <? n then sleep 2 else ret tt) ;;;
           ret (results ++ [sequential_entry task_id ok err]))
          (fun e =>
             if is_Exception e then
               ret (results ++ [PythonExample.failed_entry task_id e])
             else raise e) ;;
      sequential_loop n (i + 1) rest results'
  end.

Definition example_batch_sequential (task_ids : list pystr)
  : M (list pyval) :=
  sequential_loop (Z.of_nat (List.length task_ids)) 1 task_ids [].

End PythonExamples.

(** ** test-schema-perfect.py: the script *)

Module SchemaPerfectMain.

Definition default_url : pystr :=
  py "https://www.loudinteractive.com/blog/local-seo-tips".

Definition output_file : pystr := py "test-schema-output.json".

Section WithDecoder.

Variable json_loads : pystr -> res pyval.

(** [argv] is [sys.argv[1:]]. [json.dumps(schema, indent=2)[:500]] is only
    printed. [sys.exit(1)] raises [SystemExit]. *)
Definition main (argv : list pystr) : M unit :=
  let test_url := match argv with
                  | url :: _ => url
                  | [] => default_url
                  end in
  schema <- SchemaPerfect.test_schema_perfect json_loads test_url ;;
  match schema with
  | Some v =>
      if truthy v then
        open_w output_file ;;;
        json_dump output_file v 2
      else raise (SystemExit 1)
  | None => raise (SystemExit 1)
  end.

End WithDecoder.

End SchemaPerfectMain.

(** ** test-content-intake.py and test-medidrive-content.py: the scripts *)

Module ContentIntakeMain.

(** The reply is only printed and every exception is caught. *)
Definition check_stage_backlog : M unit :=
  let url := SUPABASE_URL ++ py "/rest/v1/rpc/get_content_stage_backlog" in
  try_except
    (requests_post url (VDict []) 10 ;;;
     ret tt)
    (fun e => if is_Exception e then ret tt else raise e).

Section Main.

(** [str(v)], as an f-string formats the job ID. *)
Variable format : pyval -> pystr.

(** [monitor] tells whether the operator's answer, lowered, is ["y"]. *)
Definition main (fuel : nat) (monitor : bool) : M unit :=
  check_stage_backlog ;;;
  job_id <- ContentIntake.submit_job ;;
  if negb (truthy job_id) then raise (SystemExit 1)
  else
    sleep 2 ;;;
    ContentIntake.check_job_status (format job_id) ;;;
    ContentIntake.check_job_events (format job_id) ;;;
    if monitor then
      ContentIntake.monitor_job fuel (format job_id) 300 10 ;;;
      ret tt
    else ret tt.

End Main.

End ContentIntakeMain.

Module MedidriveMain.

Section Main.

Variable format : pyval -> pystr.

Definition main (fuel : nat) (monitor : bool) : M unit :=
  job_id <- Medidrive.submit_job ;;
  if negb (truthy job_id) then raise (SystemExit 1)
  else
    sleep 3 ;;;
    Medidrive.check_job_status (format job_id) ;;;
    Medidrive.check_stage_progress (format job_id) ;;;
    Medidrive.check_events (format job_id) ;;;
    if monitor then
      Medidrive.monitor_job format fuel (format job_id) 300 15 ;;;
      ret tt
    else ret tt.

End Main.

End MedidriveMain.

(* ===================================================================== *)
(** * Further properties of the code *)
(* ===================================================================== *)

(** ** What [generate_html] hands back *)

Lemma raise_for_status_passes url r :
  raise_for_status url r = Ret tt <-> ~ (400 <= status_code r < 600).
Proof.
  unfold raise_for_status. split.
  - intros H [Hlo Hhi].
    destruct (status_code r <? 500) eqn:H5.
    + assert ((400 <=? status_code r) = true) as E1 by now apply Z.leb_le.
      rewrite E1 in H. cbn in H. discriminate.
    + apply Z.ltb_ge in H5.
      assert ((500 <=? status_code r) = true) as E1 by now apply Z.leb_le.
      assert ((status_code r <? 600) = true) as E2 by now apply Z.ltb_lt.
      rewrite E1, E2, andb_false_r in H. cbn in H. discriminate.
  - intros H.
    destruct ((400 <=? status_code r) && (status_code r <? 500)) eqn:E1.
    + apply andb_prop in E1 as [A B]. apply Z.leb_le in A. apply Z.ltb_lt in B.
      exfalso. apply H. lia.
    + destruct ((500 <=? status_code r) && (status_code r <? 600)) eqn:E2;
        [|reflexivity].
      apply andb_prop in E2 as [A B]. apply Z.leb_le in A. apply Z.ltb_lt in B.
      exfalso. apply H. lia.
Qed.

(** The function of the quick start is the method of the class at the
    timeout of 300 seconds. *)
Lemma quickstart_generate_html_run task_id E w :
  QuickStart.generate_html task_id E w
  = (html_answer QuickStart.FUNCTION_URL (http E (sent w)),
     posted QuickStart.FUNCTION_URL (VDict [(py "task_id", VStr task_id)]) 300 w).
Proof.
  unfold html_answer, PythonExample.generate_html, QuickStart.generate_html,
    posted. run.
  destruct (http E (sent w)) as [r|f]; cbn.
  - destruct (raise_for_status QuickStart.FUNCTION_URL r); cbn;
      try reflexivity; [|handlers].
    destruct (response_json r) as [v| |]; cbn; try reflexivity; [|handlers].
    destruct (py_get v (py "success") VNone) as [ok| |]; cbn;
      try reflexivity; [|handlers].
    destruct (truthy ok); cbn; try reflexivity.
    destruct (py_get v (py "html") (VStr [])) as [h| |]; cbn;
      try reflexivity; [|handlers].
    destruct (py_len h); cbn; try reflexivity. handlers.
  - destruct f; cbn; reflexivity.
Qed.

(** The answer of the network that makes [generate_html] return. *)
Lemma html_answer_returns url o result :
  html_answer url o = Ret result ->
  exists r d,
    o = Responded r
    /\ ~ (400 <= status_code r < 600)
    /\ json_doc r = Some result
    /\ result = VDict d
    /\ (truthy (get_or d (py "success") VNone) = true ->
        exists n, py_len (get_or d (py "html") (VStr [])) = Ret n).
Proof.
  unfold html_answer, PythonExample.generate_html. run.
  destruct o as [r|f]; cbn; [|destruct f; cbn; discriminate].
  destruct (raise_for_status url r) as [[]| |] eqn:Hs; cbn;
    [|handlers; discriminate|discriminate].
  apply raise_for_status_passes in Hs.
  unfold response_json. destruct (json_doc r) as [v|] eqn:Hj; cbn;
    [|discriminate].
  destruct v as [| | | | | |d]; cbn; try discriminate.
  fold (get_or d (py "success") VNone).
  destruct (truthy (get_or d (py "success") VNone)) eqn:Hok; cbn.
  - fold (get_or d (py "html") (VStr [])).
    destruct (py_len (get_or d (py "html") (VStr []))) as [n| |] eqn:Hn; cbn;
      [|handlers; discriminate|discriminate].
    intros [= <-]. exists r, d.
    split; [reflexivity|]. split; [assumption|]. split; [assumption|].
    split; [reflexivity|]. intros _. now exists n.
  - intros [= <-]. exists r, d.
    split; [reflexivity|]. split; [assumption|]. split; [assumption|].
    split; [reflexivity|]. rewrite Hok. discriminate.
Qed.

(** X1. When [generate_html] returns, in the class as in the quick start,
    what it returns is the JSON document of the reply, unchanged: the reply
    had a status outside 400..599 and its document is an object; when its
    [success] is true its [html] (the empty string when absent) has a
    length. *)
Theorem generate_html_returns_the_reply :
  forall (E : env) (w : world) (url task_id : pystr) (timeout : Z)
         (result : pyval),
    fst (PythonExample.generate_html url task_id timeout E w) = Ret result
    \/ fst (QuickStart.generate_html task_id E w) = Ret result ->
    exists r d,
      http E (sent w) = Responded r
      /\ ~ (400 <= status_code r < 600)
      /\ json_doc r = Some result
      /\ result = VDict d
      /\ (truthy (get_or d (py "success") VNone) = true ->
          exists n, py_len (get_or d (py "html") (VStr [])) = Ret n).
Proof.
  intros E w url task_id timeout result [H|H].
  - rewrite generate_html_run in H. now apply html_answer_returns in H.
  - rewrite quickstart_generate_html_run in H.
    now apply html_answer_returns in H.
Qed.

Lemma generate_html_returns_the_reply_witness :
  exists r d,
    http second_time_lucky (sent (posted [] VNone 0 world0)) = Responded r
    /\ ~ (400 <= status_code r < 600)
    /\ json_doc r = Some generated
    /\ generated = VDict d
    /\ (truthy (get_or d (py "success") VNone) = true ->
        exists n, py_len (get_or d (py "html") (VStr [])) = Ret n).
Proof.
  apply (generate_html_returns_the_reply second_time_lucky
           (posted [] VNone 0 world0) PythonExample.FUNCTION_URL
           (py "task-1") 300 generated).
  left. vm_compute. reflexivity.
Defined.


Definition success_without_html : Response :=
  mkResponse 200 (py "OK") []
    (Some (VDict [(py "success", VBool true); (py "html", VNone)])) [].


(** X3. Whatever the network answers, [generate_html] makes exactly one
    request, a POST of the task ID to the function's URL with the timeout
    it was given (300 seconds in the quick start); it reads no clock, does
    not sleep and writes no file. *)
Theorem generate_html_makes_one_request :
  forall (E : env) (w : world) (url task_id : pystr) (timeout : Z),
    snd (PythonExample.generate_html url task_id timeout E w)
    = mkWorld (S (sent w)) (reads w)
        (trace w ++ [EPost url (VDict [(py "task_id", VStr task_id)]) timeout])
        (files w)
    /\ snd (QuickStart.generate_html task_id E w)
       = mkWorld (S (sent w)) (reads w)
           (trace w ++ [EPost QuickStart.FUNCTION_URL
                          (VDict [(py "task_id", VStr task_id)]) 300])
           (files w).
Proof.
  intros. rewrite generate_html_run, quickstart_generate_html_run.
  split; reflexivity.
Qed.

(** ** The hero image functions *)

Lemma py_get_raises v k d e :
  py_get v k d = Raise e -> exists m, e = AttributeError m.
Proof. destruct v; cbn; intros [= <-]; eexists; reflexivity. Qed.

Lemma py_get_finishes v k d : py_get v k d <> Unfinished.
Proof. destruct v; discriminate. Qed.

Lemma save_status_get_raises p k e :
  save_status_get p k = Raise e -> exists m, e = AttributeError m.
Proof.
  unfold save_status_get.
  destruct (py_get p (py "save_status") (VDict [])) as [s| |] eqn:H; cbn.
  - apply py_get_raises.
  - intros [= <-]. now apply py_get_raises in H.
  - discriminate.
Qed.

Lemma save_status_get_finishes p k : save_status_get p k <> Unfinished.
Proof.
  unfold save_status_get.
  destruct (py_get p (py "save_status") (VDict [])) as [s| |] eqn:H; cbn.
  - apply py_get_finishes.
  - discriminate.
  - now apply py_get_finishes in H.
Qed.

Ltac report_failure :=
  eexists _, false;
  split; [reflexivity|split; [reflexivity|discriminate]].

(** X4. [generate_hero_image_from_unedited] never raises: whatever the
    network does it returns a dictionary whose [success] is a boolean. When
    [success] is true, both requests were made and answered with status
    200, and [prompt_result] and [image_result] are the JSON documents of
    the two replies. *)
Theorem hero_image_always_reports :
  forall (guid : pystr) (timeout : Z) (E : env) (w : world),
    exists d b,
      fst (HeroImage.generate_hero_image_from_unedited guid timeout E w)
      = Ret (VDict d)
      /\ lookup (py "success") d = Some (VBool b)
      /\ (b = true ->
          exists r1 r2,
            http E (sent w) = Responded r1
            /\ http E (S (sent w)) = Responded r2
            /\ status_code r1 = 200 /\ status_code r2 = 200
            /\ lookup (py "prompt_result") d = json_doc r1
            /\ lookup (py "image_result") d = json_doc r2
            /\ sent (snd (HeroImage.generate_hero_image_from_unedited
                            guid timeout E w)) = S (S (sent w))).
Proof.
  intros guid timeout E w.
  unfold HeroImage.generate_hero_image_from_unedited. run.
  destruct (http E (sent w)) as [r1|f] eqn:H1; cbn;
    [|destruct f; cbn; report_failure].
  destruct (status_code r1 =? 200) eqn:Hc1; cbn; [|report_failure].
  unfold httpx_json.
  destruct (json_doc r1) as [p|] eqn:Hj1; cbn; [|report_failure].
  destruct (save_status_get p (py "success")) as [saved|e|] eqn:Hsaved; cbn;
    [ | apply save_status_get_raises in Hsaved as [m ->]; cbn; report_failure
      | now apply save_status_get_finishes in Hsaved ].
  destruct (save_status_get_total _ _ _ Hsaved) as [Hs Hg].
  destruct (Hs (py "hero_image_prompt_id")) as [v1 Hv1].
  destruct (Hg (py "content_source") (VStr (py "unknown"))) as [v2 Hv2].
  destruct (Hg (py "aspect_ratio") (VStr (py "16:9"))) as [v3 Hv3].
  rewrite Hv1, Hv2, Hv3.
  destruct (truthy saved); cbn.
  all: destruct (http E (S (sent w))) as [r2|f] eqn:H2; cbn;
    [|destruct f; cbn; report_failure].
  all: destruct (status_code r2 =? 200) eqn:Hc2; cbn; [|report_failure].
  all: destruct (json_doc r2) as [q|] eqn:Hj2; cbn; [|report_failure].
  all: destruct (py_get q (py "success") VNone) as [ok|e|] eqn:Hok; cbn;
    [ | apply py_get_raises in Hok as [m ->]; cbn; report_failure
      | now apply py_get_finishes in Hok ].
  all: destruct q as [| | | | | |dq]; try discriminate Hok.
  all: cbn; destruct (truthy ok); cbn.
  all: eexists _, true.
  all: split; [reflexivity|]; split; [reflexivity|]; intros _.
  all: exists r1, r2; apply Z.eqb_eq in Hc1, Hc2.
  all: repeat split; try assumption; try reflexivity.
  all: first [rewrite Hj1 | rewrite Hj2]; reflexivity.
Qed.

Definition prompt_url (base : pystr) : pystr :=
  base ++ py "/functions/v1/generate-hero-image-prompt".

Definition image_url (base : pystr) : pystr :=
  base ++ py "/functions/v1/generate-hero-image".

(** The world after the two requests of the flow. *)
Definition both_posted (base guid : pystr) (timeout : Z) (w : world) : world :=
  posted (image_url base) (image_payload guid) timeout
    (posted (prompt_url base) (prompt_payload guid) timeout w).


Definition image_ok : Response :=
  mkResponse 200 (py "OK") []
    (Some (VDict [(py "success", VBool true);
                  (py "hero_image_url", VStr (py "https://img/1.png"))])) [].

Definition hero_ok_env : env :=
  mkEnv (fun n => match n with
                  | O => Responded prompt_ok
                  | _ => Responded image_ok
                  end)
        (fun _ => 0).


Lemma hero_image_always_reports_witness :
  sent (snd (HeroImage.generate_hero_image_from_unedited (py "guid-1") 300
               hero_ok_env world0)) = 2%nat.
Proof.
  destruct (hero_image_always_reports (py "guid-1") 300 hero_ok_env world0)
    as (d & b & Hd & Hb & Hsuccess).
  vm_compute in Hd. injection Hd as <-.
  vm_compute in Hb. injection Hb as <-.
  destruct (Hsuccess eq_refl) as (r1 & r2 & _ & _ & _ & _ & _ & _ & Hsent).
  exact Hsent.
Defined.

(** X6. A prompt reply with status 200 whose [save_status] is present but
    is not an object (a null, say) separates the two functions. The one of
    the script stops there: it has made the prompt request only and
    reports a failure whose error is the complaint about [get]. The helper
    does not look at [save_status] yet: it always goes on to the image
    request, and when that one succeeds it raises the complaint instead of
    returning. *)
Theorem hero_image_save_status_not_object :
  forall (guid supabase_url : pystr) (key : option pystr) (timeout : Z)
         (E : env) (w : world) (r1 : Response) (p : list (pystr * pyval))
         (v : pyval),
    http E (sent w) = Responded r1 ->
    status_code r1 = 200 ->
    json_doc r1 = Some (VDict p) ->
    lookup (py "save_status") p = Some v ->
    (forall s, v <> VDict s) ->
    let complaint :=
      py "'" ++ type_name v ++ py "' object has no attribute 'get'" in
    HeroImage.generate_hero_image_from_unedited guid timeout E w
    = (Ret (VDict [(py "success", VBool false);
                   (py "error", VStr complaint)]),
       posted (prompt_url SUPABASE_URL) (prompt_payload guid) timeout w)
    /\ snd (HeroImageHelper.generate_hero_image_from_unedited_content
              guid supabase_url key timeout E w)
       = both_posted supabase_url guid timeout w
    /\ (forall r2 q,
           http E (S (sent w)) = Responded r2 ->
           status_code r2 = 200 ->
           json_doc r2 = Some (VDict q) ->
           fst (HeroImageHelper.generate_hero_image_from_unedited_content
                  guid supabase_url key timeout E w)
           = Raise (AttributeError complaint)).
Proof.
  intros guid supabase_url key timeout E w r1 p v H1 Hc1 Hj1 Hv Hnot complaint.
  assert (Hget : forall k, save_status_get (VDict p) k
                           = Raise (AttributeError complaint)).
  { intros k. unfold save_status_get. cbn. rewrite Hv.
    destruct v; cbn; try reflexivity. now destruct (Hnot d). }
  split; [|split].
  - unfold HeroImage.generate_hero_image_from_unedited. run.
    rewrite H1. cbn. rewrite Hc1. cbn. unfold httpx_json. rewrite Hj1.
    cbn -[save_status_get]. rewrite Hget. reflexivity.
  - unfold HeroImageHelper.generate_hero_image_from_unedited_content. run.
    rewrite H1. cbn. rewrite Hc1. cbn. unfold httpx_json. rewrite Hj1.
    cbn -[save_status_get].
    destruct (http E (S (sent w))) as [r2|f]; cbn -[save_status_get];
      [|reflexivity].
    destruct (status_code r2 =? 200); cbn -[save_status_get]; [|reflexivity].
    destruct (json_doc r2) as [q|]; cbn -[save_status_get]; [|reflexivity].
    destruct (py_get q (py "hero_image_url") VNone); cbn -[save_status_get];
      try reflexivity.
    rewrite Hget. reflexivity.
  - intros r2 q H2 Hc2 Hj2.
    unfold HeroImageHelper.generate_hero_image_from_unedited_content. run.
    rewrite H1. cbn. rewrite Hc1. cbn. unfold httpx_json. rewrite Hj1.
    cbn -[save_status_get]. rewrite H2. cbn -[save_status_get].
    rewrite Hc2. cbn -[save_status_get]. rewrite Hj2. cbn -[save_status_get].
    rewrite Hget. reflexivity.
Qed.

Definition prompt_unsaved : Response :=
  mkResponse 200 (py "OK") [] (Some (VDict [(py "save_status", VNone)])) [].

Lemma hero_image_save_status_not_object_witness :
  HeroImage.generate_hero_image_from_unedited (py "guid-1") 300
    (mkEnv (fun _ => Responded prompt_unsaved) (fun _ => 0)) world0
  = (Ret (VDict [(py "success", VBool false);
                 (py "error",
                  VStr (py "'NoneType' object has no attribute 'get'"))]),
     posted (prompt_url SUPABASE_URL) (prompt_payload (py "guid-1")) 300
       world0).
Proof.
  refine (proj1
    (hero_image_save_status_not_object (py "guid-1") SUPABASE_URL None 300
       (mkEnv (fun _ => Responded prompt_unsaved) (fun _ => 0)) world0
       prompt_unsaved _ VNone eq_refl eq_refl eq_refl eq_refl _)).
  intros s. discriminate.
Defined.

(** X7. The helper has no handler: a request that fails and a reply with
    status 200 whose body is not JSON make it raise, where the function of
    the script returns a failure. The error is that of the request, or the
    decoder's. *)
Theorem hero_image_helper_raises :
  forall (guid supabase_url : pystr) (key : option pystr) (timeout : Z)
         (E : env) (w : world),
    let helper :=
      HeroImageHelper.generate_hero_image_from_unedited_content
        guid supabase_url key timeout E w in
    (forall f,
        http E (sent w) = Failed f ->
        helper
        = (Raise (exn_of_failure f),
           posted (prompt_url supabase_url) (prompt_payload guid) timeout w))
    /\ (forall r1,
           http E (sent w) = Responded r1 ->
           status_code r1 = 200 ->
           json_doc r1 = None ->
           exists m,
             helper
             = (Raise (JSONDecodeError m),
                posted (prompt_url supabase_url) (prompt_payload guid)
                  timeout w))
    /\ (forall r1 p f,
           http E (sent w) = Responded r1 ->
           status_code r1 = 200 ->
           json_doc r1 = Some p ->
           http E (S (sent w)) = Failed f ->
           helper
           = (Raise (exn_of_failure f),
              both_posted supabase_url guid timeout w))
    /\ (forall r1 p r2,
           http E (sent w) = Responded r1 ->
           status_code r1 = 200 ->
           json_doc r1 = Some p ->
           http E (S (sent w)) = Responded r2 ->
           status_code r2 = 200 ->
           json_doc r2 = None ->
           exists m,
             helper
             = (Raise (JSONDecodeError m),
                both_posted supabase_url guid timeout w)).
Proof.
  intros guid supabase_url key timeout E w helper. subst helper.
  unfold HeroImageHelper.generate_hero_image_from_unedited_content. run.
  split; [|split; [|split]].
  - intros f ->. reflexivity.
  - intros r1 -> Hc1 Hj1. cbn. rewrite Hc1. cbn.
    unfold httpx_json. rewrite Hj1. eexists. reflexivity.
  - intros r1 p f -> Hc1 Hj1 H2. cbn. rewrite Hc1. cbn.
    unfold httpx_json. rewrite Hj1. cbn. rewrite H2. reflexivity.
  - intros r1 p r2 -> Hc1 Hj1 H2 Hc2 Hj2. cbn. rewrite Hc1. cbn.
    unfold httpx_json. rewrite Hj1. cbn. rewrite H2. cbn. rewrite Hc2. cbn.
    rewrite Hj2. eexists. reflexivity.
Qed.

Lemma hero_image_helper_raises_witness :
  HeroImageHelper.generate_hero_image_from_unedited_content
    (py "guid-1") SUPABASE_URL None 300
    (mkEnv (fun _ => Failed (NoConnection (py "refused"))) (fun _ => 0)) world0
  = (Raise (ConnectionError (py "refused")),
     posted (prompt_url SUPABASE_URL) (prompt_payload (py "guid-1")) 300
       world0).
Proof.
  exact (proj1
    (hero_image_helper_raises (py "guid-1") SUPABASE_URL None 300
       (mkEnv (fun _ => Failed (NoConnection (py "refused"))) (fun _ => 0))
       world0)
    (NoConnection (py "refused")) eq_refl).
Defined.

Lemma raise_for_status_raises url r e :
  raise_for_status url r = Raise e ->
  is_Timeout e = false /\ is_RequestException e = true.
Proof.
  unfold raise_for_status.
  destruct ((400 <=? status_code r) && (status_code r <? 500));
    [intros [= <-]; now split|].
  destruct ((500 <=? status_code r) && (status_code r <? 600));
    [intros [= <-]; now split|discriminate].
Qed.

Lemma raise_for_status_finishes url r : raise_for_status url r <> Unfinished.
Proof.
  unfold raise_for_status.
  destruct ((400 <=? status_code r) && (status_code r <? 500));
    [discriminate|].
  destruct ((500 <=? status_code r) && (status_code r <? 600)); discriminate.
Qed.

(** X8. The synchronous variant never raises either, and returns a
    dictionary whose [success] is a boolean. When [success] is true, both
    requests were made and neither reply had a 4xx or 5xx status, and
    [prompt_result] and [image_result] are the JSON documents of the two
    replies. *)
Theorem hero_image_sync_always_reports :
  forall (guid : pystr) (timeout : Z) (E : env) (w : world),
    exists d b,
      fst (HeroImageSync.generate_hero_image_from_unedited_sync
             guid timeout E w)
      = Ret (VDict d)
      /\ lookup (py "success") d = Some (VBool b)
      /\ (b = true ->
          exists r1 r2,
            http E (sent w) = Responded r1
            /\ http E (S (sent w)) = Responded r2
            /\ ~ (400 <= status_code r1 < 600)
            /\ ~ (400 <= status_code r2 < 600)
            /\ lookup (py "prompt_result") d = json_doc r1
            /\ lookup (py "image_result") d = json_doc r2
            /\ sent (snd (HeroImageSync.generate_hero_image_from_unedited_sync
                            guid timeout E w)) = S (S (sent w))).
Proof.
  intros guid timeout E w.
  unfold HeroImageSync.generate_hero_image_from_unedited_sync. run.
  destruct (http E (sent w)) as [r1|f] eqn:H1; cbn;
    [|destruct f; cbn; report_failure].
  destruct (raise_for_status _ r1) as [[]|e|] eqn:Hc1; cbn;
    [ | apply raise_for_status_raises in Hc1 as [-> ->]; report_failure
      | now apply raise_for_status_finishes in Hc1 ].
  apply raise_for_status_passes in Hc1.
  unfold response_json.
  destruct (json_doc r1) as [p|] eqn:Hj1; cbn; [|report_failure].
  destruct (save_status_get p (py "success")) as [saved|e|] eqn:Hsaved; cbn;
    [ | apply save_status_get_raises in Hsaved as [m ->]; cbn; report_failure
      | now apply save_status_get_finishes in Hsaved ].
  destruct (save_status_get_total _ _ _ Hsaved) as [Hs Hg].
  destruct (Hs (py "hero_image_prompt_id")) as [v1 Hv1].
  destruct (Hg (py "content_source") (VStr (py "unknown"))) as [v2 Hv2].
  rewrite Hv1, Hv2.
  destruct (truthy saved); cbn.
  all: destruct (http E (S (sent w))) as [r2|f] eqn:H2; cbn;
    [|destruct f; cbn; report_failure].
  all: destruct (raise_for_status _ r2) as [[]|e|] eqn:Hc2; cbn;
    [ | apply raise_for_status_raises in Hc2 as [-> ->]; report_failure
      | now apply raise_for_status_finishes in Hc2 ].
  all: apply raise_for_status_passes in Hc2.
  all: destruct (json_doc r2) as [q|] eqn:Hj2; cbn; [|report_failure].
  all: destruct (py_get q (py "success") VNone) as [ok|e|] eqn:Hok; cbn;
    [ | apply py_get_raises in Hok as [m ->]; cbn; report_failure
      | now apply py_get_finishes in Hok ].
  all: destruct q as [| | | | | |dq]; try discriminate Hok.
  all: cbn; destruct (truthy ok); cbn.
  all: eexists _, true.
  all: split; [reflexivity|]; split; [reflexivity|]; intros _.
  all: exists r1, r2.
  all: split; [reflexivity|]; split; [reflexivity|]; split; [assumption|].
  all: split; [assumption|].
  all: split; [rewrite Hj1; reflexivity|].
  all: split; [rewrite Hj2; reflexivity|reflexivity].
Qed.

Lemma hero_image_sync_always_reports_witness :
  sent (snd (HeroImageSync.generate_hero_image_from_unedited_sync
               (py "guid-1") 300 hero_ok_env world0)) = 2%nat.
Proof.
  destruct (hero_image_sync_always_reports (py "guid-1") 300 hero_ok_env
              world0) as (d & b & Hd & Hb & Hsuccess).
  vm_compute in Hd. injection Hd as <-.
  vm_compute in Hb. injection Hb as <-.
  destruct (Hsuccess eq_refl) as (r1 & r2 & _ & _ & _ & _ & _ & _ & Hsent).
  exact Hsent.
Defined.


Definition prompt_created : Response :=
  mkResponse 201 (py "Created") []
    (Some (VDict [(py "save_status",
                   VDict [(py "success", VBool true);
                          (py "hero_image_prompt_id", VStr (py "p-1"))])])) [].

Definition hero_created_env : env :=
  mkEnv (fun n => match n with
                  | O => Responded prompt_created
                  | _ => Responded image_ok
                  end)
        (fun _ => 0).


(** ** Polling in the Medidrive script *)

Definition stages_params (job_id : pystr) : pyval :=
  VDict [(py "job_id", VStr (py "eq." ++ job_id));
         (py "select", VStr (py "*"));
         (py "order", VStr (py "stage"))].

Definition events_params (job_id : pystr) : pyval :=
  VDict [(py "job_id", VStr (py "eq." ++ job_id));
         (py "select", VStr (py "stage,status,message,created_at"));
         (py "order", VStr (py "created_at.desc"));
         (py "limit", VInt 10)].

Definition stages_url : pystr := SUPABASE_URL ++ py "/rest/v1/content_job_stages".
Definition events_url : pystr := SUPABASE_URL ++ py "/rest/v1/content_job_events".

Lemma medidrive_check_stage_progress_exact job_id E w :
  Medidrive.check_stage_progress job_id E w
  = (Ret tt, got stages_url (stages_params job_id) 10 w).
Proof.
  unfold Medidrive.check_stage_progress, got. run.
  destruct (http E (sent w)) as [r|f]; cbn; [reflexivity|].
  destruct f; cbn; reflexivity.
Qed.

Lemma medidrive_check_events_exact job_id E w :
  Medidrive.check_events job_id E w
  = (Ret tt, got events_url (events_params job_id) 10 w).
Proof.
  unfold Medidrive.check_events, got. run.
  destruct (http E (sent w)) as [r|f]; cbn; [reflexivity|].
  destruct f; cbn; reflexivity.
Qed.

Section MedidriveUnchanged.

Variable format : pyval -> pystr.
Variables (E : env) (job_id : pystr) (start_time duration interval : Z).
Variable d : list (pystr * pyval).

Hypothesis interval_nonneg : 0 <= interval.
Hypothesis same_row : forall n, fetched (http E n) = VDict d.
Hypothesis row_truthy : truthy (VDict d) = true.
Hypothesis row_open : is_terminal (get_or d (py "status") VNone) = false.

Let loop fuel := Medidrive.monitor_loop format fuel job_id start_time
                   duration interval.
Let current : pystr :=
  format (get_or d (py "status") VNone) ++ py ":"
    ++ format (get_or d (py "stage") VNone).
Let poll : event := EGet jobs_url (ContentIntake.job_params job_id) 10.

(** The events of a turn of the loop: the first one, and a later one. *)
Definition first_turn : list event :=
  [poll; EGet stages_url (stages_params job_id) 10;
   EGet events_url (events_params job_id) 10; ESleep interval].

Definition later_turn : list event := [poll; ESleep interval].

Definition after_turn (n : nat) (evs : list event) (w : world) : world :=
  mkWorld (sent w + n) (S (reads w)) (trace w ++ evs) (files w).

Lemma medidrive_turn fuel last w :
  clock E (reads w) - start_time < duration ->
  loop (S fuel) last E w
  = if Medidrive.status_changed current last
    then loop fuel (Some current) E (after_turn 3 first_turn w)
    else loop fuel last E (after_turn 1 later_turn w).
Proof.
  intros Ht. apply Z.ltb_lt in Ht. unfold loop. cbn. run. rewrite Ht.
  change (mkWorld (sent w) (S (reads w)) (trace w) (files w)) with (ticked w).
  rewrite medidrive_check_job_status_run. cbn [sent ticked].
  rewrite same_row, row_truthy. cbn.
  fold (get_or d (py "status") VNone). fold (get_or d (py "stage") VNone).
  fold current.
  assert (Hi : (interval <? 0) = false) by now apply Z.ltb_ge.
  destruct (Medidrive.status_changed current last).
  - rewrite medidrive_check_stage_progress_exact. cbn [fst snd].
    rewrite medidrive_check_events_exact. cbn [fst snd].
    rewrite row_open. cbn. unfold sleep. rewrite Hi. run.
    unfold after_turn, first_turn, got. cbn [sent reads trace files ticked].
    f_equal. f_equal; [lia|]. rewrite <- !app_assoc. reflexivity.
  - cbn. rewrite row_open. cbn. unfold sleep. rewrite Hi. run.
    unfold after_turn, later_turn, got. cbn [sent reads trace files ticked].
    f_equal. f_equal; [lia|]. rewrite <- !app_assoc. reflexivity.
Qed.

Lemma medidrive_later_turns :
  forall (k fuel : nat) (w : world),
    (k < fuel)%nat ->
    (forall j, (j < k)%nat ->
               clock E (reads w + j) - start_time < duration) ->
    duration <= clock E (reads w + k) - start_time ->
    loop fuel (Some current) E w
    = (Ret TimeExpired,
       mkWorld (sent w + k) (S (reads w + k))
         (trace w ++ List.concat (List.repeat later_turn k)) (files w)).
Proof.
  induction k as [|k IH]; intros fuel w Hfuel Hbefore Hnow;
    (destruct fuel as [|fuel]; [lia|]).
  - rewrite Nat.add_0_r in Hnow.
    unfold loop. rewrite medidrive_step_expired by assumption.
    unfold ticked. cbn. now rewrite !Nat.add_0_r, app_nil_r.
  - rewrite medidrive_turn
      by (specialize (Hbefore 0%nat); rewrite Nat.add_0_r in Hbefore;
          apply Hbefore; lia).
    cbn [Medidrive.status_changed]. rewrite str_eqb_refl. cbn [negb].
    rewrite IH.
    + unfold after_turn. cbn [sent reads trace files List.repeat List.concat].
      f_equal. f_equal; [lia|f_equal; lia|].
      rewrite <- app_assoc. reflexivity.
    + lia.
    + intros j Hj. cbn [reads after_turn].
      replace (S (reads w) + j)%nat with (reads w + S j)%nat by lia.
      apply Hbefore. lia.
    + cbn [reads after_turn].
      replace (S (reads w) + k)%nat with (reads w + S k)%nat by lia.
      exact Hnow.
Qed.

End MedidriveUnchanged.


Definition always_processing : env :=
  mkEnv (fun _ => Responded processing_row) (fun n => 100 * Z.of_nat n).


(** ** Submitting and fetching a job *)


Definition accepted_list : Response :=
  mkResponse 200 (py "OK") [] (Some (VList [VStr (py "job-42")])) [].




(** ** The schema test *)

Lemma decode_utf8_outcome line :
  match decode_utf8 line with
  | Ret _ => True
  | Raise e => is_Exception e = true
  | Unfinished => False
  end.
Proof. unfold decode_utf8. now destruct (utf8 _). Qed.

(** The loop and [gather] end alike: with the same text, or with the
    error of the first line that cannot be decoded. *)
Lemma stream_lines_gather lines :
  forall st,
    match stream_lines st lines with
    | Ret st' =>
        exists text,
          gather lines = Ret text
          /\ SchemaPerfect.full_response st'
             = SchemaPerfect.full_response st ++ text
    | Raise e => gather lines = Raise e /\ is_Exception e = true
    | Unfinished => False
    end.
Proof.
  induction lines as [|line rest IH]; intros st; cbn [stream_lines gather].
  - exists []. now rewrite app_nil_r.
  - destruct line as [|b line].
    + cbn. apply IH.
    + pose proof (decode_utf8_outcome (b :: line)) as Ho.
      destruct (decode_utf8 (b :: line)) as [t|e|] eqn:Hd; [| |contradiction].
      * destruct (stream_line_full st (b :: line) t ltac:(discriminate) Hd)
          as (st1 & -> & Hf1).
        cbn [res_bind]. specialize (IH st1).
        destruct (stream_lines st1 rest) as [st'|e|]; [| |contradiction].
        -- destruct IH as (g & -> & Hf). cbn [res_bind].
           eexists. split; [reflexivity|].
           rewrite Hf, Hf1, <- !app_assoc. reflexivity.
        -- destruct IH as [-> He]. cbn [res_bind]. now split.
      * assert (Hl : stream_line st (b :: line) = Raise e)
          by (unfold stream_line; rewrite Hd; reflexivity).
        rewrite Hl. cbn [res_bind]. now split.
Qed.

Lemma describe_outcome v :
  match describe v with
  | Ret v' => v' = v /\ exists d, v = VDict d
  | Raise e => is_Exception e = true
  | Unfinished => False
  end.
Proof.
  unfold describe. destruct v as [| | | | | |d]; cbn; try reflexivity.
  destruct (has_key (py "headline") d); cbn.
  - destruct (match lookup (py "headline") d with
              | Some x => x | None => VNone end); cbn;
      try reflexivity; (split; [reflexivity|now exists d]).
  - destruct (has_key (py "name") d); cbn.
    + destruct (match lookup (py "name") d with
                | Some x => x | None => VNone end); cbn;
        try reflexivity; (split; [reflexivity|now exists d]).
    + split; [reflexivity|now exists d].
Qed.

Section SchemaOutcome.

(** A decoder that ends, with a value or with an ordinary exception. *)
Variable json_loads : pystr -> res pyval.
Hypothesis loads_finishes : forall s, json_loads s <> Unfinished.
Hypothesis loads_raises :
  forall s e, json_loads s = Raise e -> is_Exception e = true.

Let schema_request (url : pystr) (w : world) : world :=
  posted api_url (VDict [(py "url", VStr url)]) 120 w.

Lemma extract_outcome text :
  match extract json_loads text with
  | Ret (Some schema) =>
      json_loads (clean text) = Ret schema /\ exists d, schema = VDict d
  | Ret None => True
  | Raise e => is_Exception e = true
  | Unfinished => False
  end.
Proof.
  unfold extract.
  destruct (json_loads (clean text)) as [v|e|] eqn:Hl; cbn [res_bind].
  - pose proof (describe_outcome v) as Hd.
    destruct (describe v) as [v'|e|]; [| |contradiction].
    + destruct Hd as [-> Hdict]. now split.
    + destruct (is_JSONDecodeError e); [exact I|exact Hd].
  - apply loads_raises in Hl. destruct (is_JSONDecodeError e); [exact I|exact Hl].
  - now apply loads_finishes in Hl.
Qed.

Lemma test_schema_perfect_outcome url E w :
  exists o,
    test_schema_perfect json_loads url E w = (Ret o, schema_request url w)
    /\ (forall schema,
           o = Some schema ->
           exists r text d,
             http E (sent w) = Responded r
             /\ status_code r = 200
             /\ gather (iter_lines r) = Ret text
             /\ json_loads (clean text) = Ret schema
             /\ schema = VDict d).
Proof.
  unfold test_schema_perfect, schema_request, posted. run.
  destruct (http E (sent w)) as [r|f] eqn:Hr; cbn.
  - destruct (status_code r =? 200) eqn:Hc; cbn;
      [|exists None; split; [reflexivity|discriminate]].
    apply Z.eqb_eq in Hc.
    pose proof (stream_lines_gather (iter_lines r) initial_state) as Hs.
    destruct (stream_lines initial_state (iter_lines r)) as [st|e|];
      [| |contradiction].
    + destruct Hs as (text & Hg & Hf). cbn in Hf. rewrite Hf.
      pose proof (extract_outcome text) as He.
      destruct (extract json_loads text) as [[schema|]|e|]; cbn;
        [| | |contradiction].
      * exists (Some schema). split; [reflexivity|].
        intros s [= <-]. destruct He as [Hl [d Hd]].
        exists r, text, d. repeat split; assumption.
      * exists None. split; [reflexivity|discriminate].
      * rewrite He. exists None.
        split; [now destruct (is_Timeout e), (is_RequestException e)
               |discriminate].
    + destruct Hs as [_ He]. cbn. rewrite He. exists None.
      split; [now destruct (is_Timeout e), (is_RequestException e)
             |discriminate].
  - exists None. split; [destruct f; reflexivity|discriminate].
Qed.

End SchemaOutcome.

Lemma loads_raises_exception s e :
  JsonDecoder.loads s = Raise e -> is_Exception e = true.
Proof.
  unfold JsonDecoder.loads. destruct (starts_with _ s); [now intros [= <-]|].
  destruct (JsonDecoder.scan_once _ _) as [v r| |];
    [|now intros [= <-]|discriminate].
  destruct (JsonDecoder.skip_ws r); [discriminate|now intros [= <-]].
Qed.

(** X13. With a decoder that ends (as the model of [json.loads] does),
    [test_schema_perfect] never raises and makes one request, the POST of
    the URL to the schema function with a timeout of 120 seconds. What it
    returns is [None] or a schema; a schema is the JSON object decoded
    from the cleaned text of a reply with status 200, all of whose lines
    are UTF-8. *)
Theorem test_schema_perfect_none_or_schema :
  forall (json_loads : pystr -> res pyval),
    (forall s, json_loads s <> Unfinished) ->
    (forall s e, json_loads s = Raise e -> is_Exception e = true) ->
    forall (url : pystr) (E : env) (w : world),
      exists o,
        test_schema_perfect json_loads url E w
        = (Ret o,
           mkWorld (S (sent w)) (reads w)
             (trace w ++ [EPost api_url (VDict [(py "url", VStr url)]) 120])
             (files w))
        /\ (forall schema,
               o = Some schema ->
               exists r text d,
                 http E (sent w) = Responded r
                 /\ status_code r = 200
                 /\ gather (iter_lines r) = Ret text
                 /\ json_loads (clean text) = Ret schema
                 /\ schema = VDict d).
Proof.
  intros json_loads Hfin Hraise url E w.
  exact (test_schema_perfect_outcome json_loads Hfin Hraise url E w).
Qed.

Lemma test_schema_perfect_none_or_schema_witness :
  exists o,
    fst (test_schema_perfect JsonDecoder.loads (py "https://example.com")
           (streamed garbage_then_article) world0) = Ret o.
Proof.
  destruct (test_schema_perfect_none_or_schema JsonDecoder.loads loads_total
              loads_raises_exception (py "https://example.com")
              (streamed garbage_then_article) world0) as (o & Ho & _).
  exists o. now rewrite Ho.
Defined.

(** X14. The script of the schema test writes [test-schema-output.json],
    with the schema dumped at an indent of 2, exactly when
    [test_schema_perfect] returned a schema that is not empty; it tests
    the URL of its first argument, or the default one. In every other
    case, an empty object [{}] among them, it writes nothing and exits
    with status 1. *)
Theorem schema_main_saves_or_exits :
  forall (json_loads : pystr -> res pyval),
    (forall s, json_loads s <> Unfinished) ->
    (forall s e, json_loads s = Raise e -> is_Exception e = true) ->
    forall (argv : list pystr) (E : env) (w : world),
      let url := match argv with
                 | u :: _ => u
                 | [] => SchemaPerfectMain.default_url
                 end in
      let w1 := posted api_url (VDict [(py "url", VStr url)]) 120 w in
      let result := fst (test_schema_perfect json_loads url E w) in
      (exists d,
          d <> []
          /\ result = Ret (Some (VDict d))
          /\ SchemaPerfectMain.main json_loads argv E w
             = (Ret tt,
                mkWorld (sent w1) (reads w1) (trace w1)
                  ((SchemaPerfectMain.output_file, JsonDump (VDict d) 2)
                     :: (SchemaPerfectMain.output_file, Text [])
                     :: files w)))
      \/ ((result = Ret None \/ result = Ret (Some (VDict [])))
          /\ SchemaPerfectMain.main json_loads argv E w
             = (Raise (SystemExit 1), w1)).
Proof.
  intros json_loads Hfin Hraise argv E w url w1 result.
  subst result w1. unfold SchemaPerfectMain.main. fold url.
  destruct (test_schema_perfect_outcome json_loads Hfin Hraise url E w)
    as (o & Hrun & Hschema).
  unfold bind. rewrite Hrun. cbn [fst].
  destruct o as [schema|].
  - destruct (Hschema schema eq_refl) as (r & text & d & _ & _ & _ & _ & ->).
    destruct d as [|p d]; cbn [truthy].
    + right. split; [now right|reflexivity].
    + left. exists (p :: d). split; [discriminate|]. split; [reflexivity|].
      run. reflexivity.
  - right. split; [now left|reflexivity].
Qed.

Lemma schema_main_saves_or_exits_witness :
  fst (SchemaPerfectMain.main JsonDecoder.loads [py "https://example.com"]
         (streamed [line "{}"]) world0)
  = Raise (SystemExit 1).
Proof.
  destruct (schema_main_saves_or_exits JsonDecoder.loads loads_total
              loads_raises_exception [py "https://example.com"]
              (streamed [line "{}"]) world0) as [(d & Hd & Hr & _)|[_ Hm]].
  - exfalso. vm_compute in Hr. injection Hr as <-. now apply Hd.
  - now rewrite Hm.
Defined.

(** ** Blocks that are not closed *)

Lemma find_after_none close s :
  contains close s = false -> find_after close s = None.
Proof.
  induction s as [|c s IH]; cbn [contains find_after]; intros H;
    apply orb_false_iff in H as [H1 H2]; rewrite H1; [reflexivity|].
  now apply IH.
Qed.

Lemma contains_tail p c s :
  contains p (c :: s) = false -> contains p s = false.
Proof. cbn [contains]. intros H. now apply orb_false_iff in H as [_ H]. Qed.

Lemma contains_skipn p n s :
  contains p s = false -> contains p (skipn n s) = false.
Proof.
  revert s. induction n as [|n IH]; intros s H; [exact H|].
  destruct s as [|c s]; [exact H|]. cbn [skipn].
  apply IH. now apply contains_tail in H.
Qed.

Lemma re_sub_block_unclosed open close s :
  contains close s = false -> re_sub_block open close s = s.
Proof.
  induction s as [|c s IH]; intros H; [now simp re_sub_block|].
  rewrite re_sub_block_skip.
  - f_equal. apply IH. now apply contains_tail in H.
  - unfold match_block. destruct (starts_with open (c :: s)); [|reflexivity].
    now rewrite find_after_none by now apply contains_skipn.
Qed.

(** X15. The two substitutions remove closed blocks only. A text that
    holds neither closing tag, such as plain JSON or a text whose
    [<think>] is never closed, comes out of the cleaning stripped of the
    white space around it and otherwise unchanged. *)
Theorem clean_without_closing_tag :
  forall s : pystr,
    contains CLOSE_PROCESSING s = false ->
    contains CLOSE_THINK s = false ->
    clean s = strip s.
Proof.
  intros s Hp Ht. unfold clean.
  rewrite (re_sub_block_unclosed OPEN_PROCESSING CLOSE_PROCESSING s Hp).
  now rewrite (re_sub_block_unclosed OPEN_THINK CLOSE_THINK s Ht).
Qed.

Lemma clean_without_closing_tag_witness :
  clean (py " <think> still thinking ") = py "<think> still thinking".
Proof.
  rewrite (clean_without_closing_tag (py " <think> still thinking ")
             eq_refl eq_refl).
  reflexivity.
Defined.

Lemma lstrip_last l c :
  is_space c = false -> exists l', lstrip (l ++ [c]) = l' ++ [c].
Proof.
  intros Hc. induction l as [|a l IH]; cbn.
  - rewrite Hc. now exists [].
  - destruct (is_space a); [exact IH|]. now exists (a :: l).
Qed.

Lemma strip_keeps_head c s :
  is_space c = false -> exists t, strip (c :: s) = c :: t.
Proof.
  intros Hc. unfold strip, rstrip. cbn [lstrip]. rewrite Hc. cbn [rev].
  destruct (lstrip_last (rev s) c Hc) as [l' ->].
  rewrite rev_app_distr. cbn. now exists (rev l').
Qed.

Lemma loads_rejects_tag t :
  JsonDecoder.loads (lt_sign :: t)
  = Raise (JSONDecodeError (py "Expecting value")).
Proof.
  unfold JsonDecoder.loads, lt_sign. cbn [starts_with N.eqb andb].
  replace (2 * List.length (60%N :: t) + 2)%nat
    with (S (2 * List.length t + 3))%nat by (cbn [List.length]; lia).
  reflexivity.
Qed.

(** X16. With the model of [json.loads], a reply whose gathered text
    starts with a tag and holds no closing tag gives [None]: an opening
    [<think>] that is never closed stays in the text, which is then not
    JSON. *)
Theorem unclosed_block_gives_none :
  forall (url : pystr) (E : env) (w : world) (r : Response) (rest : pystr),
    http E (sent w) = Responded r ->
    status_code r = 200 ->
    gather (iter_lines r) = Ret (lt_sign :: rest) ->
    contains CLOSE_PROCESSING (lt_sign :: rest) = false ->
    contains CLOSE_THINK (lt_sign :: rest) = false ->
    fst (test_schema_perfect JsonDecoder.loads url E w) = Ret None.
Proof.
  intros url E w r rest Hr Hs Hg Hp Ht.
  rewrite (test_schema_perfect_gathered JsonDecoder.loads url E w r
             (lt_sign :: rest)) by assumption.
  unfold extract.
  unfold clean.
  rewrite (re_sub_block_unclosed OPEN_PROCESSING CLOSE_PROCESSING _ Hp).
  rewrite (re_sub_block_unclosed OPEN_THINK CLOSE_THINK _ Ht).
  destruct (strip_keeps_head lt_sign rest eq_refl) as [t ->].
  rewrite loads_rejects_tag. reflexivity.
Qed.

Lemma unclosed_block_gives_none_witness :
  fst (test_schema_perfect JsonDecoder.loads (py "https://example.com")
         (streamed [line "<think>"; article_json]) world0)
  = Ret None.
Proof.
  exact (unclosed_block_gives_none (py "https://example.com")
           (streamed [line "<think>"; article_json]) world0 _ _
           eq_refl eq_refl eq_refl eq_refl eq_refl).
Defined.

(** ** The sequential batch *)

Definition returned (a : res pyval) : bool :=
  match a with Ret _ => true | _ => false end.

(** The entry the sequential batch appends for a task, from what
    [generate_html] gave. *)
Definition sequential_entry_of (task_id : pystr) (a : res pyval) : pyval :=
  match a with
  | Ret result =>
      match result with
      | VDict d =>
          PythonExamples.sequential_entry task_id
            (get_or d (py "success") VNone) (get_or d (py "error") VNone)
      | _ => VNone
      end
  | Raise e => PythonExample.failed_entry task_id e
  | Unfinished => VNone
  end.

Section Sequential.

Variable E : env.

Let url := PythonExample.FUNCTION_URL.
Let answer (n : nat) := html_answer url (http E n).

(** The entries for the tasks [task_ids], the first of which is answered
    by the [from]-th reply. *)
Fixpoint sequential_entries (from : nat) (task_ids : list pystr)
  : list pyval :=
  match task_ids with
  | [] => []
  | task_id :: rest =>
      sequential_entry_of task_id (answer from)
        :: sequential_entries (S from) rest
  end.

(** The pauses made: one after each call that returned, the last task
    apart. *)
Fixpoint pauses (from : nat) (task_ids : list pystr) : nat :=
  match task_ids with
  | [] => 0
  | _ :: rest =>
      ((if returned (answer from) && negb (Nat.eqb (List.length rest) 0)
        then 1 else 0)
       + pauses (S from) rest)%nat
  end.

Lemma sequential_turn n i task_id rest results w :
  PythonExamples.sequential_loop n i (task_id :: rest) results E w
  = PythonExamples.sequential_loop n (i + 1) rest
      (results ++ [sequential_entry_of task_id (answer (sent w))]) E
      (if returned (answer (sent w)) && (i <? n)
       then slept 2 (posted url (VDict [(py "task_id", VStr task_id)]) 300 w)
       else posted url (VDict [(py "task_id", VStr task_id)]) 300 w).
Proof.
  cbn [PythonExamples.sequential_loop]. unfold bind at 1, try_except.
  unfold bind at 1. rewrite generate_html_run. fold url. fold (answer (sent w)).
  pose proof (html_answer_outcome url (http E (sent w))) as Ho.
  pose proof (html_answer_returns url (http E (sent w))) as Hr.
  fold (answer (sent w)) in Ho, Hr.
  destruct (answer (sent w)) as [result|e|]; [| |contradiction].
  - destruct (Hr result eq_refl) as (r & d & _ & _ & _ & -> & _).
    cbn [returned andb sequential_entry_of]. run. cbn.
    destruct (i <? n); reflexivity.
  - cbn [returned andb sequential_entry_of]. rewrite Ho. reflexivity.
Qed.

Lemma sequential_loop_run :
  forall (task_ids : list pystr) (n i : Z) (results : list pyval) (w : world),
    n = i + Z.of_nat (List.length task_ids) - 1 ->
    exists w',
      PythonExamples.sequential_loop n i task_ids results E w
      = (Ret (results ++ sequential_entries (sent w) task_ids), w')
      /\ sent w' = (sent w + List.length task_ids)%nat
      /\ reads w' = reads w
      /\ files w' = files w
      /\ sleeps (trace w')
         = sleeps (trace w) ++ List.repeat 2 (pauses (sent w) task_ids).
Proof.
  induction task_ids as [|task_id rest IH]; intros n i results w Hn.
  - exists w. cbn. rewrite !app_nil_r, Nat.add_0_r. repeat split.
  - rewrite sequential_turn.
    assert (Hlast : (i <? n) = negb (Nat.eqb (List.length rest) 0)).
    { cbn [List.length] in Hn. destruct rest as [|t rest]; cbn.
      - apply Z.ltb_ge. cbn in Hn. lia.
      - apply Z.ltb_lt. cbn [List.length] in Hn. lia. }
    rewrite Hlast.
    match goal with
    | |- context [PythonExamples.sequential_loop _ _ _ _ E ?w0] =>
        destruct (IH n (i + 1) (results ++ [sequential_entry_of task_id
                                              (answer (sent w))]) w0)
          as (w' & -> & Hs & Hr & Hf & Hz)
    end.
    { cbn [List.length] in Hn. lia. }
    exists w'. cbn [sequential_entries pauses].
    assert (Hsent : forall b : bool,
               sent (if b
                     then slept 2 (posted url (VDict [(py "task_id",
                                                       VStr task_id)]) 300 w)
                     else posted url (VDict [(py "task_id", VStr task_id)])
                            300 w) = S (sent w))
      by (intros []; reflexivity).
    rewrite Hsent in *.
    split; [now rewrite <- app_assoc|].
    split; [cbn [List.length]; lia|].
    split; [rewrite Hr; now destruct (_ && _)|].
    split; [rewrite Hf; now destruct (_ && _)|].
    rewrite Hz.
    destruct (returned (answer (sent w)) && negb (Nat.eqb (List.length rest) 0));
      cbn [slept posted trace]; rewrite !sleeps_app; cbn;
      rewrite ?app_nil_r, <- ?app_assoc; reflexivity.
Qed.

End Sequential.

Lemma sequential_entry_task_id url task_id o :
  entry_task_id (sequential_entry_of task_id (html_answer url o))
  = Some task_id.
Proof.
  pose proof (html_answer_outcome url o) as Ho.
  pose proof (html_answer_returns url o) as Hr.
  destruct (html_answer url o) as [result|e|]; [| |contradiction].
  - destruct (Hr result eq_refl) as (r & d & _ & _ & _ & -> & _).
    unfold entry_task_id. cbn. now rewrite str_eqb_refl.
  - apply failed_entry_task_id.
Qed.

Lemma sequential_entries_task_ids E task_ids :
  forall from,
    List.map entry_task_id (sequential_entries E from task_ids)
    = List.map Some task_ids.
Proof.
  induction task_ids as [|task_id rest IH]; intros from; [reflexivity|].
  cbn [sequential_entries List.map].
  now rewrite sequential_entry_task_id, IH.
Qed.

Lemma pauses_bound E task_ids :
  forall from, (pauses E from task_ids <= List.length task_ids - 1)%nat.
Proof.
  induction task_ids as [|task_id rest IH]; intros from; [cbn; lia|].
  cbn [pauses List.length]. specialize (IH (S from)).
  destruct rest as [|t rest].
  - cbn in *. rewrite andb_false_r. lia.
  - cbn [List.length] in *. destruct (_ && _); lia.
Qed.

(** X17. [example_batch_sequential] never raises. It makes one request
    per task, in the order of the list, and returns one entry per task in
    that order: the [success] and [error] of the reply when
    [generate_html] returned, a failure with the error's text when it
    raised. It sleeps 2 seconds after each call that returned, the last
    task apart; a call that raised is not followed by a pause. *)
Theorem example_batch_sequential_entries :
  forall (E : env) (task_ids : list pystr) (w : world),
    exists w',
      PythonExamples.example_batch_sequential task_ids E w
      = (Ret (sequential_entries E (sent w) task_ids), w')
      /\ List.map entry_task_id (sequential_entries E (sent w) task_ids)
         = List.map Some task_ids
      /\ sent w' = (sent w + List.length task_ids)%nat
      /\ sleeps (trace w')
         = sleeps (trace w) ++ List.repeat 2 (pauses E (sent w) task_ids)
      /\ (pauses E (sent w) task_ids <= List.length task_ids - 1)%nat.
Proof.
  intros E task_ids w. unfold PythonExamples.example_batch_sequential.
  destruct (sequential_loop_run E task_ids (Z.of_nat (List.length task_ids))
              1 [] w ltac:(lia)) as (w' & Hrun & Hs & _ & _ & Hz).
  exists w'. split; [exact Hrun|].
  split; [apply sequential_entries_task_ids|].
  split; [exact Hs|]. split; [exact Hz|apply pauses_bound].
Qed.

(** X18. [example_simple] never raises, whatever the network answers and
    whatever the reply holds: it makes its one request and returns. *)
Theorem example_simple_never_raises :
  forall (task_id : pystr) (E : env) (w : world),
    PythonExamples.example_simple task_id E w
    = (Ret tt,
       mkWorld (S (sent w)) (reads w)
         (trace w ++ [EPost PythonExample.FUNCTION_URL
                        (VDict [(py "task_id", VStr task_id)]) 300])
         (files w)).
Proof.
  intros task_id E w. unfold PythonExamples.example_simple.
  unfold try_except, bind at 1. rewrite generate_html_run.
  pose proof (html_answer_outcome PythonExample.FUNCTION_URL
                (http E (sent w))) as Ho.
  pose proof (html_answer_returns PythonExample.FUNCTION_URL
                (http E (sent w))) as Hr.
  destruct (html_answer _ _) as [result|e|]; [| |contradiction].
  - destruct (Hr result eq_refl) as (r & d & _ & _ & _ & -> & _).
    run. cbn. destruct (truthy _); cbn; [|reflexivity].
    destruct (match lookup (py "html") d with
              | Some x => x | None => VStr [] end); reflexivity.
  - rewrite Ho. reflexivity.
Qed.

(** ** The scripts that save the result *)


Definition html_as_list : Response :=
  mkResponse 200 (py "OK") []
    (Some (VDict [(py "success", VBool true);
                  (py "html", VList [VStr (py "<p>hi</p>")]);
                  (py "schema", VDict [(py "@type", VStr (py "Article"))])]))
    [].


(** X20. The quick-start script never raises and never exits with an
    error status: whatever the network answers it makes its one request
    and returns. When [generate_html] raised, or returned a result whose
    [success] is not true, it has written no file. *)
Theorem quickstart_main_always_returns :
  forall (TASK_ID : pystr) (E : env) (w : world),
    exists w',
      QuickStart.main TASK_ID E w = (Ret tt, w')
      /\ sent w' = S (sent w)
      /\ (forall e,
             fst (QuickStart.generate_html TASK_ID E w) = Raise e ->
             files w' = files w)
      /\ (forall d,
             fst (QuickStart.generate_html TASK_ID E w) = Ret (VDict d) ->
             truthy (get_or d (py "success") VNone) = false ->
             files w' = files w).
Proof.
  intros TASK_ID E w. unfold QuickStart.main. run.
  rewrite quickstart_generate_html_run. cbn [fst].
  pose proof (html_answer_outcome QuickStart.FUNCTION_URL (http E (sent w)))
    as Ho.
  pose proof (html_answer_returns QuickStart.FUNCTION_URL (http E (sent w)))
    as Hr.
  destruct (html_answer _ _) as [result|e|]; [| |contradiction].
  - destruct (Hr result eq_refl) as (r & d & _ & _ & _ & -> & _). clear Hr.
    cbn. unfold get_or.
    destruct (truthy match lookup (py "success") d with
                     | Some v => v | None => VNone end) eqn:Hok; cbn.
    + destruct (match lookup (py "html") d with
                | Some x => x | None => VStr [] end); cbn;
        try (eexists; split; [reflexivity|]; split; [reflexivity|];
             split; [discriminate|intros d' [= <-]; congruence]).
      destruct (lookup (py "schema") d) as [schema|]; cbn;
        [destruct (truthy schema); cbn|];
        (eexists; split; [reflexivity|]; split; [reflexivity|];
         split; [discriminate|intros d' [= <-]; congruence]).
    + eexists; split; [reflexivity|]; split; [reflexivity|].
      split; [discriminate|reflexivity].
  - rewrite Ho.
    destruct (is_Timeout e), (is_RequestException e); cbn;
      (eexists; split; [reflexivity|]; split; [reflexivity|];
       split; [reflexivity|discriminate]).
Qed.

Lemma quickstart_main_always_returns_witness :
  files (snd (QuickStart.main QuickStart.TASK_ID always_500 world0)) = [].
Proof.
  destruct (quickstart_main_always_returns QuickStart.TASK_ID always_500
              world0) as (w' & Hrun & _ & Hraised & _).
  rewrite Hrun. cbn [snd]. eapply Hraised. vm_compute. reflexivity.
Defined.

(** ** The retry helper at its edges *)

(** A turn whose call did not succeed, for any delay: the turn sleeps
    when it is not the last, and a sleep of a negative length raises, in
    the handler too. *)
Lemma attempt_once_any_delay E task_id max_retries retry_delay attempt w :
  succeeded (html_answer PythonExample.FUNCTION_URL (http E (sent w))) = false ->
  let w1 := posted PythonExample.FUNCTION_URL
              (VDict [(py "task_id", VStr task_id)]) 300 w in
  PythonExample.attempt_once task_id max_retries retry_delay attempt E w
  = if attempt <? max_retries then
      if retry_delay <? 0 then
        (Raise (ValueError (py "sleep length must be non-negative")), w1)
      else (Ret None, slept retry_delay w1)
    else (Ret None, w1).
Proof.
  intros Hs w1. subst w1. unfold PythonExample.attempt_once. run.
  rewrite generate_html_run.
  pose proof (html_answer_outcome PythonExample.FUNCTION_URL
                (http E (sent w))) as Ho.
  unfold sleep.
  destruct (html_answer _ _) as [result|e|]; [| |contradiction].
  - cbn in Hs.
    destruct result as [| | | | | |d]; cbn in *;
      try (destruct (attempt <? max_retries), (retry_delay <? 0);
           reflexivity).
    rewrite Hs. cbn.
    destruct (attempt <? max_retries), (retry_delay <? 0); reflexivity.
  - cbn. rewrite Ho.
    destruct (is_Timeout e), (attempt <? max_retries), (retry_delay <? 0);
      reflexivity.
Qed.



(** ** The two test scripts from start to end *)

Definition backlog_url : pystr :=
  SUPABASE_URL ++ py "/rest/v1/rpc/get_content_stage_backlog".

Definition intake_url : pystr := SUPABASE_URL ++ py "/functions/v1/content-intake".

Lemma check_stage_backlog_run E w :
  ContentIntakeMain.check_stage_backlog E w
  = (Ret tt, posted backlog_url (VDict []) 10 w).
Proof.
  unfold ContentIntakeMain.check_stage_backlog, posted. run.
  destruct (http E (sent w)) as [r|f]; cbn; [reflexivity|].
  destruct f; cbn; reflexivity.
Qed.

Lemma intake_check_job_events_exact job_id E w :
  ContentIntake.check_job_events job_id E w
  = (Ret tt, got events_url (events_params job_id) 10 w).
Proof.
  unfold ContentIntake.check_job_events, got. run.
  destruct (http E (sent w)) as [r|f]; cbn; [reflexivity|].
  destruct f; cbn; reflexivity.
Qed.

Lemma intake_submit_run E w :
  ContentIntake.submit_job E w
  = (submitted (http E (sent w)), posted intake_url ContentIntake.TEST_JOB 30 w).
Proof.
  rewrite (surjective_pairing (ContentIntake.submit_job E w)).
  now rewrite intake_submit_result, intake_submit_world.
Qed.

Lemma medidrive_submit_run E w :
  Medidrive.submit_job E w
  = (submitted (http E (sent w)),
     posted intake_url Medidrive.MEDIDRIVE_JOB 30 w).
Proof.
  rewrite (surjective_pairing (Medidrive.submit_job E w)).
  now rewrite medidrive_submit_result, medidrive_submit_world.
Qed.

(** The world after the events [evs] that hold [n] requests. *)
Definition after (n : nat) (evs : list event) (w : world) : world :=
  mkWorld (sent w + n) (reads w) (trace w ++ evs) (files w).





(** ** The kick-off of the polling *)

(** X24. [generate_with_polling] lets pass a kick-off request that times
    out, and nothing else: when the request fails in another way, as a
    refused connection, it raises that error at once, before it reads the
    clock or sleeps. *)
Theorem generate_with_polling_kickoff_error :
  forall (E : env) (w : world) (url task_id : pystr)
         (poll_interval max_wait : Z) (fuel : nat) (f : failure),
    http E (sent w) = Failed f ->
    (forall m, f <> TimedOut m) ->
    PythonExample.generate_with_polling fuel url task_id poll_interval
      max_wait E w
    = (Raise (exn_of_failure f), kicked_off url task_id w).
Proof.
  intros E w url task_id poll_interval max_wait fuel f Hf Hnot.
  unfold PythonExample.generate_with_polling, kicked_off, posted. run.
  rewrite Hf. destruct f as [m|m|m]; cbn; try reflexivity.
  now destruct (Hnot m).
Qed.

Lemma generate_with_polling_kickoff_error_witness :
  PythonExample.generate_with_polling 0 PythonExample.FUNCTION_URL
    (py "task-1") 5 600
    (mkEnv (fun _ => Failed (NoConnection (py "refused"))) (fun _ => 0)) world0
  = (Raise (ConnectionError (py "refused")),
     kicked_off PythonExample.FUNCTION_URL (py "task-1") world0).
Proof.
  refine (generate_with_polling_kickoff_error
            (mkEnv (fun _ => Failed (NoConnection (py "refused"))) (fun _ => 0))
            world0 PythonExample.FUNCTION_URL (py "task-1") 5 600 0
            (NoConnection (py "refused")) eq_refl _).
  intros m. discriminate.
Defined.
